(** * twitch-go: the go-live command, embedded and verified

    A shallow embedding of [twitch_go.py]: the module-level credential
    loading, the OAuth helpers, the Twitch API helpers, the OBS helpers and
    [run_preset].  Python values are a small dynamic [value] type, the
    outside world (token file, network, terminal, OBS) is an explicit state,
    and every function is a state-and-exception computation that also
    returns the list of the external actions it performed.

    What stands for the outside world:
    - the network is the list of the answers it will give, one per request,
      in order; the properties hold for every such list, so for every
      server;
    - the terminal is the list of the lines the user will type;
    - OBS is the endpoint it listens on, if it runs, and whether it is
      streaming;
    - [os.environ] is an association list, as it is after [load_dotenv].

    The command line around [run_preset] comes last in the definitions:
    [bootstrap], the module-level loading of [.env], [load_config], the
    editor, the usage, the intro command and [main], on a machine that has
    the application directory, the environment and the installed programs
    besides the world above.  The YAML parser and the [.env] parser are
    library code and parameters of that part.  [bump_version] of
    [release.py] closes the definitions. *)

From Stdlib Require Import ZArith NArith List String Ascii Bool Arith Lia.
Import ListNotations.
Local Open Scope string_scope.
Local Open Scope list_scope.

(** ** Python values *)

(** What [json.loads], [r.json()] and [yaml.safe_load] return: None, bool,
    int, str, list and str-keyed dict.  A dict keeps its items in insertion
    order, as Python's does.  Floats are not represented. *)
#[warnings="-register-all"]
Inductive value : Type :=
| VNone
| VBool (b : bool)
| VInt (n : Z)
| VStr (s : string)
| VList (l : list value)
| VDict (d : list (string * value)).

(** [bool(v)], the test behind [if v] and [if not v]. *)
Definition truthy (v : value) : bool :=
  match v with
  | VNone => false
  | VBool b => b
  | VInt n => negb (n =? 0)%Z
  | VStr s => negb (s =? "")
  | VList l => match l with [] => false | _ :: _ => true end
  | VDict d => match d with [] => false | _ :: _ => true end
  end.

Fixpoint lookup {A : Type} (k : string) (d : list (string * A)) : option A :=
  match d with
  | [] => None
  | (k', x) :: d' => if k' =? k then Some x else lookup k d'
  end.

(** The exceptions the program can meet.  [HTTPError] is what
    [raise_for_status] raises; [ConnectionError], [Timeout] and
    [JSONDecodeError] are the other [requests] exceptions, none of them a
    subclass of [HTTPError]. *)
Inductive exn : Type :=
| HTTPError (status : Z)
| ConnectionError
| Timeout
| JSONDecodeError
| KeyError (k : value)
| IndexError
| TypeError
| AttributeError
| ValueError
| EOFError
| OBSError
| SystemExit (code : Z).

(** ** Strings *)

Definition nl : string := String (ascii_of_nat 10) "".

(** A str built by an f-string: literal pieces and [str(v)] of values.
    [str] and [repr] of a value are kept symbolic. *)
Inductive frag : Type :=
| Lit (s : string)
| Fmt (v : value)      (* str(v) *)
| Repr (v : value).    (* repr(v); str of a KeyError is the repr of its key *)

Definition text : Type := list frag.

Definition byte_in (lo hi : nat) (c : ascii) : bool :=
  Nat.leb lo (nat_of_ascii c) && Nat.leb (nat_of_ascii c) hi.

(** The rest of [s] after one leading whitespace character, in the sense of
    [str.isspace], on the UTF-8 bytes of [s]. *)
Definition ws_head (s : string) : option string :=
  match s with
  | "" => None
  | String a r =>
      if byte_in 9 13 a || byte_in 28 32 a then Some r
      else
        match nat_of_ascii a, r with
        | 194, String b r2 =>
            if byte_in 133 133 b || byte_in 160 160 b then Some r2 else None
        | 225, String b (String c r3) =>
            if byte_in 154 154 b && byte_in 128 128 c then Some r3 else None
        | 226, String b (String c r3) =>
            if byte_in 128 128 b
               && (byte_in 128 138 c || byte_in 168 169 c || byte_in 175 175 c)
            then Some r3
            else if byte_in 129 129 b && byte_in 159 159 c then Some r3
            else None
        | 227, String b (String c r3) =>
            if byte_in 128 128 b && byte_in 128 128 c then Some r3 else None
        | _, _ => None
        end
  end.

Fixpoint lstrip_fuel (n : nat) (s : string) : string :=
  match n with
  | O => s
  | S n' => match ws_head s with Some r => lstrip_fuel n' r | None => s end
  end.

Definition lstrip (s : string) : string := lstrip_fuel (String.length s) s.

Fixpoint all_ws_fuel (n : nat) (s : string) : bool :=
  match n with
  | O => match s with "" => true | _ => false end
  | S n' =>
      match s with
      | "" => true
      | _ => match ws_head s with Some r => all_ws_fuel n' r | None => false end
      end
  end.

Definition all_ws (s : string) : bool := all_ws_fuel (String.length s) s.

Fixpoint rstrip (s : string) : string :=
  match s with
  | "" => ""
  | String c r => if all_ws s then "" else String c (rstrip r)
  end.

(** [s.strip()] *)
Definition strip (s : string) : string := rstrip (lstrip s).

Definition lower_ascii (c : ascii) : ascii :=
  if byte_in 65 90 c then ascii_of_nat (nat_of_ascii c + 32) else c.

(** [s.lower()] on the ASCII letters; the other bytes are kept.  No
    character other than [N] lowercases to [n], so the comparison of
    [run_preset] with ["n"] is exact. *)
Fixpoint lower (s : string) : string :=
  match s with
  | "" => ""
  | String c r => String (lower_ascii c) (lower r)
  end.

(** The characters of a str: its UTF-8 bytes cut at the code points. *)
Fixpoint chars (s : string) : list string :=
  match s with
  | "" => []
  | String c r =>
      match r with
      | "" => [String c ""]
      | String c' _ =>
          if byte_in 128 191 c'
          then match chars r with
               | h :: t => String c h :: t
               | [] => [String c ""]
               end
          else String c "" :: chars r
      end
  end.

Fixpoint strs (l : list value) : option (list string) :=
  match l with
  | [] => Some []
  | VStr s :: l' => option_map (cons s) (strs l')
  | _ :: _ => None
  end.

(** [sep.join(v)]: [v] must be an iterable of str. *)
Definition join (sep : string) (v : value) : option string :=
  match v with
  | VList l => option_map (String.concat sep) (strs l)
  | VStr s => Some (String.concat sep (chars s))
  | VDict d => Some (String.concat sep (map fst d))
  | _ => None
  end.

(** *** [int] of a str *)

(** The code points of a str, from its UTF-8 bytes.  [need] continuation
    bytes are still to come for the code point whose leading bits are
    [acc]; [low] is the least code point that takes an encoding of that
    length.  [None]: the bytes are no UTF-8, and the str that [os.environ]
    makes of them holds a surrogate. *)
Fixpoint code_points (s : string) (need : nat) (acc low : N)
  : option (list N) :=
  match s with
  | "" => match need with O => Some [] | S _ => None end
  | String b r =>
      let n := N_of_ascii b in
      match need with
      | O =>
          if n <? 128 then option_map (cons n) (code_points r 0 0 0)
          else if (194 <=? n) && (n <=? 223) then code_points r 1 (n - 192) 128
          else if (224 <=? n) && (n <=? 239) then code_points r 2 (n - 224) 2048
          else if (240 <=? n) && (n <=? 244) then code_points r 3 (n - 240) 65536
          else None
      | S need' =>
          if (128 <=? n) && (n <=? 191)
          then
            let acc' := acc * 64 + (n - 128) in
            match need' with
            | O =>
                if (low <=? acc') && (acc' <=? 1114111)
                   && negb ((55296 <=? acc') && (acc' <=? 57343))
                then option_map (cons acc') (code_points r 0 0 0)
                else None
            | S _ => code_points r need' acc' low
            end
          else None
      end
  end%N.

(** The whitespace beyond ASCII, [Py_UNICODE_ISSPACE]. *)
Definition unicode_space (c : N) : bool :=
  ((c =? 133) || (c =? 160) || (c =? 5760)
   || ((8192 <=? c) && (c <=? 8202))
   || (c =? 8232) || (c =? 8233) || (c =? 8239) || (c =? 8287)
   || (c =? 12288))%N.

(** The decimal digits of Unicode 14.0, the database of CPython 3.11: the
    first code point of each block and the number of its code points,
    which count from 0 to 9 over and over. *)
Definition decimal_blocks : list (N * N) :=
  [(48, 10); (1632, 10); (1776, 10); (1984, 10); (2406, 10); (2534, 10);
   (2662, 10); (2790, 10); (2918, 10); (3046, 10); (3174, 10); (3302, 10);
   (3430, 10); (3558, 10); (3664, 10); (3792, 10); (3872, 10); (4160, 10);
   (4240, 10); (6112, 10); (6160, 10); (6470, 10); (6608, 10); (6784, 10);
   (6800, 10); (6992, 10); (7088, 10); (7232, 10); (7248, 10); (42528, 10);
   (43216, 10); (43264, 10); (43472, 10); (43504, 10); (43600, 10);
   (44016, 10); (65296, 10); (66720, 10); (68912, 10); (69734, 10);
   (69872, 10); (69942, 10); (70096, 10); (70384, 10); (70736, 10);
   (70864, 10); (71248, 10); (71360, 10); (71472, 10); (71904, 10);
   (72016, 10); (72784, 10); (73040, 10); (73120, 10); (92768, 10);
   (92864, 10); (93008, 10); (120782, 50); (123200, 10); (123632, 10);
   (125264, 10); (130032, 10)]%N.

(** [Py_UNICODE_TODECIMAL] *)
Definition unicode_decimal (c : N) : option N :=
  match
    find (fun b => (fst b <=? c) && (c <? fst b + snd b))%N decimal_blocks
  with
  | Some b => Some ((c - fst b) mod 10)%N
  | None => None
  end.

(** What [int] makes of the characters before it reads them: an ASCII
    character is kept, a whitespace becomes a space and a decimal digit
    its ASCII digit; [None] for any other character, which [int]
    rejects. *)
Fixpoint to_ascii (l : list N) : option (list N) :=
  match l with
  | [] => Some []
  | c :: r =>
      let a :=
        if (c <? 127)%N then Some c
        else if unicode_space c then Some 32%N
        else option_map (N.add 48) (unicode_decimal c) in
      match a with
      | Some x => option_map (cons x) (to_ascii r)
      | None => None
      end
  end.

(** [Py_ISSPACE]: the ASCII whitespace of C. *)
Definition is_space (c : N) : bool := (((9 <=? c) && (c <=? 13)) || (c =? 32))%N.

Fixpoint skip_spaces (l : list N) : list N :=
  match l with
  | c :: r => if is_space c then skip_spaces r else l
  | [] => []
  end.

(** Decimal digits with single underscores between them, then whitespace
    to the end: the value read and the number of its digits.  [acc] is the
    value read so far, [n] the number of digits read, [seen] whether the
    previous character was a digit. *)
Fixpoint digits (l : list N) (acc n : Z) (seen : bool) : option (Z * Z) :=
  match l with
  | [] => if seen then Some (acc, n) else None
  | c :: r =>
      if ((48 <=? c) && (c <=? 57))%N
      then digits r (10 * acc + Z.of_N (c - 48))%Z (n + 1)%Z true
      else if (c =? 95)%N && seen then digits r acc n false
      else if seen && forallb is_space l then Some (acc, n)
      else None
  end.

(** [sys.get_int_max_str_digits()], as the interpreter starts. *)
Definition int_max_str_digits : Z := 4300.

(** [int(s)] for a str: decimal digits of any script with an optional
    sign, single underscores between digits, whitespace around, and no
    more than [int_max_str_digits] digits; [None] is ValueError. *)
Definition py_int (s : string) : option Z :=
  match code_points s 0 0 0 with
  | Some cs =>
      match to_ascii cs with
      | Some l =>
          let l := skip_spaces l in
          let signed :=
            match l with
            | c :: r =>
                if (c =? 45)%N then (true, r)
                else if (c =? 43)%N then (false, r)
                else (false, l)
            | [] => (false, l)
            end in
          match digits (snd signed) 0 0 false with
          | Some (v, n) =>
              if (n <=? int_max_str_digits)%Z
              then Some (if fst signed then (- v)%Z else v)
              else None
          | None => None
          end
      | None => None
      end
  | None => None
  end.

(** ** The outside world *)

(** [tokens.json].  [save_tokens] writes [json.dumps(tokens)] and
    [load_tokens] reads it back with [json.loads]: the file is kept as the
    value its text encodes, [Garbled] when the text is not JSON. *)
Inductive file : Type :=
| Absent
| Garbled
| Holds (v : value).

(** What the network does with one request: a response with its status
    code and its body ([None] when the body is not JSON), or no response. *)
Inductive reply : Type :=
| Response (status : Z) (body : option value)
| Dropped
| TimedOut.

Inductive method : Type := GET | POST | PATCH.

Record request : Type := mkRequest {
  rq_method : method;
  rq_url : string;
  rq_headers : list (string * text);
  rq_params : list (string * value);
  rq_data : list (string * value);
  rq_json : option value
}.

(** The external actions, each with what came back, in the order they
    happen. *)
Inductive event : Type :=
| Print (t : text)
| Input (p : string) (line : option string)   (* [None]: end of input *)
| Http (rq : request) (r : reply)
| ObsConnect (host : string) (port : Z) (password : value) (connected : bool)
| ObsGetStreamStatus (output_active : bool)
| ObsStartStream
| ObsStopStream.

Record world : Type := mkWorld {
  token_file : file;
  network : list reply;        (* the answers to the successive requests *)
  stdin : list string;         (* the lines the user will type *)
  obs_endpoint : option (string * Z * string);
                               (* host, port and password of a running OBS *)
  obs_active : bool            (* is OBS streaming *)
}.

Definition set_token_file (f : file) (w : world) : world :=
  mkWorld f (network w) (stdin w) (obs_endpoint w) (obs_active w).
Definition set_network (n : list reply) (w : world) : world :=
  mkWorld (token_file w) n (stdin w) (obs_endpoint w) (obs_active w).
Definition set_stdin (i : list string) (w : world) : world :=
  mkWorld (token_file w) (network w) i (obs_endpoint w) (obs_active w).
Definition set_obs_active (b : bool) (w : world) : world :=
  mkWorld (token_file w) (network w) (stdin w) (obs_endpoint w) b.

(** ** Computations *)

Inductive outcome (A : Type) : Type :=
| Ret (a : A)
| Raise (e : exn).
Arguments Ret {A} a.
Arguments Raise {A} e.

(** From a world to an outcome, the world after, and the actions performed. *)
Definition M (A : Type) : Type := world -> outcome A * world * list event.

Definition ret {A} (a : A) : M A := fun w => (Ret a, w, []).

Definition raise {A} (e : exn) : M A := fun w => (Raise e, w, []).

Definition bind {A B} (m : M A) (f : A -> M B) : M B :=
  fun w =>
    match m w with
    | (Ret a, w1, t1) =>
        match f a w1 with
        | (o, w2, t2) => (o, w2, t1 ++ t2)
        end
    | (Raise e, w1, t1) => (Raise e, w1, t1)
    end.

(** [try: m  except ...: h e] where [h e = None] for an exception the
    clause does not name. *)
Definition try_except {A} (m : M A) (h : exn -> option (M A)) : M A :=
  fun w =>
    match m w with
    | (Ret a, w1, t1) => (Ret a, w1, t1)
    | (Raise e, w1, t1) =>
        match h e with
        | Some k => match k w1 with (o, w2, t2) => (o, w2, t1 ++ t2) end
        | None => (Raise e, w1, t1)
        end
    end.

Declare Scope py_scope.
Delimit Scope py_scope with py.
Notation "x <- c1 ;; c2" := (bind c1 (fun x => c2))
  (at level 100, c1 at next level, right associativity) : py_scope.
Notation "c1 ;; c2" := (bind c1 (fun _ => c2))
  (at level 100, right associativity) : py_scope.
Local Open Scope py_scope.

Definition outcome_of {A} (r : outcome A * world * list event) : outcome A :=
  fst (fst r).
Definition world_of {A} (r : outcome A * world * list event) : world :=
  snd (fst r).
Definition trace_of {A} (r : outcome A * world * list event) : list event :=
  snd r.

(** *** Subscripts and attribute calls on values *)

(** [v[k]] for a str key. *)
Definition getitem (v : value) (k : string) : M value :=
  match v with
  | VDict d =>
      match lookup k d with
      | Some x => ret x
      | None => raise (KeyError (VStr k))
      end
  | _ => raise TypeError
  end.

(** [v[0]] *)
Definition getitem0 (v : value) : M value :=
  match v with
  | VList (x :: _) => ret x
  | VList [] => raise IndexError
  | VStr s =>
      match chars s with
      | c :: _ => ret (VStr c)
      | [] => raise IndexError
      end
  | VDict _ => raise (KeyError (VInt 0))
  | _ => raise TypeError
  end.

(** [v.get(k, default)] *)
Definition get (v : value) (k : string) (default : value) : M value :=
  match v with
  | VDict d =>
      ret (match lookup k d with Some x => x | None => default end)
  | _ => raise AttributeError
  end.

(** *** The terminal *)

Definition print (t : text) : M unit := fun w => (Ret tt, w, [Print t]).

(** [input(p)]: writes [p], reads one line; EOFError at end of input. *)
Definition input (p : string) : M string :=
  fun w =>
    match stdin w with
    | [] => (Raise EOFError, w, [Input p None])
    | line :: rest => (Ret line, set_stdin rest w, [Input p (Some line)])
    end.

(** *** requests *)

(** One request: the next answer of the network; a network with no answer
    left drops the request. *)
Definition send (rq : request) : M (Z * option value) :=
  fun w =>
    match network w with
    | [] => (Raise ConnectionError, w, [Http rq Dropped])
    | Response status body :: rest =>
        (Ret (status, body), set_network rest w,
         [Http rq (Response status body)])
    | Dropped :: rest =>
        (Raise ConnectionError, set_network rest w, [Http rq Dropped])
    | TimedOut :: rest =>
        (Raise Timeout, set_network rest w, [Http rq TimedOut])
    end.

Definition http_error (status : Z) : bool :=
  (400 <=? status)%Z && (status <? 600)%Z.

(** [r.raise_for_status()]: HTTPError for a 4xx or 5xx status. *)
Definition raise_for_status (r : Z * option value) : M unit :=
  if http_error (fst r) then raise (HTTPError (fst r))
  else ret tt.

(** [r.json()] *)
Definition json (r : Z * option value) : M value :=
  match snd r with
  | Some v => ret v
  | None => raise JSONDecodeError
  end.

(** *** obsws_python *)

(** [ReqClient(host=..., port=..., password=..., timeout=5)] connects and
    authenticates, or raises. *)
Definition ReqClient (host : string) (port : Z) (password : value) : M unit :=
  fun w =>
    match obs_endpoint w, password with
    | Some (h, p, pw), VStr s =>
        if (h =? host) && (p =? port)%Z && (pw =? s)
        then (Ret tt, w, [ObsConnect host port password true])
        else (Raise OBSError, w, [ObsConnect host port password false])
    | _, _ => (Raise OBSError, w, [ObsConnect host port password false])
    end.

Definition get_stream_status : M bool :=
  fun w => (Ret (obs_active w), w, [ObsGetStreamStatus (obs_active w)]).

Definition start_stream : M unit :=
  fun w => (Ret tt, set_obs_active true w, [ObsStartStream]).

Definition stop_stream : M unit :=
  fun w => (Ret tt, set_obs_active false w, [ObsStopStream]).

(** ** The program *)

Definition die {A} (msg : text) : M A :=
  print (Lit "ERROR: " :: msg) ;;
  raise (SystemExit 1).

Definition prompt (label : string) (default : value) : M value :=
  print [Lit nl; Lit label; Lit ":"] ;;
  print [Lit "  "; Fmt default] ;;
  line <- input "Enter value (or press Enter to accept): " ;;
  let v := strip line in
  ret (if negb (v =? "") then VStr v else default).

(** *** Environment / Secrets *)

Record globals : Type := mkGlobals {
  CLIENT_ID : string;
  CLIENT_SECRET : string;
  REDIRECT_URI : string;
  OBS_HOST : string;
  OBS_PORT : Z;
  OBS_PASSWORD : value         (* None or a str *)
}.

(** [os.environ[k]] *)
Definition environ_getitem (environ : list (string * string)) (k : string)
  : M string :=
  match lookup k environ with
  | Some v => ret v
  | None => raise (KeyError (VStr k))
  end.

(** The module-level block that reads the credentials and the OBS
    settings from [os.environ]; it runs when the module is loaded, before
    [main]. *)
Definition load_environment (environ : list (string * string)) : M globals :=
  creds <-
    try_except
      (client_id <- environ_getitem environ "TWITCH_CLIENT_ID" ;;
       client_secret <- environ_getitem environ "TWITCH_CLIENT_SECRET" ;;
       redirect_uri <- environ_getitem environ "TWITCH_REDIRECT_URI" ;;
       ret (client_id, client_secret, redirect_uri))
      (fun e =>
         match e with
         | KeyError k =>
             Some (die [Lit "Missing required environment variable: "; Repr k])
         | _ => None
         end) ;;
  let obs_host :=
    match lookup "OBS_WS_HOST" environ with Some h => h | None => "localhost" end in
  obs_port <-
    match lookup "OBS_WS_PORT" environ with
    | Some p => match py_int p with Some n => ret n | None => raise ValueError end
    | None => ret 4455%Z
    end ;;
  let obs_password :=
    match lookup "OBS_WS_PASSWORD" environ with Some p => VStr p | None => VNone end in
  ret (mkGlobals (fst (fst creds)) (snd (fst creds)) (snd creds)
                 obs_host obs_port obs_password).

Definition API_BASE : string := "https://api.twitch.tv/helix".
Definition OAUTH_BASE : string := "https://id.twitch.tv/oauth2".
Definition SCOPES : string := "channel:manage:broadcast".

Section Program.

Variable G : globals.

(** *** Config handling *)

Definition get_preset (cfg : value) (key : string) : M value :=
  try_except
    (presets <- getitem cfg "presets" ;;
     getitem presets key)
    (fun e =>
       match e with
       | KeyError _ => Some (die [Lit "Unknown preset: "; Lit key])
       | _ => None
       end).

(** *** OAuth helpers *)

Definition auth_url : string :=
  (OAUTH_BASE ++ "/authorize"
   ++ "?client_id=" ++ CLIENT_ID G
   ++ "&redirect_uri=" ++ REDIRECT_URI G
   ++ "&response_type=code"
   ++ "&scope=" ++ SCOPES)%string.

Definition exchange_code (code : string) : M value :=
  r <- send (mkRequest POST (OAUTH_BASE ++ "/token")%string [] []
               [("client_id", VStr (CLIENT_ID G));
                ("client_secret", VStr (CLIENT_SECRET G));
                ("code", VStr code);
                ("grant_type", VStr "authorization_code");
                ("redirect_uri", VStr (REDIRECT_URI G))]
               None) ;;
  raise_for_status r ;;
  json r.

Definition refresh_tokens (refresh_token : value) : M value :=
  r <- send (mkRequest POST (OAUTH_BASE ++ "/token")%string [] []
               [("client_id", VStr (CLIENT_ID G));
                ("client_secret", VStr (CLIENT_SECRET G));
                ("refresh_token", refresh_token);
                ("grant_type", VStr "refresh_token")]
               None) ;;
  raise_for_status r ;;
  json r.

Definition load_tokens : M value :=
  fun w =>
    match token_file w with
    | Absent => (Ret VNone, w, [])
    | Garbled => (Raise JSONDecodeError, w, [])
    | Holds v => (Ret v, w, [])
    end.

Definition save_tokens (tokens : value) : M unit :=
  fun w => (Ret tt, set_token_file (Holds tokens) w, []).

(** *** Twitch API helpers *)

Definition headers (token : value) : list (string * text) :=
  [("Authorization", [Lit "Bearer "; Fmt token]);
   ("Client-Id", [Lit (CLIENT_ID G)]);
   ("Content-Type", [Lit "application/json"])].

Definition get_broadcaster_id (token : value) : M value :=
  r <- send (mkRequest GET (API_BASE ++ "/users")%string (headers token)
               [] [] None) ;;
  raise_for_status r ;;
  body <- json r ;;
  data <- getitem body "data" ;;
  first <- getitem0 data ;;
  getitem first "id".

Definition get_game_id (token : value) (name : value) : M value :=
  r <- send (mkRequest GET (API_BASE ++ "/games")%string (headers token)
               [("name", name)] [] None) ;;
  raise_for_status r ;;
  body <- json r ;;
  data <- getitem body "data" ;;
  (if negb (truthy data)
   then die [Lit "Game not found on Twitch: "; Fmt name]
   else ret tt) ;;
  first <- getitem0 data ;;
  getitem first "id".

Definition update_channel (token broadcaster_id payload : value) : M unit :=
  r <- send (mkRequest PATCH (API_BASE ++ "/channels")%string (headers token)
               [("broadcaster_id", broadcaster_id)] [] (Some payload)) ;;
  raise_for_status r.

(** *** OBS *)

Definition start_obs : M unit :=
  (if negb (truthy (OBS_PASSWORD G))
   then die [Lit "OBS_WS_PASSWORD not set"]
   else ret tt) ;;
  ReqClient (OBS_HOST G) (OBS_PORT G) (OBS_PASSWORD G) ;;
  output_active <- get_stream_status ;;
  if negb output_active
  then start_stream ;;
       print [Lit "✓ OBS stream started"]
  else ret tt.

Definition stop_obs : M unit :=
  (if negb (truthy (OBS_PASSWORD G))
   then die [Lit "OBS_WS_PASSWORD not set"]
   else ret tt) ;;
  ReqClient (OBS_HOST G) (OBS_PORT G) (OBS_PASSWORD G) ;;
  output_active <- get_stream_status ;;
  if output_active
  then stop_stream ;;
       print [Lit "✓ OBS stream stopped"]
  else print [Lit "OBS stream is not running"].

(** *** Commands *)

(** [d[k] = v] on the items of a dict. *)
Fixpoint setitem (d : list (string * value)) (k : string) (v : value)
  : list (string * value) :=
  match d with
  | [] => [(k, v)]
  | (k', x) :: d' =>
      if k' =? k then (k', v) :: d' else (k', x) :: setitem d' k v
  end.

(** [run_preset] is the sequence of the six blocks below, each the lines of
    the source it is named after. *)

(** Load the stored tokens, or authorize once. *)
Definition run_preset_tokens : M value :=
  tokens <- load_tokens ;;
  if negb (truthy tokens)
  then print [Lit ("Authorize once using this URL:" ++ nl)%string] ;;
       print [Lit auth_url] ;;
       line <- input (nl ++ "Paste ?code= value:" ++ nl ++ "> ")%string ;;
       let code := strip line in
       tokens <- exchange_code code ;;
       save_tokens tokens ;;
       ret tokens
  else ret tokens.

(** The [try] around the account lookup and its [except requests.HTTPError]
    clause. *)
Definition run_preset_auth (tokens : value) : M (value * value) :=
  try_except
    (access_token <- getitem tokens "access_token" ;;
     broadcaster_id <- get_broadcaster_id access_token ;;
     ret (access_token, broadcaster_id))
    (fun e =>
       match e with
       | HTTPError _ =>
           Some (refresh_token <- getitem tokens "refresh_token" ;;
                 tokens <- refresh_tokens refresh_token ;;
                 save_tokens tokens ;;
                 access_token <- getitem tokens "access_token" ;;
                 broadcaster_id <- get_broadcaster_id access_token ;;
                 ret (access_token, broadcaster_id))
       | _ => None
       end).

(** The two prompts and the tags. *)
Definition run_preset_prompts (preset : value) : M (value * value) :=
  defaults <- getitem preset "defaults" ;;
  default_title <- getitem defaults "title" ;;
  title <- prompt "Default title" default_title ;;
  defaults <- getitem preset "defaults" ;;
  notification <- getitem defaults "go_live_notification" ;;
  prompt "Go-live notification (stored only)" notification ;;
  tags <- get preset "tags" (VList []) ;;
  (if truthy tags
   then print [Lit (nl ++ "Tags:")%string] ;;
        match join ", " tags with
        | Some s => print [Lit s]
        | None => raise TypeError
        end
   else ret tt) ;;
  ret (title, tags).

(** The confirmation. *)
Definition run_preset_confirm (cfg : value) : M unit :=
  defaults <- getitem cfg "defaults" ;;
  prompts <- getitem defaults "prompts" ;;
  confirm <- get prompts "confirm" (VBool true) ;;
  if truthy confirm
  then answer <- input (nl ++ "Proceed? [Y/n]: ")%string ;;
       if lower answer =? "n" then die [Lit "Aborted"] else ret tt
  else ret tt.

(** The payload and the channel update. *)
Definition run_preset_update
    (preset access_token broadcaster_id title tags : value) : M unit :=
  game <- getitem preset "game" ;;
  category <- getitem game "category" ;;
  game_id <- get_game_id access_token category ;;
  let payload := [("title", title); ("game_id", game_id)] in
  let payload := if truthy tags then setitem payload "tags" tags else payload in
  update_channel access_token broadcaster_id (VDict payload) ;;
  print [Lit "✓ Twitch metadata updated"].

(** The optional OBS start. *)
Definition run_preset_obs (cfg : value) : M unit :=
  defaults <- getitem cfg "defaults" ;;
  obs <- getitem defaults "obs" ;;
  auto_start <- get obs "auto_start" (VBool true) ;;
  if truthy auto_start then start_obs else ret tt.

Definition run_preset (cfg : value) (key : string) : M unit :=
  preset <- get_preset cfg key ;;
  tokens <- run_preset_tokens ;;
  auth <- run_preset_auth tokens ;;
  let access_token := fst auth in
  let broadcaster_id := snd auth in
  entered <- run_preset_prompts preset ;;
  let title := fst entered in
  let tags := snd entered in
  run_preset_confirm cfg ;;
  run_preset_update preset access_token broadcaster_id title tags ;;
  run_preset_obs cfg ;;
  print [Lit "✓ Go live complete"].

End Program.

(** The process on [twitch-go <preset>]: the module-level block, then
    [run_preset] as [main] calls it. *)
Definition go_live (environ : list (string * string)) (cfg : value)
    (key : string) : M unit :=
  G <- load_environment environ ;;
  run_preset G cfg key.

(** [run_preset] from the confirmation on, given what the blocks before it
    returned. *)
Definition run_preset_from_confirm (G : globals) (cfg preset : value)
    (auth entered : value * value) : M unit :=
  run_preset_confirm cfg ;;
  run_preset_update G preset (fst auth) (snd auth) (fst entered) (snd entered) ;;
  run_preset_obs G cfg ;;
  print [Lit "✓ Go live complete"].

(** [run_preset] after the authentication block, given the preset and what
    the block returned. *)
Definition run_preset_after_auth (G : globals) (cfg preset : value)
    (auth : value * value) : M unit :=
  entered <- run_preset_prompts preset ;;
  run_preset_confirm cfg ;;
  run_preset_update G preset (fst auth) (snd auth) (fst entered) (snd entered) ;;
  run_preset_obs G cfg ;;
  print [Lit "✓ Go live complete"].

(** ** Sample data *)

Definition sample_environ : list (string * string) :=
  [("TWITCH_CLIENT_ID", "abc123");
   ("TWITCH_CLIENT_SECRET", "s3cret");
   ("TWITCH_REDIRECT_URI", "http://localhost");
   ("OBS_WS_PASSWORD", "obs-pw")].

Definition sample_globals : globals :=
  mkGlobals "abc123" "s3cret" "http://localhost" "localhost" 4455 (VStr "obs-pw").

Definition sample_preset : value :=
  VDict [("game", VDict [("name", VStr "Valorant"); ("category", VStr "VALORANT")]);
         ("defaults", VDict [("title", VStr "Ranked grind");
                             ("go_live_notification", VStr "Live now")]);
         ("tags", VList [VStr "FPS"])].

Definition sample_cfg : value :=
  VDict [("version", VInt 1);
         ("defaults", VDict [("obs", VDict [("auto_start", VBool true)]);
                             ("prompts", VDict [("confirm", VBool true)])]);
         ("presets", VDict [("valorant", sample_preset)])].

Definition stored_tokens : value :=
  VDict [("access_token", VStr "old-access"); ("refresh_token", VStr "old-refresh")].

Definition new_tokens : value :=
  VDict [("access_token", VStr "new-access"); ("refresh_token", VStr "new-refresh")].

Definition users_body : value :=
  VDict [("data", VList [VDict [("id", VStr "1337"); ("login", VStr "streamer")]])].

Definition games_body : value :=
  VDict [("data", VList [VDict [("id", VStr "516575"); ("name", VStr "VALORANT")];
                         VDict [("id", VStr "999")]])].

(** A world with a stored TokenSet and OBS listening on the default
    endpoint. *)
Definition sample_world (answers : list reply) (lines : list string)
    (streaming : bool) : world :=
  mkWorld (Holds stored_tokens) answers lines
          (Some ("localhost", 4455%Z, "obs-pw")) streaming.

(** The answers of a run in which every request succeeds, and the lines
    of a user who accepts the defaults and confirms. *)
Definition all_ok : list reply :=
  [Response 200 (Some users_body); Response 200 (Some games_body);
   Response 204 None].

Definition accept_all : list string := [""; ""; "y"].

(** The first account lookup is answered 401, the refresh succeeds, the
    retry is answered 401 again. *)
Definition rejected_twice : world :=
  sample_world [Response 401 None; Response 200 (Some new_tokens);
                Response 401 None] accept_all false.

(** The first account lookup is answered 401, then everything succeeds. *)
Definition rejected_once : world :=
  sample_world (Response 401 None :: Response 200 (Some new_tokens) :: all_ok)
    accept_all false.

(** The first account lookup is answered 500, then everything succeeds. *)
Definition server_error_once : world :=
  sample_world (Response 500 None :: Response 200 (Some new_tokens) :: all_ok)
    accept_all false.

(** The first account lookup gets no response. *)
Definition unreachable : world := sample_world [Dropped] accept_all false.

(** Everything succeeds but the channel update, which is answered 401. *)
Definition patch_rejected : world :=
  sample_world [Response 200 (Some users_body); Response 200 (Some games_body);
                Response 401 None] accept_all false.

(** The category search finds nothing. *)
Definition no_such_game : world :=
  sample_world [Response 200 (Some users_body);
                Response 200 (Some (VDict [("data", VList [])]))]
    accept_all false.

(** The user answers the confirmation with [N]. *)
Definition declined : world :=
  sample_world all_ok [""; ""; "N"] false.

(** Everything succeeds and OBS is not streaming yet. *)
Definition happy : world := sample_world all_ok accept_all false.

(** An environment with the Twitch credentials and no OBS password. *)
Definition environ_without_obs_password : list (string * string) :=
  [("TWITCH_CLIENT_ID", "abc123");
   ("TWITCH_CLIENT_SECRET", "s3cret");
   ("TWITCH_REDIRECT_URI", "http://localhost")].

(** An environment without the client secret. *)
Definition environ_without_secret : list (string * string) :=
  [("TWITCH_CLIENT_ID", "abc123");
   ("TWITCH_REDIRECT_URI", "http://localhost");
   ("OBS_WS_PASSWORD", "obs-pw")].

(** * Observing runs *)

(** ** Kinds of actions *)

Definition is_network (e : event) : bool :=
  match e with Http _ _ => true | _ => false end.

(** A request to the channel-update endpoint. *)
Definition is_patch (e : event) : bool :=
  match e with
  | Http rq _ => match rq_method rq with PATCH => true | _ => false end
  | _ => false
  end.

(** The account lookup of [get_broadcaster_id]. *)
Definition is_account_lookup (e : event) : bool :=
  match e with
  | Http rq _ =>
      match rq_method rq with
      | GET => rq_url rq =? (API_BASE ++ "/users")%string
      | _ => false
      end
  | _ => false
  end.

(** The category search of [get_game_id]. *)
Definition is_category_search (e : event) : bool :=
  match e with
  | Http rq _ =>
      match rq_method rq with
      | GET => rq_url rq =? (API_BASE ++ "/games")%string
      | _ => false
      end
  | _ => false
  end.

(** The token request of [refresh_tokens]. *)
Definition is_refresh (e : event) : bool :=
  match e with
  | Http rq _ =>
      match rq_method rq, lookup "grant_type" (rq_data rq) with
      | POST, Some (VStr g) =>
          (rq_url rq =? (OAUTH_BASE ++ "/token")%string) && (g =? "refresh_token")
      | _, _ => false
      end
  | _ => false
  end.

(** The traffic of the authentication block. *)
Definition is_auth (e : event) : bool := is_account_lookup e || is_refresh e.

(** Any call to the broadcast controller, the connection included. *)
Definition is_obs (e : event) : bool :=
  match e with
  | ObsConnect _ _ _ _ | ObsGetStreamStatus _ | ObsStartStream | ObsStopStream =>
      true
  | _ => false
  end.

Definition is_start (e : event) : bool :=
  match e with ObsStartStream => true | _ => false end.

Definition is_status (b : bool) (e : event) : bool :=
  match e with ObsGetStreamStatus b' => Bool.eqb b b' | _ => false end.

Definition confirm_prompt : string := (nl ++ "Proceed? [Y/n]: ")%string.

(** The line [ERROR: Aborted]. *)
Definition is_aborted (e : event) : bool :=
  match e with
  | Print [Lit a; Lit b] => (a =? "ERROR: ") && (b =? "Aborted")
  | _ => false
  end.

(** The confirmation prompt answered with a line that lowercases to [n]. *)
Definition is_decline (e : event) : bool :=
  match e with
  | Input p answer =>
      (p =? confirm_prompt) &&
      match answer with Some a => lower a =? "n" | None => false end
  | _ => false
  end.

(** ** The requests of the update block *)

Definition search_request (G : globals) (token name : value) : request :=
  mkRequest GET (API_BASE ++ "/games")%string (headers G token)
    [("name", name)] [] None.

Definition patch_request (G : globals) (token broadcaster_id payload : value)
  : request :=
  mkRequest PATCH (API_BASE ++ "/channels")%string (headers G token)
    [("broadcaster_id", broadcaster_id)] [] (Some payload).

(** The payload: title, game id, and the tags when they are truthy. *)
Definition payload_of (title game_id tags : value) : value :=
  VDict ([("title", title); ("game_id", game_id)]
         ++ if truthy tags then [("tags", tags)] else []).

(** A successful answer whose [data] is empty (falsy). *)
Definition no_match (r : reply) : bool :=
  match r with
  | Response status body =>
      negb (http_error status) &&
      match body with
      | Some (VDict b) =>
          match lookup "data" b with
          | Some data => negb (truthy data)
          | None => false
          end
      | _ => false
      end
  | _ => false
  end.

(** The id of the first element of the [data] of an answer. *)
Definition first_id (r : reply) : option value :=
  match r with
  | Response _ (Some (VDict b)) =>
      match lookup "data" b with
      | Some (VList (VDict x :: _)) => lookup "id" x
      | _ => None
      end
  | _ => None
  end.

(** What a request that got [r] and is followed by [raise_for_status]
    raises, if anything. *)
Definition failure_of (r : reply) : option exn :=
  match r with
  | Response status _ =>
      if http_error status then Some (HTTPError status) else None
  | Dropped => Some ConnectionError
  | TimedOut => Some Timeout
  end.

(** The last lines of the runs that [die]. *)
Definition aborted : event := Print [Lit "ERROR: "; Lit "Aborted"].

Definition game_not_found (name : value) : event :=
  Print [Lit "ERROR: "; Lit "Game not found on Twitch: "; Fmt name].

Definition metadata_updated : event := Print [Lit "✓ Twitch metadata updated"].

(** The four ways the update block can go: a failed lookup in the preset;
    a category search that fails; a category search without a match; a
    category found and the channel update sent. *)
Inductive update_run (G : globals) (token bid title tags : value)
  : outcome unit -> list event -> Prop :=
| UpdatePreset e :
    update_run G token bid title tags (Raise e) []
| UpdateSearchFailed name r e :
    no_match r = false ->
    update_run G token bid title tags (Raise e)
      [Http (search_request G token name) r]
| UpdateNoMatch name r :
    no_match r = true ->
    update_run G token bid title tags (Raise (SystemExit 1))
      [Http (search_request G token name) r; game_not_found name]
| UpdateSent name r game_id r2 :
    failure_of r = None ->
    first_id r = Some game_id ->
    update_run G token bid title tags
      (match failure_of r2 with Some e => Raise e | None => Ret tt end)
      (Http (search_request G token name) r ::
       Http (patch_request G token bid (payload_of title game_id tags)) r2 ::
       match failure_of r2 with Some _ => [] | None => [metadata_updated] end).

Definition enter_prompt : string := "Enter value (or press Enter to accept): ".

(** The prompt of [prompt], whatever the answer. *)
Definition is_enter (e : event) : bool :=
  match e with Input p _ => p =? enter_prompt | _ => false end.

(** A category search that came back without a match. *)
Definition is_search_without_match (e : event) : bool :=
  is_category_search e &&
  match e with Http _ r => no_match r | _ => false end.

(** ** The requests of the authentication block *)

Definition account_request (G : globals) (token : value) : request :=
  mkRequest GET (API_BASE ++ "/users")%string (headers G token) [] [] None.

Definition refresh_request (G : globals) (refresh_token : value) : request :=
  mkRequest POST (OAUTH_BASE ++ "/token")%string [] []
    [("client_id", VStr (CLIENT_ID G));
     ("client_secret", VStr (CLIENT_SECRET G));
     ("refresh_token", refresh_token);
     ("grant_type", VStr "refresh_token")]
    None.

(** An answer with a 4xx or 5xx status: what makes [raise_for_status]
    raise [HTTPError]. *)
Definition http_rejected (r : reply) : bool :=
  match r with Response status _ => http_error status | _ => false end.

(** The TokenSet a token request returns, when it returns. *)
Definition refreshed (r : reply) : option value :=
  match r with
  | Response status body => if http_error status then None else body
  | _ => None
  end.

(** When the answer [r] is a failure, [e] is the exception of that
    failure. *)
Definition propagates (r : reply) (e : exn) : Prop :=
  match failure_of r with Some e' => e = e' | None => True end.

(** The ways the authentication block can go, with the TokenSet it wrote to
    the token file, if any. *)
Inductive auth_run (G : globals) (tokens : value)
  : outcome (value * value) -> option value -> list event -> Prop :=
| AuthNoToken e :
    auth_run G tokens (Raise e) None []
| AuthFirstOk d access r id :
    tokens = VDict d -> lookup "access_token" d = Some access ->
    failure_of r = None -> first_id r = Some id ->
    auth_run G tokens (Ret (access, id)) None
      [Http (account_request G access) r]
| AuthFirstRaise d access r e :
    tokens = VDict d -> lookup "access_token" d = Some access ->
    http_rejected r = false -> propagates r e ->
    auth_run G tokens (Raise e) None
      [Http (account_request G access) r]
| AuthNoRefreshToken d access r :
    tokens = VDict d -> lookup "access_token" d = Some access ->
    http_rejected r = true -> lookup "refresh_token" d = None ->
    auth_run G tokens (Raise (KeyError (VStr "refresh_token"))) None
      [Http (account_request G access) r]
| AuthRefreshFailed d access refresh r r1 e :
    tokens = VDict d -> lookup "access_token" d = Some access ->
    http_rejected r = true -> lookup "refresh_token" d = Some refresh ->
    refreshed r1 = None -> propagates r1 e ->
    auth_run G tokens (Raise e) None
      [Http (account_request G access) r; Http (refresh_request G refresh) r1]
| AuthBadTokens d access refresh r r1 new e :
    tokens = VDict d -> lookup "access_token" d = Some access ->
    http_rejected r = true -> lookup "refresh_token" d = Some refresh ->
    refreshed r1 = Some new ->
    (forall d', new = VDict d' -> lookup "access_token" d' = None) ->
    auth_run G tokens (Raise e) (Some new)
      [Http (account_request G access) r; Http (refresh_request G refresh) r1]
| AuthRetryOk d access refresh r r1 d' access' r2 id :
    tokens = VDict d -> lookup "access_token" d = Some access ->
    http_rejected r = true -> lookup "refresh_token" d = Some refresh ->
    refreshed r1 = Some (VDict d') -> lookup "access_token" d' = Some access' ->
    failure_of r2 = None -> first_id r2 = Some id ->
    auth_run G tokens (Ret (access', id)) (Some (VDict d'))
      [Http (account_request G access) r; Http (refresh_request G refresh) r1;
       Http (account_request G access') r2]
| AuthRetryRaise d access refresh r r1 d' access' r2 e :
    tokens = VDict d -> lookup "access_token" d = Some access ->
    http_rejected r = true -> lookup "refresh_token" d = Some refresh ->
    refreshed r1 = Some (VDict d') -> lookup "access_token" d' = Some access' ->
    propagates r2 e ->
    auth_run G tokens (Raise e) (Some (VDict d'))
      [Http (account_request G access) r; Http (refresh_request G refresh) r1;
       Http (account_request G access') r2].

(** The answer to the first action of kind [p]. *)
Definition first_answer (p : event -> bool) (t : list event) : option reply :=
  match filter p t with
  | Http _ r :: _ => Some r
  | _ => None
  end.

(** ** Counting the actions of a run *)

Definition count (p : event -> bool) (t : list event) : nat :=
  List.length (filter p t).
Arguments count : simpl never.

(** [m] performs no action of kind [p]. *)
Definition quiet {A} (p : event -> bool) (m : M A) : Prop :=
  forall w, count p (trace_of (m w)) = 0.

(** [m] leaves the token file as it is. *)
Definition keeps_file {A} (m : M A) : Prop :=
  forall w, token_file (world_of (m w)) = token_file w.

(** Kinds of actions that the blocks around the authentication never
    perform. *)
Definition before_auth_free (p : event -> bool) : Prop :=
  forall G cfg key,
    quiet p (get_preset cfg key) /\ quiet p (run_preset_tokens G).

Definition after_auth_free (p : event -> bool) : Prop :=
  forall G cfg preset auth, quiet p (run_preset_after_auth G cfg preset auth).

(** Kinds of actions that the blocks before the confirmation, before the
    channel update and after it never perform. *)
Definition before_confirm_free (p : event -> bool) : Prop :=
  forall G cfg key tokens preset,
    quiet p (get_preset cfg key) /\ quiet p (run_preset_tokens G) /\
    quiet p (run_preset_auth G tokens) /\ quiet p (run_preset_prompts preset).

Definition before_update_free (p : event -> bool) : Prop :=
  before_confirm_free p /\ forall cfg, quiet p (run_preset_confirm cfg).

Definition after_update_free (p : event -> bool) : Prop :=
  forall G cfg, quiet p (run_preset_obs G cfg ;; print [Lit "✓ Go live complete"]).

(** ** More kinds of actions *)

Definition is_stop (e : event) : bool :=
  match e with ObsStopStream => true | _ => false end.

(** The token request of [exchange_code]. *)
Definition is_exchange (e : event) : bool :=
  match e with
  | Http rq _ =>
      match rq_method rq, lookup "grant_type" (rq_data rq) with
      | POST, Some (VStr g) =>
          (rq_url rq =? (OAUTH_BASE ++ "/token")%string)
          && (g =? "authorization_code")
      | _, _ => false
      end
  | _ => false
  end.

Definition code_prompt : string :=
  (nl ++ "Paste ?code= value:" ++ nl ++ "> ")%string.

(** The prompt for the authorization code, whatever the answer. *)
Definition is_code_prompt (e : event) : bool :=
  match e with Input p _ => p =? code_prompt | _ => false end.

(** The confirmation prompt, whatever the answer. *)
Definition is_confirm (e : event) : bool :=
  match e with Input p _ => p =? confirm_prompt | _ => false end.

Definition exchange_request (G : globals) (code : string) : request :=
  mkRequest POST (OAUTH_BASE ++ "/token")%string [] []
    [("client_id", VStr (CLIENT_ID G));
     ("client_secret", VStr (CLIENT_SECRET G));
     ("code", VStr code);
     ("grant_type", VStr "authorization_code");
     ("redirect_uri", VStr (REDIRECT_URI G))]
    None.

(** The two lines printed before the authorization code is asked for. *)
Definition authorize_lines (G : globals) : list event :=
  [Print [Lit ("Authorize once using this URL:" ++ nl)%string];
   Print [Lit (auth_url G)]].

Definition unknown_preset (key : string) : event :=
  Print [Lit "ERROR: "; Lit "Unknown preset: "; Lit key].

(** ** More sample data *)

(** No token file yet: the user pastes a code, the exchange succeeds, then
    everything else does. *)
Definition unauthorized : world :=
  mkWorld Absent (Response 200 (Some new_tokens) :: all_ok)
          ("  c0de  " :: accept_all) (Some ("localhost", 4455%Z, "obs-pw")) false.

(** No token file, and the code pasted is rejected. *)
Definition code_rejected : world :=
  mkWorld Absent [Response 400 None] ["c0de"]
          (Some ("localhost", 4455%Z, "obs-pw")) false.

(** The account lookup is accepted, but its answer names no account. *)
Definition no_account : world :=
  sample_world [Response 200 (Some (VDict [("data", VList [])]))]
    accept_all false.

(** Everything succeeds, but OBS is not running. *)
Definition obs_down : world :=
  mkWorld (Holds stored_tokens) all_ok accept_all None false.

(** * The command line *)

(** What the module-level code and [main] do around [run_preset]: the
    scaffolding of [~/.twitch-go], the loading of [.env] and of the
    configuration, the editor, and the dispatch on the command. *)

(** ** The application directory *)

(** The files of [~/.twitch-go] besides [tokens.json], which is the
    [token_file] of the world. *)
Inductive app_file : Type :=
| CONFIG_FILE
| CONFIG_EXAMPLE
| ENV_FILE
| ENV_EXAMPLE.

Definition file_name (f : app_file) : string :=
  match f with
  | CONFIG_FILE => "config.yaml"
  | CONFIG_EXAMPLE => "config.example.yaml"
  | ENV_FILE => ".env"
  | ENV_EXAMPLE => ".env.example"
  end.

(** The directory: the text of each of its files that exists. *)
Record directory : Type := mkDirectory {
  config_yaml : option string;
  config_example_yaml : option string;
  dot_env : option string;
  dot_env_example : option string
}.

Definition empty_dir : directory := mkDirectory None None None None.

Definition file_text (f : app_file) (d : directory) : option string :=
  match f with
  | CONFIG_FILE => config_yaml d
  | CONFIG_EXAMPLE => config_example_yaml d
  | ENV_FILE => dot_env d
  | ENV_EXAMPLE => dot_env_example d
  end.

Definition with_file (f : app_file) (s : string) (d : directory) : directory :=
  match f with
  | CONFIG_FILE =>
      mkDirectory (Some s) (config_example_yaml d) (dot_env d) (dot_env_example d)
  | CONFIG_EXAMPLE =>
      mkDirectory (config_yaml d) (Some s) (dot_env d) (dot_env_example d)
  | ENV_FILE =>
      mkDirectory (config_yaml d) (config_example_yaml d) (Some s) (dot_env_example d)
  | ENV_EXAMPLE =>
      mkDirectory (config_yaml d) (config_example_yaml d) (dot_env d) (Some s)
  end.

(** The machine the command runs on: the application directory ([None]
    when it does not exist; when it exists it is a directory that the
    process may write to), [os.environ], the programs that
    [subprocess.run] finds, and the world of [run_preset]. *)
Record system : Type := mkSystem {
  app_dir : option directory;
  os_environ : list (string * string);
  programs : list string;
  base : world
}.

Definition set_app_dir (a : option directory) (s : system) : system :=
  mkSystem a (os_environ s) (programs s) (base s).
Definition set_os_environ (e : list (string * string)) (s : system) : system :=
  mkSystem (app_dir s) e (programs s) (base s).
Definition set_base (w : world) (s : system) : system :=
  mkSystem (app_dir s) (os_environ s) (programs s) w.

(** What the command does not decide: the two parsers, which are library
    code, the text of the paths, [os.name], and what the user does in the
    editor. *)
Record platform : Type := mkPlatform {
  safe_load : string -> option value;       (* yaml.safe_load; None: YAMLError *)
  dotenv_values : string -> list (string * string);
                                            (* the assignments of a .env text *)
  str_APP_DIR : string;                     (* str(APP_DIR) *)
  sep : string;                             (* os.sep *)
  os_name : string;                         (* os.name *)
  saves : string -> app_file -> option string -> option string
    (* the text saved in a session of an editor on a file, given the text
       the file had; None: the session saves nothing *)
}.

(** [str(APP_DIR / name)] *)
Definition str_path (pf : platform) (f : app_file) : string :=
  (str_APP_DIR pf ++ sep pf ++ file_name f)%string.

(** ** Computations on the machine *)

(** The exceptions of the program, and those of the file system, of the
    YAML parser and of [subprocess]. *)
Inductive failure : Type :=
| Exn (e : exn)
| FileNotFoundError
| FileExistsError
| YAMLError.

Inductive result (A : Type) : Type :=
| Done (a : A)
| Failed (e : failure).
Arguments Done {A} a.
Arguments Failed {A} e.

(** The actions of [run_preset], and the programs started. *)
Inductive action : Type :=
| Did (e : event)
| Run (argv : list string).     (* subprocess.run(argv) *)

Definition Proc (A : Type) : Type := system -> result A * system * list action.

Definition pure {A} (a : A) : Proc A := fun s => (Done a, s, []).

Definition throw {A} (e : failure) : Proc A := fun s => (Failed e, s, []).

Definition and_then {A B} (m : Proc A) (f : A -> Proc B) : Proc B :=
  fun s =>
    match m s with
    | (Done a, s1, t1) =>
        match f a s1 with
        | (o, s2, t2) => (o, s2, t1 ++ t2)
        end
    | (Failed e, s1, t1) => (Failed e, s1, t1)
    end.

(** A computation of [run_preset]'s kind, run on the world of the machine. *)
Definition lift {A} (m : M A) : Proc A :=
  fun s =>
    match m (base s) with
    | (Ret a, w, t) => (Done a, set_base w s, map Did t)
    | (Raise e, w, t) => (Failed (Exn e), set_base w s, map Did t)
    end.

Declare Scope proc_scope.
Delimit Scope proc_scope with proc.
Notation "x <- c1 ;; c2" := (and_then c1 (fun x => c2))
  (at level 100, c1 at next level, right associativity) : proc_scope.
Notation "c1 ;; c2" := (and_then c1 (fun _ => c2))
  (at level 100, right associativity) : proc_scope.
Local Open Scope proc_scope.

Definition result_of {A} (r : result A * system * list action) : result A :=
  fst (fst r).
Definition system_of {A} (r : result A * system * list action) : system :=
  snd (fst r).
Definition actions_of {A} (r : result A * system * list action) : list action :=
  snd r.

(** *** pathlib, os and subprocess *)

Definition is_some {A} (o : option A) : bool :=
  match o with Some _ => true | None => false end.

(** [APP_DIR.exists()] *)
Definition app_dir_exists : Proc bool :=
  fun s => (Done (is_some (app_dir s)), s, []).

(** [APP_DIR.mkdir(parents=True)] *)
Definition mkdir : Proc unit :=
  fun s =>
    match app_dir s with
    | None => (Done tt, set_app_dir (Some empty_dir) s, [])
    | Some _ => (Failed FileExistsError, s, [])
    end.

(** [path.exists()] for a file of the directory. *)
Definition path_exists (f : app_file) : Proc bool :=
  fun s =>
    (Done (match app_dir s with
           | Some d => is_some (file_text f d)
           | None => false
           end), s, []).

(** [path.write_text(text, encoding="utf-8")] *)
Definition write_text (f : app_file) (content : string) : Proc unit :=
  fun s =>
    match app_dir s with
    | Some d => (Done tt, set_app_dir (Some (with_file f content d)) s, [])
    | None => (Failed FileNotFoundError, s, [])
    end.

(** [path.read_text(encoding="utf-8")] *)
Definition read_text (f : app_file) : Proc string :=
  fun s =>
    match app_dir s with
    | Some d =>
        match file_text f d with
        | Some content => (Done content, s, [])
        | None => (Failed FileNotFoundError, s, [])
        end
    | None => (Failed FileNotFoundError, s, [])
    end.

(** The machine after a session of the editor [prog] on [path]: the file
    holds what was saved.  Nothing can be saved in a directory that does
    not exist. *)
Definition edited (pf : platform) (prog : string) (path : app_file)
    (s : system) : system :=
  match app_dir s with
  | Some d =>
      match saves pf prog path (file_text path d) with
      | Some content => set_app_dir (Some (with_file path content d)) s
      | None => s
      end
  | None => s
  end.

(** [subprocess.run([prog, str(path)])]: starts the program on the file and
    waits for it, whatever its exit status; FileNotFoundError when there is
    no such program.  The program is an editor, and what it changes is the
    file it is opened on. *)
Definition subprocess_run (pf : platform) (prog : string) (path : app_file)
  : Proc unit :=
  fun s =>
    if existsb (String.eqb prog) (programs s)
    then (Done tt, edited pf prog path s, [Run [prog; str_path pf path]])
    else (Failed FileNotFoundError, s, []).

(** [load_dotenv(ENV_FILE)]: the assignments of the file are added to
    [os.environ], the variables already set keeping their values. *)
Definition load_dotenv (pf : platform) : Proc unit :=
  fun s =>
    match app_dir s with
    | Some d =>
        match file_text ENV_FILE d with
        | Some content =>
            (Done tt,
             set_os_environ (os_environ s ++ dotenv_values pf content) s, [])
        | None => (Done tt, s, [])
        end
    | None => (Done tt, s, [])
    end.

(** ** Embedded examples *)

Definition dq : string := String (ascii_of_nat 34) "".

Definition DEFAULT_CONFIG_EXAMPLE : string :=
  String.concat nl
    ["version: 1";
     "";
     "defaults:";
     "  obs:";
     "    auto_start: true";
     "  prompts:";
     "    confirm: true";
     "  intro: |";
     "    Thanks for watching — and welcome if you're new here.";
     "    ";
     "    Customize this section with your own welcome/introductory message.";
     "  rig: |";
     "    🖥 Gaming & Streaming Rig";
     "    Customize this section with your hardware and streaming setup details.";
     "    ";
     "    Example:";
     "    • CPU: Your CPU model";
     "    • GPU: Your GPU model";
     "    • RAM: Your RAM specs";
     "    • Streaming: Your streaming software and settings";
     "  about: |";
     "    📌 About This Channel";
     "    Customize this section with information about your channel, streaming style, and what viewers can expect.";
     "";
     "presets:";
     "  example:";
     "    game:";
     "      name: Example Game";
     "      category: Just Chatting";
     "    defaults:";
     ("      title: " ++ dq ++ "Example stream title" ++ dq)%string;
     ("      go_live_notification: " ++ dq ++ "Example notification" ++ dq)%string;
     "    tags:";
     "      - Example";
     "      - Streaming";
     ""].

Definition DEFAULT_ENV_EXAMPLE : string :=
  String.concat nl
    ["# Twitch app credentials";
     "TWITCH_CLIENT_ID=";
     "TWITCH_CLIENT_SECRET=";
     "TWITCH_REDIRECT_URI=http://localhost";
     "";
     "# OBS WebSocket";
     "OBS_WS_HOST=localhost";
     "OBS_WS_PORT=4455";
     "OBS_WS_PASSWORD=";
     ""].

(** ** Bootstrap *)

(** The message of the first run. *)
Definition initialized (pf : platform) : text :=
  [Lit (nl ++ "Initialized twitch-go configuration directory:" ++ nl ++ nl
        ++ "  ")%string;
   Lit (str_APP_DIR pf);
   Lit (nl ++ nl ++ "Next steps:" ++ nl ++ "1) Edit: ")%string;
   Lit (str_path pf CONFIG_FILE);
   Lit (nl ++ "2) Copy: ")%string;
   Lit (file_name ENV_EXAMPLE);
   Lit " → ";
   Lit (file_name ENV_FILE);
   Lit (nl ++ "3) Fill in Twitch + OBS credentials" ++ nl
        ++ "4) Re-run twitch-go" ++ nl)%string].

Definition bootstrap (pf : platform) : Proc unit :=
  there <- app_dir_exists ;;
  first_run <- (if negb there then mkdir ;; pure true else pure false) ;;
  there <- path_exists CONFIG_EXAMPLE ;;
  (if negb there then write_text CONFIG_EXAMPLE DEFAULT_CONFIG_EXAMPLE
   else pure tt) ;;
  there <- path_exists CONFIG_FILE ;;
  first_run <- (if negb there
                then write_text CONFIG_FILE DEFAULT_CONFIG_EXAMPLE ;; pure true
                else pure first_run) ;;
  there <- path_exists ENV_EXAMPLE ;;
  (if negb there then write_text ENV_EXAMPLE DEFAULT_ENV_EXAMPLE
   else pure tt) ;;
  if first_run
  then lift (print (initialized pf)) ;;
       lift (raise (SystemExit 0))
  else pure tt.

(** ** Utilities *)

(** [x or y] for [x] the result of [os.environ.get]. *)
Definition or_else (x : option string) (y : string) : string :=
  match x with
  | Some s => if s =? "" then y else s
  | None => y
  end.

Definition open_editor (pf : platform) (path : app_file) : Proc unit :=
  fun s =>
    let editor :=
      or_else (lookup "EDITOR" (os_environ s))
        (or_else (lookup "VISUAL" (os_environ s))
           (if os_name pf =? "nt" then "notepad.exe" else "vi")) in
    subprocess_run pf editor path s.

(** ** The module-level code *)

Definition env_warning : text :=
  [Lit "WARNING: ~/.twitch-go/.env not found — relying on OS environment variables"].

(** From [bootstrap()] to the OBS settings: what runs when the module is
    loaded, and gives the module its globals. *)
Definition startup (pf : platform) : Proc globals :=
  bootstrap pf ;;
  there <- path_exists ENV_FILE ;;
  (if there then load_dotenv pf else lift (print env_warning)) ;;
  fun s => lift (load_environment (os_environ s)) s.

(** ** Config handling *)

Definition load_config (pf : platform) : Proc value :=
  content <- read_text CONFIG_FILE ;;
  match safe_load pf content with
  | Some cfg => pure cfg
  | None => throw YAMLError
  end.

(** [v.strip()] *)
Definition str_strip (v : value) : M string :=
  match v with
  | VStr s => ret (strip s)
  | _ => raise AttributeError
  end.

Definition no_rig : text :=
  [Lit "No rig information configured. Add a 'rig' field under 'defaults' in your config.yaml"].
Definition no_intro : text :=
  [Lit "No intro information configured. Add an 'intro' field under 'defaults' in your config.yaml"].
Definition no_about : text :=
  [Lit "No about information configured. Add an 'about' field under 'defaults' in your config.yaml"].
Definition no_info : text :=
  [Lit "No intro information configured. Add 'intro', 'rig', and/or 'about' fields under 'defaults' in your config.yaml"].

(** The body of [print_intro_info] once the configuration is loaded. *)
Definition print_intro_of (cfg : value) (rig_only intro_only about_only : bool)
  : M unit :=
  (defaults <- get cfg "defaults" (VDict []) ;;
   intro <- get defaults "intro" (VStr "") ;;
   intro_text <- str_strip intro ;;
   rig <- get defaults "rig" (VStr "") ;;
   rig_text <- str_strip rig ;;
   about <- get defaults "about" (VStr "") ;;
   about_text <- str_strip about ;;
   if rig_only
   then if rig_text =? "" then print no_rig else print [Lit rig_text]
   else if intro_only
   then if intro_text =? "" then print no_intro else print [Lit intro_text]
   else if about_only
   then if about_text =? "" then print no_about else print [Lit about_text]
   else
     let output_parts :=
       (if intro_text =? "" then [] else [intro_text])
       ++ (if rig_text =? "" then [] else [rig_text])
       ++ (if about_text =? "" then [] else [about_text]) in
     match output_parts with
     | [] => print no_info
     | _ => print [Lit (String.concat (nl ++ nl) output_parts)]
     end)%py.

Definition print_intro_info (pf : platform)
    (rig_only intro_only about_only : bool) : Proc unit :=
  cfg <- load_config pf ;;
  lift (print_intro_of cfg rig_only intro_only about_only).

Definition usage : string :=
  String.concat nl
    ["";
     "Usage:";
     "  twitch-go <preset>        Go live using a preset";
     "  twitch-go edit [target]   Edit config files";
     "  twitch-go stop            Stop OBS streaming";
     "  twitch-go intro           Show rig/streaming setup info (all sections)";
     "  twitch-go intro --rig-only      Show only rig information";
     "  twitch-go intro --intro-only    Show only intro message";
     "  twitch-go intro --about-only    Show only about section";
     "";
     "Edit targets:";
     "  config    Edit main config.yaml (default)";
     "  env       Edit secrets .env";
     "  examples  Edit example files";
     "";
     "Presets:";
     ""].

(** [d.items()] *)
Definition items (v : value) : M (list (string * value)) :=
  match v with
  | VDict d => ret d
  | _ => raise AttributeError
  end.

(** [format(s, "<10")]: [s] padded with spaces on the right to [width]
    characters. *)
Definition ljust (s : string) (width : nat) : string :=
  (s ++ String.concat "" (repeat " " (width - List.length (chars s))))%string.

(** [for x in l: body(x)] *)
Fixpoint for_each {A} (l : list A) (body : A -> M unit) : M unit :=
  match l with
  | [] => ret tt
  | x :: l' => (body x ;; for_each l' body)%py
  end.

(** One line of the list of presets. *)
Definition usage_line (item : string * value) : M unit :=
  (game <- getitem (snd item) "game" ;;
   name <- getitem game "name" ;;
   print [Lit "  "; Lit (ljust (fst item) 10); Lit " → "; Fmt name])%py.

Definition print_usage (cfg : value) : M unit :=
  (print [Lit usage] ;;
   presets <- getitem cfg "presets" ;;
   entries <- items presets ;;
   for_each entries usage_line)%py.

(** ** Commands *)

Definition edit_usage : text := [Lit "Usage: twitch-go edit [config|env|examples]"].

Definition edit_command (pf : platform) (arg : option string) : Proc unit :=
  match arg with
  | None => open_editor pf CONFIG_FILE
  | Some a =>
      if a =? "config" then open_editor pf CONFIG_FILE
      else if a =? "env" then open_editor pf ENV_FILE
      else if a =? "examples"
      then open_editor pf CONFIG_EXAMPLE ;;
           open_editor pf ENV_EXAMPLE
      else lift (die edit_usage)
  end.

(** ** Main dispatcher *)

(** Is the str [s] somewhere in [t]. *)
Fixpoint occurs (s t : string) : bool :=
  String.prefix s t ||
  match t with
  | "" => false
  | String _ t' => occurs s t'
  end.

(** [s in v] for a str [s]: a key of a dict, an element of a list, a part
    of a str. *)
Definition contains (v : value) (s : string) : M bool :=
  match v with
  | VDict d => ret (is_some (lookup s d))
  | VList l =>
      ret (existsb (fun x => match x with VStr x' => x' =? s | _ => false end) l)
  | VStr t => ret (occurs s t)
  | _ => raise TypeError
  end.

(** [s in args] for a list of str. *)
Definition mem (s : string) (args : list string) : bool :=
  existsb (String.eqb s) args.

Definition unknown_command (cmd : string) : text :=
  [Lit "Unknown command or preset: "; Lit cmd].

Definition main (pf : platform) (G : globals) (args : list string) : Proc unit :=
  cfg <- load_config pf ;;
  match args with
  | [] => lift (print_usage cfg)
  | cmd :: rest =>
      if cmd =? "edit"
      then edit_command pf (match rest with a :: _ => Some a | [] => None end)
      else if cmd =? "stop" then lift (stop_obs G)
      else if cmd =? "intro"
      then print_intro_info pf (mem "--rig-only" args) (mem "--intro-only" args)
             (mem "--about-only" args)
      else
        found <- lift (presets <- getitem cfg "presets" ;;
                       contains presets cmd)%py ;;
        if found then lift (run_preset G cfg cmd)
        else lift (die (unknown_command cmd))
  end.

(** The command [twitch-go args]: the module is loaded, then [main] runs. *)
Definition twitch_go (pf : platform) (args : list string) : Proc unit :=
  G <- startup pf ;;
  main pf G args.

Local Close Scope proc_scope.

(** ** Observing the command line *)

(** The actions of [run_preset]'s kind among the actions of a command, and
    the programs it started. *)
Definition events (t : list action) : list event :=
  flat_map (fun a => match a with Did e => [e] | Run _ => [] end) t.

Definition launches (t : list action) : list (list string) :=
  flat_map (fun a => match a with Run argv => [argv] | Did _ => [] end) t.

(** The text of a file of the application directory, when both exist. *)
Definition installed (f : app_file) (s : system) : option string :=
  match app_dir s with
  | Some d => file_text f d
  | None => None
  end.

(** What [bootstrap] writes to a file that is missing; it never writes
    [.env]. *)
Definition scaffold (f : app_file) : option string :=
  match f with
  | CONFIG_FILE | CONFIG_EXAMPLE => Some DEFAULT_CONFIG_EXAMPLE
  | ENV_EXAMPLE => Some DEFAULT_ENV_EXAMPLE
  | ENV_FILE => None
  end.

(** The first run: the directory or [config.yaml] is missing. *)
Definition is_first_run (s : system) : bool :=
  negb (is_some (installed CONFIG_FILE s)).

(** The commands that [main] handles itself. *)
Definition reserved : list string := ["edit"; "stop"; "intro"].

(** A variable of [os.environ] that is unset or empty. *)
Definition unset (k : string) (s : system) : Prop :=
  lookup k (os_environ s) = None \/ lookup k (os_environ s) = Some "".

(** The editor [open_editor] starts: [EDITOR], else [VISUAL], else the
    default of the platform. *)
Inductive chooses (pf : platform) (s : system) : string -> Prop :=
| ChoosesEditor e :
    lookup "EDITOR" (os_environ s) = Some e -> e <> "" -> chooses pf s e
| ChoosesVisual e :
    unset "EDITOR" s ->
    lookup "VISUAL" (os_environ s) = Some e -> e <> "" -> chooses pf s e
| ChoosesDefault :
    unset "EDITOR" s -> unset "VISUAL" s ->
    chooses pf s (if os_name pf =? "nt" then "notepad.exe" else "vi").

(** The files [edit_command] opens for a target, in order; [None] for a
    target it does not know. *)
Definition edit_targets (arg : option string) : option (list app_file) :=
  match arg with
  | None => Some [CONFIG_FILE]
  | Some a =>
      if a =? "config" then Some [CONFIG_FILE]
      else if a =? "env" then Some [ENV_FILE]
      else if a =? "examples" then Some [CONFIG_EXAMPLE; ENV_EXAMPLE]
      else None
  end.

(** [preset["game"]["name"]], when it is there. *)
Definition preset_name (preset : value) : option value :=
  match preset with
  | VDict p =>
      match lookup "game" p with
      | Some (VDict g) => lookup "name" g
      | _ => None
      end
  | _ => None
  end.

(** ** Sample machines *)

(** A configuration with a preset named like a command, and tags that are
    not all strings. *)
Definition odd_preset : list (string * value) :=
  [("game", VDict [("name", VStr "Chess"); ("category", VStr "Chess")]);
   ("defaults", VDict [("title", VStr "Blitz");
                       ("go_live_notification", VStr "Live")]);
   ("tags", VList [VStr "Chess"; VInt 2024])].

Definition odd_items : list (string * value) :=
  [("defaults", VDict [("obs", VDict [("auto_start", VBool false)]);
                       ("prompts", VDict [("confirm", VBool true)])]);
   ("presets", VDict [("stop", VDict odd_preset)])].

Definition odd_cfg : value := VDict odd_items.

(** A configuration whose second preset is an empty draft. *)
Definition draft_cfg : value :=
  VDict [("presets", VDict [("valorant", sample_preset);
                            ("draft", VDict []);
                            ("chess", VDict odd_preset)])].

(** A platform whose parsers know three configuration texts and one
    [.env] text, and whose user writes the secrets when an editor opens
    [.env] and saves nothing in the other files. *)
Definition sample_platform : platform :=
  mkPlatform
    (fun content => if content =? "the configuration" then Some sample_cfg
                    else if content =? "the odd configuration" then Some odd_cfg
                    else if content =? "a draft preset" then Some draft_cfg
                    else None)
    (fun content => if content =? "the secrets" then sample_environ else [])
    "/home/streamer/.twitch-go" "/" "posix"
    (fun _ f _ => match f with ENV_FILE => Some "the secrets" | _ => None end).

Definition sample_dir (config : string) (secrets : option string) : directory :=
  mkDirectory (Some config) (Some DEFAULT_CONFIG_EXAMPLE)
              secrets (Some DEFAULT_ENV_EXAMPLE).

(** A machine after setup, with its [config.yaml] and its [.env], an empty
    [EDITOR] and [nano] as [VISUAL]; and the machine before the first
    run. *)
Definition configured (config : string) (secrets : option string) (w : world)
  : system :=
  mkSystem (Some (sample_dir config secrets))
           [("EDITOR", ""); ("VISUAL", "nano")] ["vi"; "nano"] w.

Definition fresh : system :=
  mkSystem None [] ["vi"] (mkWorld Absent [] [] None false).

(** ** What a command leaves alone *)

Definition is_input (e : event) : bool :=
  match e with Input _ _ => true | _ => false end.

(** [m] makes no request, reads no line and leaves the token file as it
    is. *)
Definition offline {A} (m : Proc A) : Prop :=
  forall s,
    count is_network (events (actions_of (m s))) = 0 /\
    count is_input (events (actions_of (m s))) = 0 /\
    token_file (base (system_of (m s))) = token_file (base s).

(** One line of the list of presets in the usage. *)
Definition usage_entry (key : string) (name : value) : event :=
  Print [Lit "  "; Lit (ljust key 10); Lit " → "; Fmt name].

(** [os.environ] once the module-level code has loaded [.env], when the
    file exists. *)
Definition environment (pf : platform) (s : system) : list (string * string) :=
  match installed ENV_FILE s with
  | Some content => os_environ s ++ dotenv_values pf content
  | None => os_environ s
  end.

(** * The release script *)

(** [bump_version] of [release.py], the one function of the script that
    computes; the rest of it drives git, PyInstaller and the GitHub
    command line. *)

(** [s.split(sep)] for a separator of one character. *)
Fixpoint split (c : ascii) (s : string) : list string :=
  match s with
  | "" => [""]
  | String a r =>
      if Ascii.eqb a c then "" :: split c r
      else
        match split c r with
        | h :: t => String a h :: t
        | [] => [String a ""]
        end
  end.

Definition digit (n : Z) : ascii := ascii_of_nat (48 + Z.to_nat n).

(** The decimal digits of [n >= 0] in front of [acc]; [fuel] bounds the
    number of digits. *)
Fixpoint decimal (fuel : nat) (n : Z) (acc : string) : string :=
  match fuel with
  | O => acc
  | S fuel' =>
      let acc' := String (digit (n mod 10)) acc in
      if (n <? 10)%Z then acc' else decimal fuel' (n / 10) acc'
  end.

(** The decimal digits of [|n|]; a number has no more decimal digits than
    binary ones. *)
Definition digits_of (n : Z) : string :=
  decimal (S (Z.to_nat (Z.log2 (Z.abs n)))) (Z.abs n) "".

(** [str(n)] for an int, as an f-string writes it; ValueError when the
    number has more than [int_max_str_digits] digits. *)
Definition str_of_int (n : Z) : outcome string :=
  let ds := digits_of n in
  if (Z.of_nat (String.length ds) <=? int_max_str_digits)%Z
  then Ret (if (n <? 0)%Z then String "-" ds else ds)
  else Raise ValueError.

(** [parts[i]] *)
Definition nth_part (parts : list string) (i : nat) : outcome string :=
  match nth_error parts i with
  | Some p => Ret p
  | None => Raise IndexError
  end.

(** [int(s)] *)
Definition int_of (s : string) : outcome Z :=
  match py_int s with
  | Some n => Ret n
  | None => Raise ValueError
  end.

Definition then_ {A B} (o : outcome A) (f : A -> outcome B) : outcome B :=
  match o with
  | Ret a => f a
  | Raise e => Raise e
  end.

Definition dot : ascii := ".".

Definition bump_version (current_version bump_type : string) : outcome string :=
  let parts := split dot current_version in
  then_ (then_ (nth_part parts 0) int_of) (fun major =>
  then_ (then_ (nth_part parts 1) int_of) (fun minor =>
  then_ (then_ (nth_part parts 2) int_of) (fun patch =>
  let '(major, minor, patch) :=
    if bump_type =? "major" then ((major + 1)%Z, 0%Z, 0%Z)
    else if bump_type =? "minor" then (major, (minor + 1)%Z, 0%Z)
    else if bump_type =? "patch" then (major, minor, (patch + 1)%Z)
    else (major, minor, patch) in
  then_ (str_of_int major) (fun a =>
  then_ (str_of_int minor) (fun b =>
  then_ (str_of_int patch) (fun c =>
  Ret (a ++ "." ++ b ++ "." ++ c)%string)))))).

(** The three numbers a version starts with, when it has them. *)
Definition version_numbers (v : string) : option (Z * Z * Z) :=
  match split dot v with
  | a :: b :: c :: _ =>
      match py_int a, py_int b, py_int c with
      | Some major, Some minor, Some patch => Some (major, minor, patch)
      | _, _, _ => None
      end
  | _ => None
  end.

(** The numbers after a bump; a bump of a kind that is not known changes
    none. *)
Definition bumped (bump_type : string) (v : Z * Z * Z) : Z * Z * Z :=
  let '(major, minor, patch) := v in
  if bump_type =? "major" then ((major + 1)%Z, 0%Z, 0%Z)
  else if bump_type =? "minor" then (major, (minor + 1)%Z, 0%Z)
  else if bump_type =? "patch" then (major, minor, (patch + 1)%Z)
  else (major, minor, patch).

Fixpoint all_chars (p : ascii -> bool) (s : string) : bool :=
  match s with
  | "" => true
  | String c r => p c && all_chars p r
  end.

(** The characters of [str(n)]: digits and the minus sign. *)
Definition numeric (c : ascii) : bool := byte_in 48 57 c || Ascii.eqb c "-".

(** The bytes of a str. *)
Fixpoint codes (s : string) : list N :=
  match s with
  | "" => []
  | String c r => N_of_ascii c :: codes r
  end.

(** The ints that [str] writes: those of at most [int_max_str_digits]
    digits. *)
Definition writable (n : Z) : bool := (Z.abs n <? 10 ^ int_max_str_digits)%Z.

(** The digits of [n] with its sign. *)
Definition written (n : Z) : string :=
  if (n <? 0)%Z then String "-" (digits_of n) else digits_of n.

(** * Reasoning about runs *)

(** ** One step of [bind] and [try_except] *)

Lemma bind_Ret {A B} (m : M A) (f : A -> M B) w a w1 t1 :
  m w = (Ret a, w1, t1) ->
  bind m f w = (outcome_of (f a w1), world_of (f a w1), t1 ++ trace_of (f a w1)).
Proof.
  intros H. unfold bind. rewrite H.
  destruct (f a w1) as [[o w2] t2]. reflexivity.
Qed.

Lemma bind_Raise {A B} (m : M A) (f : A -> M B) w e w1 t1 :
  m w = (Raise e, w1, t1) ->
  bind m f w = (Raise e, w1, t1).
Proof. intros H. unfold bind. rewrite H. reflexivity. Qed.


Lemma count_app p t1 t2 : count p (t1 ++ t2) = count p t1 + count p t2.
Proof. unfold count. rewrite filter_app, length_app. reflexivity. Qed.


Section Counting.

Variable p : event -> bool.

Lemma quiet_ret {A} (a : A) : quiet p (ret a).
Proof. intros w. reflexivity. Qed.

Lemma quiet_raise {A} (e : exn) : quiet p (@raise A e).
Proof. intros w. reflexivity. Qed.

Lemma quiet_bind {A B} (m : M A) (f : A -> M B) :
  quiet p m -> (forall a, quiet p (f a)) -> quiet p (bind m f).
Proof.
  intros Hm Hf w. specialize (Hm w). unfold bind.
  destruct (m w) as [[[a | e] w1] t1]; cbn in *; [| exact Hm].
  specialize (Hf a w1). destruct (f a w1) as [[o w2] t2]; cbn in *.
  rewrite count_app. lia.
Qed.

Lemma quiet_try {A} (m : M A) (h : exn -> option (M A)) :
  quiet p m -> (forall e k, h e = Some k -> quiet p k) ->
  quiet p (try_except m h).
Proof.
  intros Hm Hh w. specialize (Hm w). unfold try_except.
  destruct (m w) as [[[a | e] w1] t1]; cbn in *; [exact Hm |].
  destruct (h e) as [k |] eqn:He; cbn; [| exact Hm].
  specialize (Hh e k He w1). destruct (k w1) as [[o w2] t2]; cbn in *.
  rewrite count_app. lia.
Qed.

Lemma quiet_print t : p (Print t) = false -> quiet p (print t).
Proof. intros H w. unfold count. cbn. rewrite H. reflexivity. Qed.

Lemma quiet_input s : (forall l, p (Input s l) = false) -> quiet p (input s).
Proof.
  intros H w. unfold input, count.
  destruct (stdin w); cbn; rewrite H; reflexivity.
Qed.

Lemma quiet_send rq : (forall r, p (Http rq r) = false) -> quiet p (send rq).
Proof.
  intros H w. unfold send, count.
  destruct (network w) as [| [st b | |] rest]; cbn; rewrite H; reflexivity.
Qed.

Lemma quiet_ReqClient h n pw :
  (forall b, p (ObsConnect h n pw b) = false) -> quiet p (ReqClient h n pw).
Proof.
  intros H w. unfold ReqClient, count.
  destruct (obs_endpoint w) as [[[h' n'] pw'] |]; destruct pw; cbn;
    try (rewrite H; reflexivity).
  destruct ((h' =? h) && (n' =? n)%Z && (pw' =? s)); cbn; rewrite H; reflexivity.
Qed.

Lemma quiet_get_stream_status :
  (forall b, p (ObsGetStreamStatus b) = false) -> quiet p get_stream_status.
Proof. intros H w. unfold get_stream_status, count. cbn. rewrite H. reflexivity. Qed.

Lemma quiet_start_stream : p ObsStartStream = false -> quiet p start_stream.
Proof. intros H w. unfold start_stream, count. cbn. rewrite H. reflexivity. Qed.

Lemma quiet_getitem v k : quiet p (getitem v k).
Proof.
  intros w. destruct v; try reflexivity. cbn.
  destruct (lookup k d); reflexivity.
Qed.

Lemma quiet_getitem0 v : quiet p (getitem0 v).
Proof.
  intros w. destruct v as [| | | s | [| x l] | d]; try reflexivity. cbn.
  destruct (chars s); reflexivity.
Qed.

Lemma quiet_get v k d : quiet p (get v k d).
Proof. intros w. destruct v; reflexivity. Qed.

Lemma quiet_raise_for_status r : quiet p (raise_for_status r).
Proof.
  intros w. unfold raise_for_status.
  destruct (http_error (fst r)); reflexivity.
Qed.

Lemma quiet_json r : quiet p (json r).
Proof. intros w. unfold json. destruct (snd r); reflexivity. Qed.

Lemma quiet_load_tokens : quiet p load_tokens.
Proof. intros w. unfold load_tokens. destruct (token_file w); reflexivity. Qed.

Lemma quiet_save_tokens v : quiet p (save_tokens v).
Proof. intros w. reflexivity. Qed.

Lemma quiet_die {A} msg :
  p (Print (Lit "ERROR: " :: msg)) = false -> quiet p (@die A msg).
Proof.
  intros H. unfold die. apply quiet_bind; [apply quiet_print; exact H |].
  intros _. apply quiet_raise.
Qed.

End Counting.

(** The goal [quiet p m] on a straight-line computation: split at every
    [bind], settle the leaves, case on the tests. *)
Ltac quiet_step :=
  match goal with
  | |- quiet _ (bind _ _) => apply quiet_bind; [| intros ?]
  | |- quiet _ (try_except _ _) =>
      apply quiet_try;
      [| let e := fresh "e" in let k := fresh "k" in let H := fresh "H" in
         intros e k H; destruct e; inversion H; subst; clear H]
  | |- quiet _ (ret _) => apply quiet_ret
  | |- quiet _ (raise _) => apply quiet_raise
  | |- quiet _ (print _) => apply quiet_print; reflexivity
  | |- quiet _ (input _) => apply quiet_input; intros ?; reflexivity
  | |- quiet _ (send _) => apply quiet_send; intros ?; reflexivity
  | |- quiet _ (ReqClient _ _ _) => apply quiet_ReqClient; intros ?; reflexivity
  | |- quiet _ get_stream_status =>
      apply quiet_get_stream_status; intros ?; reflexivity
  | |- quiet _ start_stream => apply quiet_start_stream; reflexivity
  | |- quiet _ (die _) => apply quiet_die; reflexivity
  | |- quiet _ (getitem _ _) => apply quiet_getitem
  | |- quiet _ (getitem0 _) => apply quiet_getitem0
  | |- quiet _ (get _ _ _) => apply quiet_get
  | |- quiet _ (raise_for_status _) => apply quiet_raise_for_status
  | |- quiet _ (json _) => apply quiet_json
  | |- quiet _ load_tokens => apply quiet_load_tokens
  | |- quiet _ (save_tokens _) => apply quiet_save_tokens
  | |- quiet _ (let _ := _ in _) => cbv zeta
  | |- quiet _ (if ?b then _ else _) => destruct b
  | |- quiet _ (match ?x with _ => _ end) => destruct x
  end.

Ltac quiet_tac := repeat quiet_step.

(** ** Counts along [bind] *)

Lemma count_bind {A B} p (m : M A) (f : A -> M B) w :
  count p (trace_of (bind m f w)) =
  count p (trace_of (m w)) +
  match outcome_of (m w) with
  | Ret a => count p (trace_of (f a (world_of (m w))))
  | Raise _ => 0
  end.
Proof.
  unfold bind. destruct (m w) as [[[a | e] w1] t1]; cbn.
  - destruct (f a w1) as [[o w2] t2]; cbn. apply count_app.
  - lia.
Qed.

Lemma trace_bind {A B} (m : M A) (f : A -> M B) w :
  trace_of (bind m f w) =
  trace_of (m w) ++
  match outcome_of (m w) with
  | Ret a => trace_of (f a (world_of (m w)))
  | Raise _ => []
  end.
Proof.
  unfold bind. destruct (m w) as [[[a | e] w1] t1]; cbn.
  - destruct (f a w1) as [[o w2] t2]; reflexivity.
  - symmetry. apply app_nil_r.
Qed.

Lemma world_bind {A B} (m : M A) (f : A -> M B) w :
  world_of (bind m f w) =
  match outcome_of (m w) with
  | Ret a => world_of (f a (world_of (m w)))
  | Raise _ => world_of (m w)
  end.
Proof.
  unfold bind. destruct (m w) as [[[a | e] w1] t1]; cbn; [| reflexivity].
  destruct (f a w1) as [[o w2] t2]; reflexivity.
Qed.

Lemma count_In p e t : In e t -> p e = true -> 1 <= count p t.
Proof.
  intros Hin Hp. unfold count.
  assert (Hf : In e (filter p t)) by (apply filter_In; split; assumption).
  destruct (filter p t); [contradiction | cbn; lia].
Qed.

(** ** The OBS start *)

Lemma start_obs_counts G w :
  let t := trace_of (start_obs G w) in
  count is_start t = count (is_status false) t /\
  count (is_status true) t + count (is_status false) t <= 1.
Proof.
  unfold start_obs, die, bind, print, raise, ret, ReqClient, get_stream_status,
    start_stream.
  destruct (truthy (OBS_PASSWORD G)); cbn; [| split; [reflexivity | cbv; lia]].
  destruct (obs_endpoint w) as [[[h n] pw] |]; cbn;
    [| split; [reflexivity | cbv; lia]].
  destruct (OBS_PASSWORD G); cbn; try (split; [reflexivity | cbv; lia]).
  destruct ((h =? OBS_HOST G) && (n =? OBS_PORT G)%Z && (pw =? s)); cbn;
    [| split; [reflexivity | cbv; lia]].
  destruct (obs_active w); cbn; split; try reflexivity; cbv; lia.
Qed.

(** ** Which block performs what *)

Ltac quiet_prog :=
  unfold run_preset_tokens, run_preset_auth, run_preset_prompts,
    run_preset_confirm, run_preset_update, run_preset_obs, get_preset, prompt,
    exchange_code, refresh_tokens, get_broadcaster_id, get_game_id,
    update_channel, start_obs, load_environment, environ_getitem;
  quiet_tac.

Lemma quiet_filter {A} q (m : M A) w :
  quiet q m -> filter q (trace_of (m w)) = [].
Proof. intros H. apply length_zero_iff_nil, (H w). Qed.

Lemma count_filter_sub p q t :
  (forall e, p e = true -> q e = true) -> count p (filter q t) = count p t.
Proof.
  intros Hsub. unfold count. induction t as [| e t IH]; [reflexivity |].
  cbn. destruct (q e) eqn:Hqe; cbn.
  - destruct (p e); cbn; rewrite IH; reflexivity.
  - destruct (p e) eqn:Hpe; [rewrite (Hsub e Hpe) in Hqe; discriminate |].
    exact IH.
Qed.

(** The [q]-actions of [bind m f] when [m] performs none: none if [m]
    raises, those of [f] otherwise. *)
Lemma localise {A B} q (m : M A) (f : A -> M B) w (P : list event -> Prop) :
  quiet q m ->
  P [] ->
  (forall a, outcome_of (m w) = Ret a ->
             P (filter q (trace_of (f a (world_of (m w)))))) ->
  P (filter q (trace_of (bind m f w))).
Proof.
  intros Hq H0 Hf. rewrite trace_bind, filter_app, (quiet_filter q m w Hq).
  cbn. destruct (outcome_of (m w)) as [a | e]; [apply Hf; reflexivity | exact H0].
Qed.

(** The [q]-actions of [bind m f] when [f] performs none: those of [m]. *)
Lemma localise_r {A B} q (m : M A) (f : A -> M B) w :
  (forall a, quiet q (f a)) ->
  filter q (trace_of (bind m f w)) = filter q (trace_of (m w)).
Proof.
  intros Hq. rewrite trace_bind, filter_app.
  destruct (outcome_of (m w)) as [a | e]; cbn.
  - rewrite (quiet_filter q (f a) _ (Hq a)). apply app_nil_r.
  - apply app_nil_r.
Qed.

(** The controller is called by [start_obs] only: the OBS actions of a run
    of [run_preset] are those of one run of [start_obs], or none. *)
Lemma run_preset_obs_actions G cfg key w :
  filter is_obs (trace_of (run_preset G cfg key w)) = [] \/
  exists w', filter is_obs (trace_of (run_preset G cfg key w)) =
             filter is_obs (trace_of (start_obs G w')).
Proof.
  unfold run_preset.
  set (P := fun t => t = [] \/
            exists w', t = filter is_obs (trace_of (start_obs G w'))).
  change (P (filter is_obs (trace_of
    ((preset <- get_preset cfg key ;;
      tokens <- run_preset_tokens G ;;
      auth <- run_preset_auth G tokens ;;
      entered <- run_preset_prompts preset ;;
      run_preset_confirm cfg ;;
      run_preset_update G preset (fst auth) (snd auth) (fst entered) (snd entered) ;;
      run_preset_obs G cfg ;;
      print [Lit "✓ Go live complete"]) w)))).
  assert (P0 : P []) by (left; reflexivity).
  apply localise; [quiet_prog | exact P0 | intros preset _].
  apply localise; [quiet_prog | exact P0 | intros tokens _].
  apply localise; [quiet_prog | exact P0 | intros auth _].
  apply localise; [quiet_prog | exact P0 | intros entered _].
  apply localise; [quiet_prog | exact P0 | intros _ _].
  apply localise; [quiet_prog | exact P0 | intros _ _].
  rewrite localise_r by (intros; quiet_tac).
  unfold run_preset_obs.
  apply localise; [quiet_prog | exact P0 | intros defaults _].
  apply localise; [quiet_prog | exact P0 | intros obs _].
  apply localise; [quiet_prog | exact P0 | intros auto_start _].
  destruct (truthy auto_start); [right; eexists; reflexivity | exact P0].
Qed.

(** ** The run up to the confirmation *)

Lemma bind_inv {A B} (m : M A) (f : A -> M B) w :
  (exists e w1 t1, m w = (Raise e, w1, t1) /\ bind m f w = (Raise e, w1, t1)) \/
  (exists a w1 t1, m w = (Ret a, w1, t1) /\
     bind m f w =
     (outcome_of (f a w1), world_of (f a w1), t1 ++ trace_of (f a w1))).
Proof.
  destruct (m w) as [[[a | e] w1] t1] eqn:E.
  - right. exists a, w1, t1. split; [reflexivity |]. apply bind_Ret, E.
  - left. exists e, w1, t1. split; [reflexivity |]. apply bind_Raise, E.
Qed.

Lemma before_confirm_free_decline : before_confirm_free is_decline.
Proof. repeat split; quiet_prog. Qed.

Lemma before_confirm_free_patch : before_confirm_free is_patch.
Proof. repeat split; quiet_prog. Qed.

Lemma before_confirm_free_obs : before_confirm_free is_obs.
Proof. repeat split; quiet_prog. Qed.

Lemma quiet_eq {A} p (m : M A) w o w1 t :
  quiet p m -> m w = (o, w1, t) -> count p t = 0.
Proof. intros H E. specialize (H w). rewrite E in H. exact H. Qed.

(** Either the run ends in one of the first four blocks, or it reaches the
    confirmation and continues as [run_preset_from_confirm]. *)
Lemma run_preset_to_confirm G cfg key w :
  ((exists e, outcome_of (run_preset G cfg key w) = Raise e) /\
   forall p, before_confirm_free p ->
             count p (trace_of (run_preset G cfg key w)) = 0) \/
  (exists preset tokens auth entered w1 w2 w3 w4 t0 t1 t2 t3,
     get_preset cfg key w = (Ret preset, w1, t0) /\
     run_preset_tokens G w1 = (Ret tokens, w2, t1) /\
     run_preset_auth G tokens w2 = (Ret auth, w3, t2) /\
     run_preset_prompts preset w3 = (Ret entered, w4, t3) /\
     let r := run_preset_from_confirm G cfg preset auth entered w4 in
     run_preset G cfg key w =
     (outcome_of r, world_of r, (t0 ++ t1 ++ t2 ++ t3) ++ trace_of r) /\
     forall p, before_confirm_free p ->
               count p (t0 ++ t1 ++ t2 ++ t3) = 0).
Proof.
  unfold run_preset.
  destruct (bind_inv (get_preset cfg key)
    (fun preset =>
      tokens <- run_preset_tokens G ;;
      auth <- run_preset_auth G tokens ;;
      entered <- run_preset_prompts preset ;;
      run_preset_confirm cfg ;;
      run_preset_update G preset (fst auth) (snd auth) (fst entered) (snd entered) ;;
      run_preset_obs G cfg ;;
      print [Lit "✓ Go live complete"]) w)
    as [(e & w1 & t0 & E0 & R0) | (preset & w1 & t0 & E0 & R0)];
    rewrite R0; clear R0.
  { left. split; [exists e; reflexivity |]. intros p Hp. cbn.
    destruct (Hp G cfg key VNone VNone) as (Q0 & _).
    apply (quiet_eq _ _ _ _ _ _ Q0 E0). }
  match goal with |- context [outcome_of (bind ?m ?f w1)] =>
    destruct (bind_inv m f w1)
      as [(e & w2 & t1 & E1 & R1) | (tokens & w2 & t1 & E1 & R1)];
      rewrite R1; clear R1
  end.
  { left. split; [exists e; reflexivity |]. intros p Hp. cbn.
    destruct (Hp G cfg key VNone VNone) as (Q0 & Q1 & _).
    rewrite count_app, (quiet_eq _ _ _ _ _ _ Q0 E0), (quiet_eq _ _ _ _ _ _ Q1 E1).
    reflexivity. }
  match goal with |- context [outcome_of (bind ?m ?f w2)] =>
    destruct (bind_inv m f w2)
      as [(e & w3 & t2 & E2 & R2) | (auth & w3 & t2 & E2 & R2)];
      rewrite R2; clear R2
  end.
  { left. split; [exists e; reflexivity |]. intros p Hp. cbn.
    destruct (Hp G cfg key tokens VNone) as (Q0 & Q1 & Q2 & _).
    rewrite !count_app, (quiet_eq _ _ _ _ _ _ Q0 E0),
      (quiet_eq _ _ _ _ _ _ Q1 E1), (quiet_eq _ _ _ _ _ _ Q2 E2).
    reflexivity. }
  match goal with |- context [outcome_of (bind ?m ?f w3)] =>
    destruct (bind_inv m f w3)
      as [(e & w4 & t3 & E3 & R3) | (entered & w4 & t3 & E3 & R3)];
      rewrite R3; clear R3
  end.
  { left. split; [exists e; reflexivity |]. intros p Hp. cbn.
    destruct (Hp G cfg key tokens preset) as (Q0 & Q1 & Q2 & Q3).
    rewrite !count_app, (quiet_eq _ _ _ _ _ _ Q0 E0),
      (quiet_eq _ _ _ _ _ _ Q1 E1), (quiet_eq _ _ _ _ _ _ Q2 E2),
      (quiet_eq _ _ _ _ _ _ Q3 E3).
    reflexivity. }
  right. exists preset, tokens, auth, entered, w1, w2, w3, w4, t0, t1, t2, t3.
  repeat split; try assumption.
  { cbv zeta. rewrite <- !app_assoc. reflexivity. }
  intros p Hp. destruct (Hp G cfg key tokens preset) as (Q0 & Q1 & Q2 & Q3).
  rewrite !count_app, (quiet_eq _ _ _ _ _ _ Q0 E0),
    (quiet_eq _ _ _ _ _ _ Q1 E1), (quiet_eq _ _ _ _ _ _ Q2 E2),
    (quiet_eq _ _ _ _ _ _ Q3 E3).
  reflexivity.
Qed.

(** ** The confirmation *)

(** The three ways the confirmation block can go. *)
Lemma run_preset_confirm_cases cfg w :
  trace_of (run_preset_confirm cfg w) = [] \/
  (stdin w = [] /\
   run_preset_confirm cfg w = (Raise EOFError, w, [Input confirm_prompt None])) \/
  (exists a rest,
     stdin w = a :: rest /\
     run_preset_confirm cfg w =
     (if lower a =? "n" then Raise (SystemExit 1) else Ret tt,
      set_stdin rest w,
      Input confirm_prompt (Some a) :: if lower a =? "n" then [aborted] else [])).
Proof.
  unfold run_preset_confirm, bind, getitem, get, input, die, print, raise, ret.
  destruct cfg as [| | | | | c]; try (left; reflexivity).
  destruct (lookup "defaults" c) as [defaults |]; [| left; reflexivity].
  destruct defaults as [| | | | | d]; try (left; reflexivity).
  destruct (lookup "prompts" d) as [prompts |]; [| left; reflexivity].
  destruct prompts as [| | | | | pr]; try (left; reflexivity).
  cbn.
  destruct (truthy _); [| left; reflexivity].
  destruct (stdin w) as [| a rest] eqn:Hin; cbn.
  - right. left. split; reflexivity.
  - right. right. exists a, rest. split; [reflexivity |].
    destruct (lower a =? "n"); reflexivity.
Qed.

Lemma after_confirm_quiet_decline G cfg preset a b c d :
  quiet is_decline
    (run_preset_update G preset a b c d ;;
     run_preset_obs G cfg ;;
     print [Lit "✓ Go live complete"]).
Proof. quiet_prog. Qed.

(** ** The run up to the channel update *)

Lemma before_update_free_patch : before_update_free is_patch.
Proof. split; [exact before_confirm_free_patch | intros; quiet_prog]. Qed.

(** Either the run ends before the update block, or it reaches it and then
    ends with it or goes on with the OBS block. *)
Lemma run_preset_to_update G cfg key w :
  ((exists e, outcome_of (run_preset G cfg key w) = Raise e) /\
   forall p, before_update_free p ->
             count p (trace_of (run_preset G cfg key w)) = 0) \/
  (exists preset tokens auth entered w1 w2 w3 w4 w5 t0 t1 t2 t3 t4 pre,
     get_preset cfg key w = (Ret preset, w1, t0) /\
     run_preset_tokens G w1 = (Ret tokens, w2, t1) /\
     run_preset_auth G tokens w2 = (Ret auth, w3, t2) /\
     run_preset_prompts preset w3 = (Ret entered, w4, t3) /\
     run_preset_confirm cfg w4 = (Ret tt, w5, t4) /\
     pre = (t0 ++ t1 ++ t2 ++ t3) ++ t4 /\
     (forall p, before_update_free p -> count p pre = 0) /\
     let ru := run_preset_update G preset (fst auth) (snd auth)
                 (fst entered) (snd entered) w5 in
     let r2 := (run_preset_obs G cfg ;; print [Lit "✓ Go live complete"])
                 (world_of ru) in
     run_preset G cfg key w =
     match outcome_of ru with
     | Ret _ => (outcome_of r2, world_of r2, pre ++ trace_of ru ++ trace_of r2)
     | Raise e => (Raise e, world_of ru, pre ++ trace_of ru)
     end).
Proof.
  destruct (run_preset_to_confirm G cfg key w)
    as [(He & Hq) | (preset & tokens & auth & entered & w1 & w2 & w3 & w4
                    & t0 & t1 & t2 & t3 & E0 & E1 & E2 & E3 & R & Hq)].
  { left. split; [exact He |]. intros p [Hp _]. apply Hq, Hp. }
  cbv zeta in R. unfold run_preset_from_confirm in R.
  match type of R with context [outcome_of (bind ?m ?f w4)] =>
    destruct (bind_inv m f w4)
      as [(e & w5 & t4 & E4 & R4) | ([] & w5 & t4 & E4 & R4)];
      rewrite R4 in R; clear R4
  end.
  { left. rewrite R. split; [exists e; reflexivity |]. intros p [Hp Hc].
    unfold trace_of. cbn [snd].
    rewrite count_app, (Hq p Hp), (quiet_eq _ _ _ _ _ _ (Hc cfg) E4).
    reflexivity. }
  right.
  exists preset, tokens, auth, entered, w1, w2, w3, w4, w5, t0, t1, t2, t3, t4,
    ((t0 ++ t1 ++ t2 ++ t3) ++ t4).
  repeat split; try assumption.
  { intros p [Hp Hc].
    rewrite count_app, (Hq p Hp), (quiet_eq _ _ _ _ _ _ (Hc cfg) E4).
    reflexivity. }
  cbv zeta. rewrite R. unfold outcome_of at 1, world_of at 1, trace_of at 1.
  cbn [fst snd].
  match goal with |- context [outcome_of (bind ?m ?f w5)] =>
    destruct (bind_inv m f w5)
      as [(e & w6 & t5 & E5 & R5) | ([] & w6 & t5 & E5 & R5)];
      rewrite R5; clear R5; rewrite E5
  end; unfold outcome_of, world_of, trace_of; cbn [fst snd];
    rewrite <- !app_assoc; reflexivity.
Qed.

(** ** The update block *)

Ltac use_eqs :=
  repeat match goal with
         | H : _ = _ |- _ => rewrite H
         end.

(** Case analysis on what a run tests, innermost first. *)
Ltac run_step :=
  match goal with
  | |- context [match network ?w with _ => _ end] =>
      destruct (network w) as [| [? ? | |] ?] eqn:?
  | |- context [if http_error ?s then _ else _] =>
      destruct (http_error s) eqn:?
  | |- context [match lookup ?k ?d with _ => _ end] =>
      destruct (lookup k d) eqn:?
  | |- context [match ?x with _ => _ end] => is_var x; destruct x
  | |- context [match chars ?s with _ => _ end] =>
      destruct (chars s) eqn:?
  | |- context [truthy ?v] => destruct (truthy v) eqn:?
  end.

Ltac run_all :=
  repeat (cbn -[headers String.append http_error truthy lookup chars];
          try run_step).

Ltac leaf := cbn -[http_error truthy lookup]; use_eqs; reflexivity.

Lemma UpdateSearchFailed' G token bid title tags name r e t :
  t = [Http (search_request G token name) r] ->
  no_match r = false ->
  update_run G token bid title tags (Raise e) t.
Proof. intros -> H. apply UpdateSearchFailed, H. Qed.

Lemma UpdateNoMatch' G token bid title tags name r t :
  t = [Http (search_request G token name) r; game_not_found name] ->
  no_match r = true ->
  update_run G token bid title tags (Raise (SystemExit 1)) t.
Proof. intros -> H. apply UpdateNoMatch, H. Qed.

Lemma UpdateSent' G token bid title tags name r game_id r2 o t rq1 rq2 rest :
  t = Http rq1 r :: Http rq2 r2 :: rest ->
  rq1 = search_request G token name ->
  rq2 = patch_request G token bid (payload_of title game_id tags) ->
  rest = match failure_of r2 with Some _ => [] | None => [metadata_updated] end ->
  o = match failure_of r2 with Some e => Raise e | None => Ret tt end ->
  failure_of r = None ->
  first_id r = Some game_id ->
  update_run G token bid title tags o t.
Proof. intros -> -> -> -> -> H1 H2. apply UpdateSent; assumption. Qed.

Lemma run_preset_update_run G preset token bid title tags w :
  update_run G token bid title tags
    (outcome_of (run_preset_update G preset token bid title tags w))
    (trace_of (run_preset_update G preset token bid title tags w)).
Proof.
  unfold run_preset_update, get_game_id, update_channel, bind, getitem,
    getitem0, send, raise_for_status, json, die, print, raise, ret,
    outcome_of, trace_of.
  run_all.
  all: try (apply UpdatePreset).
  all: try (eapply UpdateSearchFailed'; [reflexivity | leaf]).
  all: try (eapply UpdateNoMatch'; [reflexivity | leaf]).
  all: eapply UpdateSent';
    [reflexivity | reflexivity | unfold payload_of; use_eqs; reflexivity
    | leaf | leaf | leaf | leaf].
Qed.

Lemma before_update_free_without_match :
  before_update_free is_search_without_match.
Proof. split; [repeat split |]; intros; quiet_prog. Qed.

Lemma after_update_free_without_match :
  after_update_free is_search_without_match.
Proof. intros G cfg. quiet_prog. Qed.

Lemma after_update_free_patch : after_update_free is_patch.
Proof. intros G cfg. quiet_prog. Qed.

Lemma first_id_match r g : first_id r = Some g -> no_match r = false.
Proof.
  destruct r as [st [[| | | | | b] |] | |]; try discriminate. cbn.
  destruct (lookup "data" b) as [[| | | | [| [| | | | | x] l] |] |];
    try discriminate.
  intros _. apply andb_false_r.
Qed.

(** ** What the blocks return *)

Lemma get_preset_ret cfg key w preset w1 t0 :
  get_preset cfg key w = (Ret preset, w1, t0) ->
  exists c ps,
    cfg = VDict c /\ lookup "presets" c = Some (VDict ps) /\
    lookup key ps = Some preset.
Proof.
  unfold get_preset, try_except, bind, getitem, die, print, raise, ret.
  destruct cfg as [| | | | | c]; try discriminate.
  destruct (lookup "presets" c) as [[| | | | | ps] |] eqn:Hp; try discriminate.
  cbn. destruct (lookup key ps) as [x |] eqn:Hk; [| discriminate].
  intros H. inversion H; subst. exists c, ps. repeat split; assumption.
Qed.

Lemma run_preset_prompts_ret preset w entered w' t :
  run_preset_prompts preset w = (Ret entered, w', t) ->
  exists pd defaults default_title line post,
    preset = VDict pd /\
    lookup "defaults" pd = Some (VDict defaults) /\
    lookup "title" defaults = Some default_title /\
    t = Print [Lit nl; Lit "Default title"; Lit ":"] ::
        Print [Lit "  "; Fmt default_title] ::
        Input enter_prompt (Some line) :: post /\
    fst entered =
      (if negb (strip line =? "") then VStr (strip line) else default_title) /\
    snd entered = match lookup "tags" pd with Some x => x | None => VList [] end.
Proof.
  unfold run_preset_prompts, prompt, bind, getitem, get, input, print, raise, ret.
  destruct preset as [| | | | | pd]; try discriminate.
  destruct (lookup "defaults" pd) as [[| | | | | defaults] |] eqn:Hd;
    try discriminate.
  cbn -[lookup strip nl].
  destruct (lookup "title" defaults) as [default_title |] eqn:Ht;
    [| discriminate].
  cbn -[lookup strip nl].
  destruct (stdin w) as [| line rest]; [discriminate |].
  cbn -[lookup strip nl].
  destruct (lookup "go_live_notification" defaults) as [notification |];
    [| discriminate].
  cbn -[lookup strip nl].
  destruct rest as [| line2 rest]; [discriminate |].
  cbn -[lookup strip nl truthy join].
  destruct (truthy _); cbn -[lookup strip nl join].
  - destruct (join _ _); cbn -[lookup strip nl]; intros H; inversion H; subst;
      exists pd, defaults, default_title, line; eexists;
      repeat split; try eassumption; reflexivity.
  - intros H; inversion H; subst.
    exists pd, defaults, default_title, line; eexists;
      repeat split; try eassumption; reflexivity.
Qed.

Lemma In_after_quiet p (e : event) t1 t2 :
  In e (t1 ++ t2) -> p e = true -> count p t1 = 0 -> In e t2.
Proof.
  intros Hin Hp H0. apply in_app_or in Hin. destruct Hin as [Hin | Hin];
    [| exact Hin].
  pose proof (count_In p e t1 Hin Hp). lia.
Qed.

Lemma before_prompts_quiet_enter G cfg key tokens :
  quiet is_enter (get_preset cfg key) /\ quiet is_enter (run_preset_tokens G) /\
  quiet is_enter (run_preset_auth G tokens).
Proof. repeat split; quiet_prog. Qed.

(** ** The authentication block *)

Ltac side :=
  first
    [ eassumption
    | reflexivity
    | let d := fresh "d" in
      let H := fresh "H" in
      intros d H; first [discriminate H | inversion H; subst; assumption]
    | unfold propagates;
      cbn -[http_error truthy lookup]; use_eqs; cbn -[http_error truthy lookup];
      first [reflexivity | exact I] ].

Lemma run_preset_auth_run G tokens w :
  exists written,
    auth_run G tokens (outcome_of (run_preset_auth G tokens w)) written
      (trace_of (run_preset_auth G tokens w)) /\
    token_file (world_of (run_preset_auth G tokens w)) =
    match written with Some v => Holds v | None => token_file w end.
Proof.
  unfold run_preset_auth, try_except, get_broadcaster_id, refresh_tokens,
    save_tokens, bind, getitem, getitem0, send, raise_for_status, json, raise,
    ret, outcome_of, world_of, trace_of.
  run_all.
  all: eexists; split.
  all: try apply AuthNoToken.
  all: try solve [eapply AuthFirstOk; side].
  all: try solve [eapply AuthFirstRaise; side].
  all: try solve [eapply AuthNoRefreshToken; side].
  all: try solve [eapply AuthRefreshFailed; side].
  all: try solve [eapply AuthBadTokens; side].
  all: try solve [eapply AuthRetryOk; side].
  all: try solve [eapply AuthRetryRaise; side].
  all: try reflexivity.
Qed.

Lemma before_auth_free_lookup : before_auth_free is_account_lookup.
Proof. repeat split; quiet_prog. Qed.

Lemma before_auth_free_refresh : before_auth_free is_refresh.
Proof. repeat split; quiet_prog. Qed.

Lemma after_auth_free_lookup : after_auth_free is_account_lookup.
Proof. intros G cfg preset auth. unfold run_preset_after_auth. quiet_prog. Qed.

Lemma after_auth_free_refresh : after_auth_free is_refresh.
Proof. intros G cfg preset auth. unfold run_preset_after_auth. quiet_prog. Qed.

(** Either the run ends before the authentication block, or it reaches it
    and then ends with it or goes on with the rest. *)
Lemma run_preset_to_auth G cfg key w :
  ((exists e, outcome_of (run_preset G cfg key w) = Raise e) /\
   forall p, before_auth_free p ->
             count p (trace_of (run_preset G cfg key w)) = 0) \/
  (exists preset tokens w1 w2 t0 t1,
     get_preset cfg key w = (Ret preset, w1, t0) /\
     run_preset_tokens G w1 = (Ret tokens, w2, t1) /\
     (forall p, before_auth_free p -> count p (t0 ++ t1) = 0) /\
     let ra := run_preset_auth G tokens w2 in
     let r' := fun auth => run_preset_after_auth G cfg preset auth (world_of ra) in
     run_preset G cfg key w =
     match outcome_of ra with
     | Ret auth =>
         (outcome_of (r' auth), world_of (r' auth),
          (t0 ++ t1) ++ trace_of ra ++ trace_of (r' auth))
     | Raise e => (Raise e, world_of ra, (t0 ++ t1) ++ trace_of ra)
     end).
Proof.
  unfold run_preset.
  match goal with |- context [outcome_of (bind ?m ?f w)] =>
    destruct (bind_inv m f w)
      as [(e & w1 & t0 & E0 & R0) | (preset & w1 & t0 & E0 & R0)];
      rewrite R0; clear R0
  end.
  { left. split; [exists e; reflexivity |]. intros p Hp. cbn.
    destruct (Hp G cfg key) as (Q0 & _).
    apply (quiet_eq _ _ _ _ _ _ Q0 E0). }
  match goal with |- context [outcome_of (bind ?m ?f w1)] =>
    destruct (bind_inv m f w1)
      as [(e & w2 & t1 & E1 & R1) | (tokens & w2 & t1 & E1 & R1)];
      rewrite R1; clear R1
  end.
  { left. split; [exists e; reflexivity |]. intros p Hp. cbn.
    destruct (Hp G cfg key) as (Q0 & Q1).
    rewrite count_app, (quiet_eq _ _ _ _ _ _ Q0 E0), (quiet_eq _ _ _ _ _ _ Q1 E1).
    reflexivity. }
  right. exists preset, tokens, w1, w2, t0, t1.
  split; [exact E0 |]. split; [exact E1 |]. split.
  { intros p Hp. destruct (Hp G cfg key) as (Q0 & Q1).
    rewrite count_app, (quiet_eq _ _ _ _ _ _ Q0 E0), (quiet_eq _ _ _ _ _ _ Q1 E1).
    reflexivity. }
  cbv zeta. unfold outcome_of at 1, world_of at 1, trace_of at 1. cbn [fst snd].
  match goal with |- context [outcome_of (bind ?m ?f w2)] =>
    destruct (bind_inv m f w2)
      as [(e & w3 & t2 & E2 & R2) | (auth & w3 & t2 & E2 & R2)];
      rewrite R2; clear R2; rewrite E2
  end; unfold outcome_of, world_of, trace_of; cbn [fst snd];
    rewrite <- !app_assoc; reflexivity.
Qed.

Lemma filter_quiet p t : count p t = 0 -> filter p t = [].
Proof. apply length_zero_iff_nil. Qed.

(** ** What leaves the token file alone *)

Lemma keeps_ret {A} (a : A) : keeps_file (ret a).
Proof. intros w. reflexivity. Qed.

Lemma keeps_raise {A} (e : exn) : keeps_file (@raise A e).
Proof. intros w. reflexivity. Qed.

Lemma keeps_bind {A B} (m : M A) (f : A -> M B) :
  keeps_file m -> (forall a, keeps_file (f a)) -> keeps_file (bind m f).
Proof.
  intros Hm Hf w. rewrite world_bind.
  destruct (outcome_of (m w)) as [a | e]; [rewrite Hf |]; apply Hm.
Qed.

Lemma keeps_print t : keeps_file (print t).
Proof. intros w. reflexivity. Qed.

Lemma keeps_input s : keeps_file (input s).
Proof. intros w. unfold input. destruct (stdin w); reflexivity. Qed.

Lemma keeps_send rq : keeps_file (send rq).
Proof.
  intros w. unfold send. destruct (network w) as [| [st b | |] rest]; reflexivity.
Qed.

Lemma keeps_getitem v k : keeps_file (getitem v k).
Proof.
  intros w. destruct v; try reflexivity. cbn. destruct (lookup k d); reflexivity.
Qed.

Lemma keeps_getitem0 v : keeps_file (getitem0 v).
Proof.
  intros w. destruct v as [| | | s | [| x l] | d]; try reflexivity. cbn.
  destruct (chars s); reflexivity.
Qed.

Lemma keeps_get v k d : keeps_file (get v k d).
Proof. intros w. destruct v; reflexivity. Qed.

Lemma keeps_raise_for_status r : keeps_file (raise_for_status r).
Proof.
  intros w. unfold raise_for_status. destruct (http_error (fst r)); reflexivity.
Qed.

Lemma keeps_json r : keeps_file (json r).
Proof. intros w. unfold json. destruct (snd r); reflexivity. Qed.

Lemma keeps_die {A} msg : keeps_file (@die A msg).
Proof.
  unfold die. apply keeps_bind; [apply keeps_print | intros _; apply keeps_raise].
Qed.

Lemma keeps_ReqClient h n pw : keeps_file (ReqClient h n pw).
Proof.
  intros w. unfold ReqClient.
  destruct (obs_endpoint w) as [[[h' n'] pw'] |]; destruct pw; try reflexivity.
  destruct ((h' =? h) && (n' =? n)%Z && (pw' =? s)); reflexivity.
Qed.

Lemma keeps_get_stream_status : keeps_file get_stream_status.
Proof. intros w. reflexivity. Qed.

Lemma keeps_start_stream : keeps_file start_stream.
Proof. intros w. reflexivity. Qed.

Ltac keeps_step :=
  match goal with
  | |- keeps_file (bind _ _) => apply keeps_bind; [| intros ?]
  | |- keeps_file (ret _) => apply keeps_ret
  | |- keeps_file (raise _) => apply keeps_raise
  | |- keeps_file (print _) => apply keeps_print
  | |- keeps_file (input _) => apply keeps_input
  | |- keeps_file (send _) => apply keeps_send
  | |- keeps_file (die _) => apply keeps_die
  | |- keeps_file (getitem _ _) => apply keeps_getitem
  | |- keeps_file (getitem0 _) => apply keeps_getitem0
  | |- keeps_file (get _ _ _) => apply keeps_get
  | |- keeps_file (raise_for_status _) => apply keeps_raise_for_status
  | |- keeps_file (json _) => apply keeps_json
  | |- keeps_file (ReqClient _ _ _) => apply keeps_ReqClient
  | |- keeps_file get_stream_status => apply keeps_get_stream_status
  | |- keeps_file start_stream => apply keeps_start_stream
  | |- keeps_file (let _ := _ in _) => cbv zeta
  | |- keeps_file (if ?b then _ else _) => destruct b
  | |- keeps_file (match ?x with _ => _ end) => destruct x
  end.

Lemma run_preset_after_auth_keeps G cfg preset auth :
  keeps_file (run_preset_after_auth G cfg preset auth).
Proof.
  unfold run_preset_after_auth, run_preset_prompts, run_preset_confirm,
    run_preset_update, run_preset_obs, prompt, get_game_id, update_channel,
    start_obs.
  repeat keeps_step.
Qed.

Lemma get_preset_world cfg key w preset w1 t0 :
  get_preset cfg key w = (Ret preset, w1, t0) -> w1 = w /\ t0 = [].
Proof.
  unfold get_preset, try_except, bind, getitem, die, print, raise, ret.
  destruct cfg as [| | | | | c]; try discriminate.
  destruct (lookup "presets" c) as [[| | | | | ps] |]; try discriminate.
  cbn. destruct (lookup key ps); [| discriminate].
  intros H. inversion H. split; reflexivity.
Qed.

(** The account lookups and the refreshes of a run are those of its
    authentication block; the run ends with the block when the block
    raises, and nothing after the block touches the token file. *)
Lemma run_preset_auth_actions G cfg key w :
  ((exists e, outcome_of (run_preset G cfg key w) = Raise e) /\
   filter is_account_lookup (trace_of (run_preset G cfg key w)) = [] /\
   filter is_refresh (trace_of (run_preset G cfg key w)) = []) \/
  (exists tokens w2 pre post,
     let ra := run_preset_auth G tokens w2 in
     run_preset_tokens G w = (Ret tokens, w2, pre) /\
     trace_of (run_preset G cfg key w) = pre ++ trace_of ra ++ post /\
     count is_account_lookup pre = 0 /\ count is_refresh pre = 0 /\
     count is_account_lookup post = 0 /\ count is_refresh post = 0 /\
     token_file (world_of (run_preset G cfg key w)) = token_file (world_of ra) /\
     (forall e, outcome_of ra = Raise e ->
                outcome_of (run_preset G cfg key w) = Raise e /\ post = [])).
Proof.
  destruct (run_preset_to_auth G cfg key w)
    as [(He & Hq) | (preset & tokens & w1 & w2 & t0 & t1 & E0 & E1 & Hq & R)].
  { left. split; [exact He |]. split; apply filter_quiet, Hq.
    - exact before_auth_free_lookup.
    - exact before_auth_free_refresh. }
  right. cbv zeta in R.
  destruct (get_preset_world _ _ _ _ _ _ E0) as [-> ->].
  cbn [app] in *.
  exists tokens, w2, t1.
  exists (match outcome_of (run_preset_auth G tokens w2) with
          | Ret auth =>
              trace_of (run_preset_after_auth G cfg preset auth
                          (world_of (run_preset_auth G tokens w2)))
          | Raise _ => []
          end).
  cbv zeta.
  split; [exact E1 |].
  split; [rewrite R; destruct (outcome_of (run_preset_auth G tokens w2));
          unfold trace_of at 1; cbn [snd]; rewrite ?app_nil_r; reflexivity |].
  split; [apply Hq, before_auth_free_lookup |].
  split; [apply Hq, before_auth_free_refresh |].
  split; [destruct (outcome_of (run_preset_auth G tokens w2));
          [apply after_auth_free_lookup | reflexivity] |].
  split; [destruct (outcome_of (run_preset_auth G tokens w2));
          [apply after_auth_free_refresh | reflexivity] |].
  split.
  - rewrite R. destruct (outcome_of (run_preset_auth G tokens w2));
      unfold world_of at 1; cbn [fst snd]; [| reflexivity].
    apply run_preset_after_auth_keeps.
  - intros e He. rewrite R, He. split; reflexivity.
Qed.

Lemma filter_filter_sub (p q : event -> bool) t :
  (forall e, p e = true -> q e = true) -> filter p (filter q t) = filter p t.
Proof.
  intros Hsub. induction t as [| e t IH]; [reflexivity |].
  cbn. destruct (q e) eqn:Hqe; cbn.
  - rewrite IH. reflexivity.
  - destruct (p e) eqn:Hpe; [rewrite (Hsub e Hpe) in Hqe; discriminate |].
    exact IH.
Qed.

Lemma is_account_lookup_auth e : is_account_lookup e = true -> is_auth e = true.
Proof. intros H. unfold is_auth. rewrite H. reflexivity. Qed.

Lemma is_refresh_auth e : is_refresh e = true -> is_auth e = true.
Proof. intros H. unfold is_auth. rewrite H. apply orb_true_r. Qed.

Lemma count_is_auth t :
  count is_account_lookup t = 0 -> count is_refresh t = 0 -> count is_auth t = 0.
Proof.
  unfold count, is_auth. induction t as [| e t IH]; [reflexivity |].
  cbn. destruct (is_account_lookup e); [discriminate |].
  destruct (is_refresh e); [discriminate |]. exact IH.
Qed.

Lemma auth_run_all_auth G tokens o written t :
  auth_run G tokens o written t -> filter is_auth t = t.
Proof. intros H. destruct H; reflexivity. Qed.

(** The authentication traffic of a run, the way the run ends when the
    block raises, and the token file at the end. *)
Lemma run_preset_auth_summary G cfg key w :
  ((exists e, outcome_of (run_preset G cfg key w) = Raise e) /\
   filter is_auth (trace_of (run_preset G cfg key w)) = []) \/
  (exists tokens w2 pre ta post o written,
     run_preset_tokens G w = (Ret tokens, w2, pre) /\
     auth_run G tokens o written ta /\
     trace_of (run_preset G cfg key w) = pre ++ ta ++ post /\
     filter is_auth (trace_of (run_preset G cfg key w)) = ta /\
     token_file (world_of (run_preset G cfg key w)) =
       match written with Some v => Holds v | None => token_file w2 end /\
     (forall e, o = Raise e ->
                outcome_of (run_preset G cfg key w) = Raise e /\ post = [])).
Proof.
  destruct (run_preset_auth_actions G cfg key w)
    as [(He & H1 & H2) | (tokens & w2 & pre & post & H)].
  { left. split; [exact He |].
    apply filter_quiet, count_is_auth; unfold count; [rewrite H1 | rewrite H2];
      reflexivity. }
  right. cbv zeta in H.
  destruct H as (E1 & Ht & P1 & P2 & Q1 & Q2 & Hf & Hraise).
  destruct (run_preset_auth_run G tokens w2) as (written & Hrun & Hfile).
  exists tokens, w2, pre, (trace_of (run_preset_auth G tokens w2)), post,
    (outcome_of (run_preset_auth G tokens w2)), written.
  repeat split; try assumption.
  - rewrite Ht, !filter_app.
    rewrite (filter_quiet _ _ (count_is_auth _ P1 P2)).
    rewrite (filter_quiet _ _ (count_is_auth _ Q1 Q2)).
    rewrite (auth_run_all_auth _ _ _ _ _ Hrun). cbn. apply app_nil_r.
  - rewrite Hf. exact Hfile.
  - apply Hraise. assumption.
  - apply Hraise with (e := e). assumption.
Qed.

Lemma first_answer_auth p t :
  (forall e, p e = true -> is_auth e = true) ->
  first_answer p t = first_answer p (filter is_auth t).
Proof.
  intros Hsub. unfold first_answer. rewrite filter_filter_sub by exact Hsub.
  reflexivity.
Qed.

Lemma failure_of_rejected r : failure_of r = None -> http_rejected r = false.
Proof.
  destruct r as [st b | |]; try discriminate. cbn.
  destruct (http_error st); [discriminate | reflexivity].
Qed.

(** At most one refresh and two account lookups in a run. *)
Lemma auth_bounds G cfg key w :
  count is_refresh (trace_of (run_preset G cfg key w)) <= 1 /\
  count is_account_lookup (trace_of (run_preset G cfg key w)) <= 2.
Proof.
  rewrite <- (count_filter_sub is_refresh is_auth _ is_refresh_auth).
  rewrite <- (count_filter_sub is_account_lookup is_auth _ is_account_lookup_auth).
  destruct (run_preset_auth_summary G cfg key w)
    as [(_ & E) | (tokens & w2 & pre & ta & post & o & written
                   & E1 & Hrun & Ht & E & Hfile & Hraise)];
    rewrite E; [cbv; lia |].
  destruct Hrun; cbv; lia.
Qed.

(** What follows the first account lookup of a run, by its answer [r]:
    nothing of the authentication when [r] is no HTTP error; a refresh and,
    when it returns a TokenSet, one retry with the new access token, when
    [r] is one. *)
Lemma auth_retry_facts G cfg key w r :
  first_answer is_account_lookup (trace_of (run_preset G cfg key w)) = Some r ->
  (http_rejected r = false ->
   count is_refresh (trace_of (run_preset G cfg key w)) = 0 /\
   count is_account_lookup (trace_of (run_preset G cfg key w)) = 1 /\
   forall e, failure_of r = Some e ->
             outcome_of (run_preset G cfg key w) = Raise e) /\
  (http_rejected r = true ->
   (outcome_of (run_preset G cfg key w) <> Raise (KeyError (VStr "refresh_token")) ->
    count is_refresh (trace_of (run_preset G cfg key w)) = 1) /\
   (forall r1 d' access',
      first_answer is_refresh (trace_of (run_preset G cfg key w)) = Some r1 ->
      refreshed r1 = Some (VDict d') ->
      lookup "access_token" d' = Some access' ->
      exists access refresh_token r2,
        filter is_auth (trace_of (run_preset G cfg key w)) =
          [Http (account_request G access) r;
           Http (refresh_request G refresh_token) r1;
           Http (account_request G access') r2] /\
        forall e, failure_of r2 = Some e ->
          outcome_of (run_preset G cfg key w) = Raise e /\
          exists pre, trace_of (run_preset G cfg key w) =
                      pre ++ [Http (account_request G access') r2])).
Proof.
  rewrite <- (count_filter_sub is_refresh is_auth _ is_refresh_auth).
  rewrite <- (count_filter_sub is_account_lookup is_auth _ is_account_lookup_auth).
  rewrite (first_answer_auth is_account_lookup _ is_account_lookup_auth).
  rewrite (first_answer_auth is_refresh _ is_refresh_auth).
  destruct (run_preset_auth_summary G cfg key w)
    as [(_ & E) | (tokens & w2 & pre & ta & post & o & written
                   & E1 & Hrun & Ht & E & Hfile & Hraise)];
    rewrite E; [discriminate |].
  destruct Hrun
    as [e0
       | d access r0 id Htok Hacc Hfail Hid
       | d access r0 e0 Htok Hacc Hrej Hprop
       | d access r0 Htok Hacc Hrej Hnone
       | d access refresh r0 r1 e0 Htok Hacc Hrej Href Hnew Hprop
       | d access refresh r0 r1 new e0 Htok Hacc Hrej Href Hnew Hbad
       | d access refresh r0 r1 d1 access1 r2 id Htok Hacc Hrej Href Hnew Hacc1
           Hfail Hid
       | d access refresh r0 r1 d1 access1 r2 e0 Htok Hacc Hrej Href Hnew Hacc1
           Hprop].
  all: intros Hfirst; unfold first_answer in Hfirst; cbn in Hfirst;
    try discriminate; injection Hfirst as ->.
  all: split; intros Hr0.
  all: try (pose proof (failure_of_rejected _ Hfail)).
  all: try congruence.
  - repeat split. intros e He. rewrite Hfail in He. discriminate.
  - repeat split. intros e He. unfold propagates in Hprop.
    rewrite He in Hprop. subst e0. apply (Hraise e eq_refl).
  - split; [intros Hne; exfalso; apply Hne, (Hraise _ eq_refl) |].
    intros r1 d' access' Hx. discriminate.
  - split; [reflexivity |].
    intros r1' d' access' Hr Hnew'. unfold first_answer in Hr. cbn in Hr.
    injection Hr as <-. congruence.
  - split; [reflexivity |].
    intros r1' d' access' Hr Hnew' Hacc'. unfold first_answer in Hr. cbn in Hr.
    injection Hr as <-. rewrite Hnew in Hnew'. injection Hnew' as ->.
    rewrite (Hbad d' eq_refl) in Hacc'. discriminate.
  - split; [reflexivity |].
    intros r1' d' access' Hr Hnew' Hacc'. unfold first_answer in Hr. cbn in Hr.
    injection Hr as <-. rewrite Hnew in Hnew'. injection Hnew' as <-.
    rewrite Hacc1 in Hacc'. injection Hacc' as <-.
    exists access, refresh, r2. split; [reflexivity |].
    intros e He. rewrite Hfail in He. discriminate.
  - split; [reflexivity |].
    intros r1' d' access' Hr Hnew' Hacc'. unfold first_answer in Hr. cbn in Hr.
    injection Hr as <-. rewrite Hnew in Hnew'. injection Hnew' as <-.
    rewrite Hacc1 in Hacc'. injection Hacc' as <-.
    exists access, refresh, r2. split; [reflexivity |].
    intros e He. unfold propagates in Hprop. rewrite He in Hprop. subst e0.
    destruct (Hraise e eq_refl) as [Ho ->]. split; [exact Ho |].
    exists (pre ++ [Http (account_request G access) r;
                    Http (refresh_request G refresh) r1]).
    rewrite Ht, app_nil_r, <- app_assoc. reflexivity.
Qed.

(** ** The channel update in a run *)

(** At most one channel update in a run; a channel update that fails is the
    last action of the run, which raises its failure. *)
Lemma patch_facts G cfg key w :
  count is_patch (trace_of (run_preset G cfg key w)) <= 1 /\
  forall rq r e,
    In (Http rq r) (trace_of (run_preset G cfg key w)) ->
    rq_method rq = PATCH ->
    failure_of r = Some e ->
    outcome_of (run_preset G cfg key w) = Raise e /\
    exists pre, trace_of (run_preset G cfg key w) = pre ++ [Http rq r].
Proof.
  destruct (run_preset_to_update G cfg key w)
    as [(_ & Hq) | (preset & tokens & auth & entered & w1 & w2 & w3 & w4 & w5
                    & t0 & t1 & t2 & t3 & t4 & pre
                    & E0 & E1 & E2 & E3 & E4 & Hpre & Hq & R)].
  { rewrite (Hq _ before_update_free_patch). split; [lia |].
    intros rq r e Hin Hm _.
    assert (Hp : is_patch (Http rq r) = true) by (cbn; rewrite Hm; reflexivity).
    pose proof (count_In _ _ _ Hin Hp) as Hc.
    rewrite (Hq _ before_update_free_patch) in Hc. lia. }
  cbv zeta in R.
  pose proof (run_preset_update_run G preset (fst auth) (snd auth)
                (fst entered) (snd entered) w5) as U.
  pose proof (after_update_free_patch G cfg
                (world_of (run_preset_update G preset (fst auth) (snd auth)
                             (fst entered) (snd entered) w5))) as Q2.
  pose proof (Hq _ before_update_free_patch) as Q0.
  inversion U as [e' He Ht | name r' e' Hr He Ht | name r' Hr He Ht
                 | name r' g r2 Hf Hg He Ht];
    rewrite <- He, <- Ht in R; clear He Ht U.
  1-3: rewrite R; unfold outcome_of, trace_of; cbn [fst snd];
       rewrite count_app, Q0;
       (split; [cbv; lia |]); intros rq r e Hin Hm _;
       assert (Hp : is_patch (Http rq r) = true) by (cbn; rewrite Hm; reflexivity);
       pose proof (count_In _ _ _ Hin Hp) as Hc;
       rewrite count_app, Q0 in Hc; cbv in Hc; lia.
  match type of Q2 with count _ ?t = 0 => set (tr2 := t) in * end.
  destruct (failure_of r2) as [e2 |] eqn:Hf2; rewrite R;
    unfold outcome_of, trace_of; cbn [fst snd app].
  - split; [rewrite count_app, Q0; cbv; lia |].
    intros rq r e Hin Hm He.
    assert (Hp : is_patch (Http rq r) = true) by (cbn; rewrite Hm; reflexivity).
    apply (In_after_quiet is_patch) in Hin; [| exact Hp | exact Q0].
    destruct Hin as [Hin | [Hin | []]].
    + injection Hin as <- _. discriminate.
    + injection Hin as <- <-. rewrite Hf2 in He. injection He as <-.
      split; [reflexivity |].
      exists (pre ++ [Http (search_request G (fst auth) name) r']).
      rewrite <- app_assoc. reflexivity.
  - split.
    + rewrite count_app, Q0.
      change (?a :: ?b :: ?c :: tr2) with ([a; b; c] ++ tr2).
      rewrite count_app, Q2. cbv. lia.
    + intros rq r e Hin Hm He.
      assert (Hp : is_patch (Http rq r) = true) by (cbn; rewrite Hm; reflexivity).
      apply (In_after_quiet is_patch) in Hin; [| exact Hp | exact Q0].
      destruct Hin as [Hin | [Hin | [Hin | Hin]]].
      * injection Hin as <- _. discriminate.
      * injection Hin as <- <-. rewrite Hf2 in He. discriminate.
      * discriminate.
      * pose proof (count_In _ _ _ Hin Hp) as Hc. rewrite Q2 in Hc. lia.
Qed.

(** ** The payload of the channel update *)

(** What a request to the channel-update endpoint carries, and where each
    part comes from. *)
Lemma patch_payload G cfg key w rq r :
  In (Http rq r) (trace_of (run_preset G cfg key w)) ->
  rq_method rq = PATCH ->
  exists c ps pd defaults default_title line before after search found game_id,
    cfg = VDict c /\ lookup "presets" c = Some (VDict ps) /\
    lookup key ps = Some (VDict pd) /\
    lookup "defaults" pd = Some (VDict defaults) /\
    lookup "title" defaults = Some default_title /\
    trace_of (run_preset G cfg key w) =
      before ++ Input enter_prompt (Some line) :: after /\
    count is_enter before = 0 /\
    In (Http search found) (trace_of (run_preset G cfg key w)) /\
    is_category_search (Http search found) = true /\
    first_id found = Some game_id /\
    let title :=
      if negb (strip line =? "") then VStr (strip line) else default_title in
    let tags := match lookup "tags" pd with Some x => x | None => VList [] end in
    rq_json rq =
      Some (VDict ([("title", title); ("game_id", game_id)]
                   ++ if truthy tags then [("tags", tags)] else [])).
Proof.
  intros Hin Hm.
  assert (Hp : is_patch (Http rq r) = true) by (cbn; rewrite Hm; reflexivity).
  destruct (run_preset_to_update G cfg key w)
    as [(_ & Hq) | (preset & tokens & auth & entered & w1 & w2 & w3 & w4 & w5
                    & t0 & t1 & t2 & t3 & t4 & pre
                    & E0 & E1 & E2 & E3 & E4 & Hpre & Hq & R)].
  { pose proof (count_In _ _ _ Hin Hp) as Hc.
    rewrite (Hq _ before_update_free_patch) in Hc. lia. }
  cbv zeta in R.
  pose proof (run_preset_update_run G preset (fst auth) (snd auth)
                (fst entered) (snd entered) w5) as U.
  pose proof (after_update_free_patch G cfg
                (world_of (run_preset_update G preset (fst auth) (snd auth)
                             (fst entered) (snd entered) w5))) as Q2.
  pose proof (Hq _ before_update_free_patch) as Q0.
  inversion U as [e He Ht | name r' e Hr He Ht | name r' Hr He Ht
                 | name r' g r2 Hf Hg He Ht];
    rewrite <- He, <- Ht in R; clear He Ht U.
  1-3: exfalso; pose proof (count_In _ _ _ Hin Hp) as Hc; rewrite R in Hc;
       unfold trace_of in Hc; cbn [snd] in Hc; rewrite count_app, Q0 in Hc;
       cbv in Hc; lia.
  destruct (get_preset_ret _ _ _ _ _ _ E0) as (c & ps & -> & Hps & Hk).
  destruct (run_preset_prompts_ret _ _ _ _ _ E3)
    as (pd & defaults & default_title & line & post & -> & Hd & Hdt & Ht3
        & Htitle & Htags).
  destruct (before_prompts_quiet_enter G (VDict c) key tokens) as (B0 & B1 & B2).
  pose proof (quiet_eq _ _ _ _ _ _ B0 E0) as C0.
  pose proof (quiet_eq _ _ _ _ _ _ B1 E1) as C1.
  pose proof (quiet_eq _ _ _ _ _ _ B2 E2) as C2.
  set (tail := match failure_of r2 with
               | Some _ => []
               | None =>
                   metadata_updated ::
                   trace_of
                     ((run_preset_obs G (VDict c) ;;
                       print [Lit "✓ Go live complete"])
                        (world_of
                           (run_preset_update G (VDict pd) (fst auth)
                              (snd auth) (fst entered) (snd entered) w5)))
               end).
  assert (Htrace : trace_of (run_preset G (VDict c) key w) =
            pre ++ Http (search_request G (fst auth) name) r' ::
                   Http (patch_request G (fst auth) (snd auth)
                           (payload_of (fst entered) g (snd entered))) r2 ::
                   tail).
  { rewrite R. unfold tail. destruct (failure_of r2); reflexivity. }
  assert (Htail : count is_patch tail = 0).
  { unfold tail. destruct (failure_of r2); [reflexivity |].
    change (metadata_updated :: ?t) with ([metadata_updated] ++ t).
    rewrite count_app, Q2. reflexivity. }
  exists c, ps, pd, defaults, default_title, line,
    (t0 ++ t1 ++ t2 ++ [Print [Lit nl; Lit "Default title"; Lit ":"];
                        Print [Lit "  "; Fmt default_title]]).
  eexists. exists (search_request G (fst auth) name), r', g.
  repeat split; try assumption.
  - rewrite Htrace, Hpre, Ht3. rewrite <- !app_assoc. cbn [app]. reflexivity.
  - rewrite !count_app, C0, C1, C2. reflexivity.
  - rewrite Htrace. apply in_or_app. right. left. reflexivity.
  - cbv zeta. rewrite <- Htitle, <- Htags.
    rewrite Htrace in Hin.
    apply (In_after_quiet is_patch) in Hin; [| exact Hp | exact Q0].
    destruct Hin as [Hin | [Hin | Hin]].
    + injection Hin as <- _. discriminate.
    + injection Hin as <- _. reflexivity.
    + pose proof (count_In _ _ _ Hin Hp). lia.
Qed.

(** The answer to the notification prompt changes neither what the prompts
    block returns nor, when it returns, the world it leaves. *)
Lemma notification_discarded preset w l1 l2 l2' rest :
  stdin w = l1 :: l2 :: rest ->
  outcome_of (run_preset_prompts preset w) =
    outcome_of (run_preset_prompts preset (set_stdin (l1 :: l2' :: rest) w)) /\
  (forall entered,
     outcome_of (run_preset_prompts preset w) = Ret entered ->
     world_of (run_preset_prompts preset w) =
       world_of (run_preset_prompts preset (set_stdin (l1 :: l2' :: rest) w))).
Proof.
  intros Hin.
  unfold run_preset_prompts, prompt, bind, getitem, get, input, print, raise,
    ret, outcome_of, world_of.
  destruct preset as [| | | | | pd];
    try (split; [reflexivity | discriminate]).
  destruct (lookup "defaults" pd) as [[| | | | | defaults] |];
    try (split; [reflexivity | discriminate]).
  cbn -[lookup strip nl truthy join].
  destruct (lookup "title" defaults) as [default_title |];
    [| split; [reflexivity | discriminate]].
  cbn -[lookup strip nl truthy join]. rewrite Hin.
  cbn -[lookup strip nl truthy join].
  destruct (lookup "go_live_notification" defaults) as [notification |];
    [| split; [reflexivity | discriminate]].
  cbn -[lookup strip nl truthy join].
  destruct (truthy _); cbn -[lookup strip nl join];
    [| split; [reflexivity | intros; reflexivity]].
  destruct (join _ _); split; first [reflexivity | intros; reflexivity].
Qed.

(** What follows a declined confirmation. *)
Lemma decline_facts G cfg key w :
  1 <= count is_decline (trace_of (run_preset G cfg key w)) ->
  outcome_of (run_preset G cfg key w) = Raise (SystemExit 1) /\
  (exists pre, trace_of (run_preset G cfg key w) = pre ++ [aborted]) /\
  count is_patch (trace_of (run_preset G cfg key w)) = 0 /\
  count is_obs (trace_of (run_preset G cfg key w)) = 0.
Proof.
  intros Hin.
  destruct (run_preset_to_confirm G cfg key w)
    as [(_ & Hq) | (preset & tokens & auth & entered & w1 & w2 & w3 & w4
                    & t0 & t1 & t2 & t3 & E0 & E1 & E2 & E3 & R & Hq)].
  { rewrite (Hq _ before_confirm_free_decline) in Hin. lia. }
  cbv zeta in R. rewrite R in *. clear R.
  unfold trace_of at 1 in Hin. cbn [snd] in Hin.
  rewrite count_app, (Hq _ before_confirm_free_decline) in Hin.
  unfold run_preset_from_confirm in *.
  rewrite count_bind in Hin.
  assert (Hrest : forall o : outcome unit,
    match o with
    | Ret _ =>
        count is_decline
          (trace_of
             ((run_preset_update G preset (fst auth) (snd auth) (fst entered)
                 (snd entered) ;;
               run_preset_obs G cfg ;;
               print [Lit "✓ Go live complete"])
                (world_of (run_preset_confirm cfg w4))))
    | Raise _ => 0
    end = 0).
  { intros [u | e]; [apply after_confirm_quiet_decline | reflexivity]. }
  rewrite Hrest in Hin. clear Hrest.
  destruct (run_preset_confirm_cases cfg w4)
    as [E | [(_ & E) | (a' & rest & _ & E)]].
  - rewrite E in Hin. cbv in Hin. lia.
  - rewrite E in Hin. cbv in Hin. lia.
  - destruct (lower a' =? "n") eqn:Hl.
    + rewrite (bind_Raise _ _ _ _ _ _ E).
      unfold outcome_of, trace_of. cbn [fst snd].
      split; [reflexivity |].
      split; [exists ((t0 ++ t1 ++ t2 ++ t3) ++ [Input confirm_prompt (Some a')]);
              rewrite <- !app_assoc; reflexivity |].
      rewrite !(count_app _ (t0 ++ t1 ++ t2 ++ t3)).
      rewrite (Hq _ before_confirm_free_patch), (Hq _ before_confirm_free_obs).
      split; reflexivity.
    + rewrite E in Hin. unfold trace_of, count in Hin. cbn in Hin.
      rewrite Hl in Hin. cbn in Hin. lia.
Qed.

Lemma before_confirm_free_aborted : before_confirm_free is_aborted.
Proof. repeat split; quiet_prog. Qed.

Lemma after_confirm_quiet_aborted G cfg preset a b c d :
  quiet is_aborted
    (run_preset_update G preset a b c d ;;
     run_preset_obs G cfg ;;
     print [Lit "✓ Go live complete"]).
Proof. quiet_prog. Qed.

(** [ERROR: Aborted] is printed by the confirmation only, on an answer that
    lowercases to [n]. *)
Lemma aborted_by_decline G cfg key w :
  In aborted (trace_of (run_preset G cfg key w)) ->
  exists a,
    In (Input confirm_prompt (Some a)) (trace_of (run_preset G cfg key w)) /\
    lower a = "n".
Proof.
  intros Hin.
  apply count_In with (p := is_aborted) in Hin; [| reflexivity].
  destruct (run_preset_to_confirm G cfg key w)
    as [(_ & Hq) | (preset & tokens & auth & entered & w1 & w2 & w3 & w4
                    & t0 & t1 & t2 & t3 & E0 & E1 & E2 & E3 & R & Hq)].
  { rewrite (Hq _ before_confirm_free_aborted) in Hin. lia. }
  cbv zeta in R. rewrite R in *. clear R.
  unfold trace_of at 1 in Hin. cbn [snd] in Hin.
  rewrite count_app, (Hq _ before_confirm_free_aborted) in Hin.
  unfold run_preset_from_confirm in *.
  rewrite count_bind in Hin.
  assert (Hrest : forall o : outcome unit,
    match o with
    | Ret _ =>
        count is_aborted
          (trace_of
             ((run_preset_update G preset (fst auth) (snd auth) (fst entered)
                 (snd entered) ;;
               run_preset_obs G cfg ;;
               print [Lit "✓ Go live complete"])
                (world_of (run_preset_confirm cfg w4))))
    | Raise _ => 0
    end = 0).
  { intros [u | e]; [apply after_confirm_quiet_aborted | reflexivity]. }
  rewrite Hrest in Hin. clear Hrest.
  destruct (run_preset_confirm_cases cfg w4)
    as [E | [(_ & E) | (a' & rest & _ & E)]].
  - rewrite E in Hin. cbv in Hin. lia.
  - rewrite E in Hin. cbv in Hin. lia.
  - destruct (lower a' =? "n") eqn:Hl.
    + exists a'. split; [| apply String.eqb_eq, Hl].
      rewrite (bind_Raise _ _ _ _ _ _ E). unfold trace_of. cbn [snd].
      apply in_or_app. right. left. reflexivity.
    + rewrite E in Hin. cbv in Hin. lia.
Qed.

(** ** The first account lookup without a usable answer *)

(** When the first account lookup gets no HTTP error status and nothing
    that holds an account id, the run raises and ends at that lookup. *)
Lemma unusable_answer_ends_run G cfg key w r :
  first_answer is_account_lookup (trace_of (run_preset G cfg key w)) = Some r ->
  http_rejected r = false ->
  first_id r = None ->
  exists e access pre,
    outcome_of (run_preset G cfg key w) = Raise e /\
    trace_of (run_preset G cfg key w) =
      pre ++ [Http (account_request G access) r].
Proof.
  rewrite (first_answer_auth is_account_lookup _ is_account_lookup_auth).
  destruct (run_preset_auth_summary G cfg key w)
    as [(_ & E) | (tokens & w2 & pre & ta & post & o & written
                   & E1 & Hrun & Ht & E & Hfile & Hraise)];
    rewrite E; [discriminate |].
  destruct Hrun; intros Hfirst; unfold first_answer in Hfirst; cbn in Hfirst;
    try discriminate; injection Hfirst as ->; intros Hrej Hid; try congruence.
  destruct (Hraise e eq_refl) as [Ho ->].
  exists e, access, pre. split; [exact Ho |].
  rewrite Ht, app_nil_r. reflexivity.
Qed.

(** * The properties of the specification *)

(** C1.  In every run of [run_preset] there is at most one token refresh and
    there are at most two account lookups.  When the first account lookup
    is answered 401, one refresh is made (unless the stored TokenSet has no
    [refresh_token], which is a KeyError); when that refresh returns a
    TokenSet, the account lookup is retried once with its access token, and
    a failure of the retry is the failure of the run, which ends there. *)
Theorem refresh_and_retry_once G cfg key w :
  count is_refresh (trace_of (run_preset G cfg key w)) <= 1 /\
  count is_account_lookup (trace_of (run_preset G cfg key w)) <= 2 /\
  forall body,
    first_answer is_account_lookup (trace_of (run_preset G cfg key w)) =
      Some (Response 401 body) ->
    (outcome_of (run_preset G cfg key w) <> Raise (KeyError (VStr "refresh_token")) ->
     count is_refresh (trace_of (run_preset G cfg key w)) = 1) /\
    (forall r1 d' access',
       first_answer is_refresh (trace_of (run_preset G cfg key w)) = Some r1 ->
       refreshed r1 = Some (VDict d') ->
       lookup "access_token" d' = Some access' ->
       exists access refresh_token r2,
         filter is_auth (trace_of (run_preset G cfg key w)) =
           [Http (account_request G access) (Response 401 body);
            Http (refresh_request G refresh_token) r1;
            Http (account_request G access') r2] /\
         forall e, failure_of r2 = Some e ->
           outcome_of (run_preset G cfg key w) = Raise e /\
           exists pre, trace_of (run_preset G cfg key w) =
                       pre ++ [Http (account_request G access') r2]).
Proof.
  destruct (auth_bounds G cfg key w) as [B1 B2].
  split; [exact B1 |]. split; [exact B2 |].
  intros body Hfirst.
  destruct (auth_retry_facts G cfg key w _ Hfirst) as [_ H].
  apply H. reflexivity.
Qed.

(** C2, as the code has it.  What triggers the refresh and the retry is an
    HTTP error status of the first account lookup, 401 or any other 4xx or
    5xx: then one refresh is made (unless the stored TokenSet has no
    [refresh_token], which is a KeyError) and, when that refresh returns a
    TokenSet with an access token, the account lookup is sent once more
    with it, these three requests being all the authentication traffic of
    the run.  When the first account lookup gets anything else, the run
    makes no refresh and no second lookup; and when what it gets is no
    usable answer (no response, a timeout, a body that is no JSON or has
    no [data[0].id]), the run fails and ends at that lookup, a lookup
    that got no response failing it with its exception. *)
Theorem refresh_on_http_error_only G cfg key w r :
  first_answer is_account_lookup (trace_of (run_preset G cfg key w)) = Some r ->
  (http_rejected r = true ->
   (outcome_of (run_preset G cfg key w) <> Raise (KeyError (VStr "refresh_token")) ->
    count is_refresh (trace_of (run_preset G cfg key w)) = 1) /\
   (forall r1 d' access',
      first_answer is_refresh (trace_of (run_preset G cfg key w)) = Some r1 ->
      refreshed r1 = Some (VDict d') ->
      lookup "access_token" d' = Some access' ->
      exists access refresh_token r2,
        filter is_auth (trace_of (run_preset G cfg key w)) =
          [Http (account_request G access) r;
           Http (refresh_request G refresh_token) r1;
           Http (account_request G access') r2] /\
        count is_account_lookup (trace_of (run_preset G cfg key w)) = 2)) /\
  (http_rejected r = false ->
   count is_refresh (trace_of (run_preset G cfg key w)) = 0 /\
   count is_account_lookup (trace_of (run_preset G cfg key w)) = 1 /\
   (forall e, failure_of r = Some e ->
              outcome_of (run_preset G cfg key w) = Raise e) /\
   (first_id r = None ->
    exists e access pre,
      outcome_of (run_preset G cfg key w) = Raise e /\
      trace_of (run_preset G cfg key w) =
        pre ++ [Http (account_request G access) r])).
Proof.
  intros Hfirst.
  destruct (auth_retry_facts G cfg key w r Hfirst) as [H1 H2].
  split.
  - intros Hr. destruct (H2 Hr) as [Hone Hretry]. split; [exact Hone |].
    intros r1 d' access' Hr1 Hnew Hacc.
    destruct (Hretry r1 d' access' Hr1 Hnew Hacc)
      as (access & refresh_token & r2 & Ht & _).
    exists access, refresh_token, r2. split; [exact Ht |].
    rewrite <- (count_filter_sub is_account_lookup is_auth _
                  is_account_lookup_auth).
    rewrite Ht. reflexivity.
  - intros Hr. destruct (H1 Hr) as (Hc1 & Hc2 & Hfail).
    split; [exact Hc1 |]. split; [exact Hc2 |]. split; [exact Hfail |].
    intros Hid. apply (unusable_answer_ends_run G cfg key w r Hfirst Hr Hid).
Qed.

(** C3, as the code has it.  Only the account lookup is under the refresh
    and retry: when its first answer is an HTTP error and the refresh
    returns a TokenSet, it is sent again with the new access token.  The
    channel update is sent at most once in a run, and when it fails, with
    401 or otherwise, its failure ends the run: nothing is refreshed or
    sent again after it. *)
Theorem retry_wraps_account_lookup_only G cfg key w :
  (forall r r1 d' access',
     first_answer is_account_lookup (trace_of (run_preset G cfg key w)) = Some r ->
     http_rejected r = true ->
     first_answer is_refresh (trace_of (run_preset G cfg key w)) = Some r1 ->
     refreshed r1 = Some (VDict d') ->
     lookup "access_token" d' = Some access' ->
     exists access refresh_token r2,
       filter is_auth (trace_of (run_preset G cfg key w)) =
         [Http (account_request G access) r;
          Http (refresh_request G refresh_token) r1;
          Http (account_request G access') r2]) /\
  count is_patch (trace_of (run_preset G cfg key w)) <= 1 /\
  (forall rq r e,
     In (Http rq r) (trace_of (run_preset G cfg key w)) ->
     rq_method rq = PATCH ->
     failure_of r = Some e ->
     outcome_of (run_preset G cfg key w) = Raise e /\
     exists pre, trace_of (run_preset G cfg key w) = pre ++ [Http rq r]).
Proof.
  split; [| apply patch_facts].
  intros r r1 d' access' Hfirst Hr Hr1 Hnew Hacc.
  destruct (auth_retry_facts G cfg key w r Hfirst) as [_ H].
  destruct (H Hr) as [_ H2].
  destruct (H2 r1 d' access' Hr1 Hnew Hacc) as (access & rt & r2 & E & _).
  exists access, rt, r2. exact E.
Qed.

(** C4.  In every run of [run_preset] that makes a refresh: when the
    exchange returns a TokenSet, the token file holds exactly that TokenSet
    at the end of the run; when it does not, the run fails and the token
    file is what it was when the tokens were obtained, before the
    refresh. *)
Theorem token_file_after_refresh G cfg key w r1 :
  first_answer is_refresh (trace_of (run_preset G cfg key w)) = Some r1 ->
  (forall new, refreshed r1 = Some new ->
               token_file (world_of (run_preset G cfg key w)) = Holds new) /\
  (refreshed r1 = None ->
   token_file (world_of (run_preset G cfg key w)) =
     token_file (world_of (run_preset_tokens G w)) /\
   exists e, outcome_of (run_preset G cfg key w) = Raise e).
Proof.
  rewrite (first_answer_auth is_refresh _ is_refresh_auth).
  destruct (run_preset_auth_summary G cfg key w)
    as [(_ & E) | (tokens & w2 & pre & ta & post & o & written
                   & E1 & Hrun & Ht & E & Hfile & Hraise)];
    rewrite E; [discriminate |].
  rewrite Hfile, E1. unfold world_of at 1. cbn [fst snd].
  destruct Hrun
    as [e0
       | d access r0 id Htok Hacc Hfail Hid
       | d access r0 e0 Htok Hacc Hrej Hprop
       | d access r0 Htok Hacc Hrej Hnone
       | d access refresh r0 r1' e0 Htok Hacc Hrej Href Hnew Hprop
       | d access refresh r0 r1' new e0 Htok Hacc Hrej Href Hnew Hbad
       | d access refresh r0 r1' d1 access1 r2 id Htok Hacc Hrej Href Hnew Hacc1
           Hfail Hid
       | d access refresh r0 r1' d1 access1 r2 e0 Htok Hacc Hrej Href Hnew Hacc1
           Hprop].
  all: intros Hfirst; unfold first_answer in Hfirst; cbn in Hfirst;
    try discriminate; injection Hfirst as ->.
  all: split; [intros new' Hnew' | intros Hnone]; try congruence.
  split; [reflexivity |]. exists e0. apply (Hraise e0 eq_refl).
Qed.

(** C5.  In every run of [run_preset], a status query of the broadcast
    controller that answers active is followed by no [start_stream] call,
    and one that answers not active by exactly one. *)
Theorem start_gated_on_status G cfg key w b :
  In (ObsGetStreamStatus b) (trace_of (run_preset G cfg key w)) ->
  count is_start (trace_of (run_preset G cfg key w)) = if b then 0 else 1.
Proof.
  intros Hin.
  apply count_In with (p := is_status b) in Hin; [| destruct b; reflexivity].
  assert (Sstart : forall e, is_start e = true -> is_obs e = true)
    by (intros [] ?; try discriminate; reflexivity).
  assert (Sstatus : forall c e, is_status c e = true -> is_obs e = true)
    by (intros c [] ?; try discriminate; reflexivity).
  rewrite <- (count_filter_sub _ is_obs _ Sstart).
  rewrite <- (count_filter_sub _ is_obs _ (Sstatus b)) in Hin.
  destruct (run_preset_obs_actions G cfg key w) as [E | [w' E]];
    rewrite E in *; [cbv in Hin; lia |].
  rewrite (count_filter_sub _ is_obs _ Sstart).
  rewrite (count_filter_sub _ is_obs _ (Sstatus b)) in Hin.
  destruct (start_obs_counts G w') as [H1 H2].
  destruct b; lia.
Qed.

(** C6.  In every run of [run_preset], a category search that is answered
    without an error status and with an empty [data] list makes the run end
    in [SystemExit(1)] on the message [Game not found on Twitch], with no
    channel update sent.  And when the search is answered with a list whose
    first element has an [id], [get_game_id] returns that [id], whatever the
    later elements are. *)
Theorem category_resolution G :
  (forall cfg key w rq st b,
     In (Http rq (Response st (Some (VDict b))))
        (trace_of (run_preset G cfg key w)) ->
     is_category_search (Http rq (Response st (Some (VDict b)))) = true ->
     http_error st = false ->
     lookup "data" b = Some (VList []) ->
     outcome_of (run_preset G cfg key w) = Raise (SystemExit 1) /\
     (exists pre name,
        trace_of (run_preset G cfg key w) = pre ++ [game_not_found name]) /\
     count is_patch (trace_of (run_preset G cfg key w)) = 0) /\
  (forall token name w st b x later i rest,
     network w = Response st (Some (VDict b)) :: rest ->
     http_error st = false ->
     lookup "data" b = Some (VList (VDict x :: later)) ->
     lookup "id" x = Some i ->
     outcome_of (get_game_id G token name w) = Ret i).
Proof.
  split.
  - intros cfg key w rq st b Hin Hs Hst Hdata.
    apply count_In with (p := is_search_without_match) in Hin;
      [| unfold is_search_without_match; rewrite Hs; cbn; rewrite Hst, Hdata;
         reflexivity].
    destruct (run_preset_to_update G cfg key w)
      as [(_ & Hq) | (preset & tokens & auth & entered & w1 & w2 & w3 & w4 & w5
                      & t0 & t1 & t2 & t3 & t4 & pre
                      & _ & _ & _ & _ & _ & _ & Hq & R)].
    { rewrite (Hq _ before_update_free_without_match) in Hin. lia. }
    cbv zeta in R.
    pose proof (run_preset_update_run G preset (fst auth) (snd auth)
                  (fst entered) (snd entered) w5) as U.
    pose proof (after_update_free_without_match G cfg
                  (world_of (run_preset_update G preset (fst auth) (snd auth)
                               (fst entered) (snd entered) w5))) as Q2.
    pose proof (Hq _ before_update_free_without_match) as Q0.
    inversion U as [e He Ht | name r e Hr He Ht | name r Hr He Ht
                   | name r g r2 Hf Hg He Ht];
      rewrite <- He, <- Ht in R.
    + rewrite R in Hin. unfold trace_of in Hin. cbn [snd] in Hin.
      rewrite count_app, Q0 in Hin. cbv in Hin. lia.
    + rewrite R in Hin. unfold trace_of in Hin. cbn [snd] in Hin.
      rewrite count_app, Q0 in Hin.
      unfold count, is_search_without_match in Hin. cbn in Hin.
      rewrite Hr in Hin. cbn in Hin. lia.
    + rewrite R. unfold outcome_of, trace_of. cbn [fst snd].
      split; [reflexivity |]. split.
      * exists (pre ++ [Http (search_request G (fst auth) name) r]), name.
        rewrite <- app_assoc. reflexivity.
      * rewrite count_app, (Hq _ before_update_free_patch). reflexivity.
    + exfalso.
      assert (Hc : count is_search_without_match
                     (trace_of (run_preset G cfg key w)) = 0).
      { rewrite R.
        destruct (failure_of r2); unfold trace_of at 1; cbn [snd];
          rewrite ?count_app, Q0, ?Q2;
          unfold count, is_search_without_match; cbn;
          rewrite (first_id_match _ _ Hg); reflexivity. }
      lia.
  - intros token name w st b x later i rest Hn Hst Hdata Hid.
    unfold get_game_id, bind, send, raise_for_status, json, getitem, getitem0,
      die, print, raise, ret, outcome_of.
    rewrite Hn. cbn -[http_error lookup]. rewrite Hst.
    cbn -[lookup]. rewrite Hdata. cbn -[lookup]. rewrite Hid. reflexivity.
Qed.

(** C7.  Whenever the user answers the confirmation prompt with a line that
    lowercases to [n], the run ends in [SystemExit(1)] right after printing
    [ERROR: Aborted], and it has sent no channel update and made no call to
    the broadcast controller. *)
Theorem decline_aborts G cfg key w a :
  In (Input confirm_prompt (Some a)) (trace_of (run_preset G cfg key w)) ->
  lower a = "n" ->
  outcome_of (run_preset G cfg key w) = Raise (SystemExit 1) /\
  (exists pre, trace_of (run_preset G cfg key w) = pre ++ [aborted]) /\
  count is_patch (trace_of (run_preset G cfg key w)) = 0 /\
  count is_obs (trace_of (run_preset G cfg key w)) = 0.
Proof.
  intros Hin Ha.
  assert (Hd : is_decline (Input confirm_prompt (Some a)) = true)
    by (cbn; rewrite Ha; reflexivity).
  pose proof (count_In is_decline _ _ Hin Hd) as Hc.
  destruct (decline_facts G cfg key w Hc) as (Ho & Hlast & Hpatch & Hobs).
  repeat split; assumption.
Qed.

(** C8, as the code has it.  The three Twitch credentials are checked when
    the module is loaded: when one is absent the process exits with a
    message naming it, before any other action.  The controller settings
    are read at the same time and not checked for presence: the host
    defaults to [localhost], the port to 4455, and the password is taken as
    it is, absent or empty included.  A port that is set goes through
    [int]: what [int] rejects ends the load with a ValueError and no
    message.  An absent or empty password makes [start_obs] and [stop_obs]
    exit with a message when they are reached, before any call to the
    controller. *)
Theorem credentials_checked_at_startup environ cfg key w :
  (lookup "TWITCH_CLIENT_ID" environ = None \/
   lookup "TWITCH_CLIENT_SECRET" environ = None \/
   lookup "TWITCH_REDIRECT_URI" environ = None ->
   exists k,
     lookup k environ = None /\
     In k ["TWITCH_CLIENT_ID"; "TWITCH_CLIENT_SECRET"; "TWITCH_REDIRECT_URI"] /\
     go_live environ cfg key w =
     (Raise (SystemExit 1), w,
      [Print [Lit "ERROR: "; Lit "Missing required environment variable: ";
              Repr (VStr k)]])) /\
  (forall id secret uri,
     lookup "TWITCH_CLIENT_ID" environ = Some id ->
     lookup "TWITCH_CLIENT_SECRET" environ = Some secret ->
     lookup "TWITCH_REDIRECT_URI" environ = Some uri ->
     let host :=
       match lookup "OBS_WS_HOST" environ with
       | Some h => h
       | None => "localhost"
       end in
     let password :=
       match lookup "OBS_WS_PASSWORD" environ with
       | Some p => VStr p
       | None => VNone
       end in
     load_environment environ w =
     (match lookup "OBS_WS_PORT" environ with
      | None => Ret (mkGlobals id secret uri host 4455 password)
      | Some p =>
          match py_int p with
          | Some n => Ret (mkGlobals id secret uri host n password)
          | None => Raise ValueError
          end
      end, w, [])) /\
  (forall G, truthy (OBS_PASSWORD G) = false ->
     start_obs G w =
     (Raise (SystemExit 1), w,
      [Print [Lit "ERROR: "; Lit "OBS_WS_PASSWORD not set"]]) /\
     stop_obs G w =
     (Raise (SystemExit 1), w,
      [Print [Lit "ERROR: "; Lit "OBS_WS_PASSWORD not set"]])).
Proof.
  split; [| split].
  - intros H. unfold go_live, load_environment, try_except, bind,
      environ_getitem, die, print, raise, ret.
    destruct (lookup "TWITCH_CLIENT_ID" environ) as [id |] eqn:H1.
    + destruct (lookup "TWITCH_CLIENT_SECRET" environ) as [secret |] eqn:H2.
      * destruct (lookup "TWITCH_REDIRECT_URI" environ) as [uri |] eqn:H3.
        -- destruct H as [H | [H | H]]; discriminate.
        -- exists "TWITCH_REDIRECT_URI".
           split; [exact H3 |]. split; [cbn; tauto | reflexivity].
      * exists "TWITCH_CLIENT_SECRET".
        split; [exact H2 |]. split; [cbn; tauto | reflexivity].
    + exists "TWITCH_CLIENT_ID".
      split; [exact H1 |]. split; [cbn; tauto | reflexivity].
  - intros id secret uri H1 H2 H3 host password.
    unfold load_environment, try_except, bind, environ_getitem, raise, ret.
    rewrite H1, H2, H3.
    destruct (lookup "OBS_WS_PORT" environ) as [p |]; [| reflexivity].
    destruct (py_int p); reflexivity.
  - intros G HG. split.
    + unfold start_obs, bind, die, print, raise, ret. rewrite HG. reflexivity.
    + unfold stop_obs, bind, die, print, raise, ret. rewrite HG. reflexivity.
Qed.

(** C9.  In every run of [run_preset], a request sent to the channel-update
    endpoint carries as its JSON body the dict of exactly [title], [game_id]
    and, when the tags of the preset are truthy (a non-empty sequence),
    [tags]: the title is the stripped answer to the first [Enter value]
    prompt or, when that is empty, the default title of the preset; the game
    id is the first id of the category search; the tags are those of the
    preset, [[]] when it has none.  The answer to the notification prompt is
    no part of it: whatever is typed there, the prompts block returns the
    same title and tags and, when it returns, leaves the same world. *)
Theorem payload_contents G cfg key w :
  (forall rq r,
     In (Http rq r) (trace_of (run_preset G cfg key w)) ->
     rq_method rq = PATCH ->
     exists c ps pd defaults default_title line before after search found game_id,
       cfg = VDict c /\ lookup "presets" c = Some (VDict ps) /\
       lookup key ps = Some (VDict pd) /\
       lookup "defaults" pd = Some (VDict defaults) /\
       lookup "title" defaults = Some default_title /\
       trace_of (run_preset G cfg key w) =
         before ++ Input enter_prompt (Some line) :: after /\
       count is_enter before = 0 /\
       In (Http search found) (trace_of (run_preset G cfg key w)) /\
       is_category_search (Http search found) = true /\
       first_id found = Some game_id /\
       let title :=
         if negb (strip line =? "") then VStr (strip line) else default_title in
       let tags := match lookup "tags" pd with Some x => x | None => VList [] end in
       rq_json rq =
         Some (VDict ([("title", title); ("game_id", game_id)]
                      ++ if truthy tags then [("tags", tags)] else []))) /\
  (forall preset w' title notification notification' rest,
     stdin w' = title :: notification :: rest ->
     outcome_of (run_preset_prompts preset w') =
       outcome_of (run_preset_prompts preset
                     (set_stdin (title :: notification' :: rest) w')) /\
     forall entered,
       outcome_of (run_preset_prompts preset w') = Ret entered ->
       world_of (run_preset_prompts preset w') =
         world_of (run_preset_prompts preset
                     (set_stdin (title :: notification' :: rest) w'))).
Proof.
  split.
  - intros rq r. apply patch_payload.
  - intros preset w' title notification notification' rest.
    apply notification_discarded.
Qed.

Lemma lower_n a : lower a = "n" <-> a = "n" \/ a = "N".
Proof.
  split.
  - destruct a as [| c [| c' r]]; cbn; intros H; try discriminate.
    injection H as H.
    destruct c as [[] [] [] [] [] [] [] []]; cbv in H; try discriminate;
      first [left; reflexivity | right; reflexivity].
  - intros [-> | ->]; reflexivity.
Qed.

(** C10.  With [cfg["defaults"]["prompts"]] a dict, the confirmation block
    asks nothing and returns when the [confirm] setting (True when absent)
    is false; otherwise it reads one answer and exits through
    [die("Aborted")] exactly when the answer lowercases to [n], that is when
    it is [n] or [N]: [no], the empty line and an [n] with a space before or
    after it all proceed.  And a run of [run_preset] prints [ERROR: Aborted]
    exactly when its confirmation prompt got such an answer. *)
Theorem confirm_aborts_only_on_n cfg c d pr w :
  cfg = VDict c ->
  lookup "defaults" c = Some (VDict d) ->
  lookup "prompts" d = Some (VDict pr) ->
  run_preset_confirm cfg w =
  (if truthy (match lookup "confirm" pr with Some x => x | None => VBool true end)
   then match stdin w with
        | [] => (Raise EOFError, w, [Input confirm_prompt None])
        | a :: rest =>
            (if lower a =? "n" then Raise (SystemExit 1) else Ret tt,
             set_stdin rest w,
             Input confirm_prompt (Some a) ::
               if lower a =? "n" then [aborted] else [])
        end
   else (Ret tt, w, [])) /\
  (forall G key w',
     In aborted (trace_of (run_preset G cfg key w')) <->
     exists a,
       In (Input confirm_prompt (Some a)) (trace_of (run_preset G cfg key w')) /\
       lower a = "n") /\
  (forall a, (lower a =? "n") = true <-> a = "n" \/ a = "N") /\
  (lower "no" =? "n") = false /\ (lower "" =? "n") = false /\
  (lower " n" =? "n") = false /\ (lower "n " =? "n") = false.
Proof.
  intros -> Hd Hp. split; [| split; [| split; [| repeat split]]].
  - unfold run_preset_confirm, bind, getitem, get, input, die, print, raise, ret.
    rewrite Hd. cbn. rewrite Hp. cbn.
    destruct (truthy _); [| reflexivity].
    destruct (stdin w) as [| a rest]; [reflexivity |].
    destruct (lower a =? "n"); reflexivity.
  - intros G key w'. split.
    + apply aborted_by_decline.
    + intros (a & Hin & Ha).
      assert (Hdec : is_decline (Input confirm_prompt (Some a)) = true)
        by (cbn; rewrite Ha; reflexivity).
      destruct (decline_facts G (VDict c) key w'
                  (count_In is_decline _ _ Hin Hdec)) as (_ & (pre & E) & _).
      rewrite E. apply in_or_app. right. left. reflexivity.
  - intros a. rewrite String.eqb_eq. apply lower_n.
Qed.

(** * The properties on sample runs *)

(** The sample environment gives the sample globals. *)
Example sample_environment_loads :
  load_environment sample_environ happy = (Ret sample_globals, happy, []).
Proof. reflexivity. Qed.

(** The run in which everything succeeds: account lookup, category search,
    channel update, then status query and start of the stream. *)
Example happy_run :
  outcome_of (go_live sample_environ sample_cfg "valorant" happy) = Ret tt /\
  filter (fun e => is_network e || is_obs e)
    (trace_of (go_live sample_environ sample_cfg "valorant" happy)) =
  [Http (account_request sample_globals (VStr "old-access"))
        (Response 200 (Some users_body));
   Http (search_request sample_globals (VStr "old-access") (VStr "VALORANT"))
        (Response 200 (Some games_body));
   Http (patch_request sample_globals (VStr "old-access") (VStr "1337")
           (payload_of (VStr "Ranked grind") (VStr "516575") (VList [VStr "FPS"])))
        (Response 204 None);
   ObsConnect "localhost" 4455 (VStr "obs-pw") true;
   ObsGetStreamStatus false;
   ObsStartStream].
Proof. split; vm_compute; reflexivity. Qed.

Ltac in_list := vm_compute; repeat (first [left; reflexivity | right]).

(** C1 on the run whose account lookup is answered 401 twice. *)
Lemma refresh_and_retry_once_witness :
  first_answer is_account_lookup
    (trace_of (run_preset sample_globals sample_cfg "valorant" rejected_twice)) =
    Some (Response 401 None) /\
  count is_refresh
    (trace_of (run_preset sample_globals sample_cfg "valorant" rejected_twice)) = 1 /\
  count is_account_lookup
    (trace_of (run_preset sample_globals sample_cfg "valorant" rejected_twice)) <= 2.
Proof.
  destruct (refresh_and_retry_once sample_globals sample_cfg "valorant"
              rejected_twice) as (_ & B & H).
  assert (Hfirst :
    first_answer is_account_lookup
      (trace_of (run_preset sample_globals sample_cfg "valorant" rejected_twice)) =
      Some (Response 401 None)) by (vm_compute; reflexivity).
  destruct (H None Hfirst) as [H1 _].
  split; [exact Hfirst |]. split; [| exact B].
  apply H1. vm_compute. discriminate.
Defined.

(** C2 on the run whose account lookup gets no response. *)
Lemma refresh_on_http_error_only_witness :
  first_answer is_account_lookup
    (trace_of (run_preset sample_globals sample_cfg "valorant" unreachable)) =
    Some Dropped /\
  http_rejected Dropped = false /\
  count is_refresh
    (trace_of (run_preset sample_globals sample_cfg "valorant" unreachable)) = 0 /\
  outcome_of (run_preset sample_globals sample_cfg "valorant" unreachable) =
    Raise ConnectionError /\
  exists pre,
    trace_of (run_preset sample_globals sample_cfg "valorant" unreachable) =
    pre ++ [Http (account_request sample_globals (VStr "old-access")) Dropped].
Proof.
  assert (Hfirst :
    first_answer is_account_lookup
      (trace_of (run_preset sample_globals sample_cfg "valorant" unreachable)) =
      Some Dropped) by (vm_compute; reflexivity).
  destruct (refresh_on_http_error_only sample_globals sample_cfg "valorant"
              unreachable Dropped Hfirst) as [_ H].
  destruct (H eq_refl) as (H1 & _ & H3 & _).
  split; [exact Hfirst |]. split; [reflexivity |]. split; [exact H1 |].
  split; [apply H3; reflexivity |].
  exists []. vm_compute. reflexivity.
Defined.

(** C2 refuted: the first account lookup is answered 500, which is
    no authentication rejection, and the run refreshes the token and sends
    the lookup again. *)
Lemma server_error_triggers_refresh :
  filter is_auth
    (trace_of (run_preset sample_globals sample_cfg "valorant" server_error_once)) =
  [Http (account_request sample_globals (VStr "old-access")) (Response 500 None);
   Http (refresh_request sample_globals (VStr "old-refresh"))
        (Response 200 (Some new_tokens));
   Http (account_request sample_globals (VStr "new-access"))
        (Response 200 (Some users_body))] /\
  count is_refresh
    (trace_of (run_preset sample_globals sample_cfg "valorant" server_error_once)) = 1 /\
  outcome_of (run_preset sample_globals sample_cfg "valorant" server_error_once) =
    Ret tt.
Proof. repeat split; vm_compute; reflexivity. Qed.

(** C3 on the run whose channel update is answered 401. *)
Lemma retry_wraps_account_lookup_only_witness :
  In (Http (patch_request sample_globals (VStr "old-access") (VStr "1337")
              (payload_of (VStr "Ranked grind") (VStr "516575")
                          (VList [VStr "FPS"])))
           (Response 401 None))
     (trace_of (run_preset sample_globals sample_cfg "valorant" patch_rejected)) /\
  outcome_of (run_preset sample_globals sample_cfg "valorant" patch_rejected) =
    Raise (HTTPError 401).
Proof.
  assert (Hin :
    In (Http (patch_request sample_globals (VStr "old-access") (VStr "1337")
                (payload_of (VStr "Ranked grind") (VStr "516575")
                            (VList [VStr "FPS"])))
             (Response 401 None))
       (trace_of (run_preset sample_globals sample_cfg "valorant" patch_rejected)))
    by in_list.
  split; [exact Hin |].
  destruct (retry_wraps_account_lookup_only sample_globals sample_cfg "valorant"
              patch_rejected) as (_ & _ & H).
  apply (H _ _ (HTTPError 401) Hin); reflexivity.
Defined.

(** C3 refuted: the channel update is answered 401 and the run
    ends on that HTTPError, with one channel update sent and no refresh. *)
Lemma patch_rejection_not_refreshed :
  first_answer is_patch
    (trace_of (run_preset sample_globals sample_cfg "valorant" patch_rejected)) =
    Some (Response 401 None) /\
  outcome_of (run_preset sample_globals sample_cfg "valorant" patch_rejected) =
    Raise (HTTPError 401) /\
  count is_refresh
    (trace_of (run_preset sample_globals sample_cfg "valorant" patch_rejected)) = 0 /\
  count is_patch
    (trace_of (run_preset sample_globals sample_cfg "valorant" patch_rejected)) = 1.
Proof. repeat split; vm_compute; reflexivity. Qed.

(** C4 on the run whose refresh succeeds. *)
Lemma token_file_after_refresh_witness :
  first_answer is_refresh
    (trace_of (run_preset sample_globals sample_cfg "valorant" rejected_once)) =
    Some (Response 200 (Some new_tokens)) /\
  token_file (world_of (run_preset sample_globals sample_cfg "valorant"
                          rejected_once)) = Holds new_tokens.
Proof.
  assert (Hfirst :
    first_answer is_refresh
      (trace_of (run_preset sample_globals sample_cfg "valorant" rejected_once)) =
      Some (Response 200 (Some new_tokens))) by (vm_compute; reflexivity).
  split; [exact Hfirst |].
  destruct (token_file_after_refresh sample_globals sample_cfg "valorant"
              rejected_once _ Hfirst) as [H _].
  apply H. reflexivity.
Defined.

(** C5 on the run in which everything succeeds. *)
Lemma start_gated_on_status_witness :
  In (ObsGetStreamStatus false)
     (trace_of (run_preset sample_globals sample_cfg "valorant" happy)) /\
  count is_start
    (trace_of (run_preset sample_globals sample_cfg "valorant" happy)) = 1.
Proof.
  assert (Hin :
    In (ObsGetStreamStatus false)
       (trace_of (run_preset sample_globals sample_cfg "valorant" happy)))
    by in_list.
  split; [exact Hin |].
  apply (start_gated_on_status sample_globals sample_cfg "valorant" happy false Hin).
Defined.

(** C6 on the run whose category search finds nothing. *)
Lemma category_resolution_witness :
  In (Http (search_request sample_globals (VStr "old-access") (VStr "VALORANT"))
           (Response 200 (Some (VDict [("data", VList [])]))))
     (trace_of (run_preset sample_globals sample_cfg "valorant" no_such_game)) /\
  outcome_of (run_preset sample_globals sample_cfg "valorant" no_such_game) =
    Raise (SystemExit 1) /\
  count is_patch
    (trace_of (run_preset sample_globals sample_cfg "valorant" no_such_game)) = 0 /\
  outcome_of (get_game_id sample_globals (VStr "old-access") (VStr "VALORANT")
                (sample_world [Response 200 (Some games_body)] [] false)) =
    Ret (VStr "516575").
Proof.
  assert (Hin :
    In (Http (search_request sample_globals (VStr "old-access") (VStr "VALORANT"))
             (Response 200 (Some (VDict [("data", VList [])]))))
       (trace_of (run_preset sample_globals sample_cfg "valorant" no_such_game)))
    by in_list.
  destruct (category_resolution sample_globals) as [H1 H2].
  destruct (H1 sample_cfg "valorant" no_such_game _ 200%Z _ Hin
              eq_refl eq_refl eq_refl) as (Ho & _ & Hc).
  split; [exact Hin |]. split; [exact Ho |]. split; [exact Hc |].
  apply (H2 (VStr "old-access") (VStr "VALORANT") _ 200%Z
            [("data", VList [VDict [("id", VStr "516575"); ("name", VStr "VALORANT")];
                             VDict [("id", VStr "999")]])]
            [("id", VStr "516575"); ("name", VStr "VALORANT")]
            [VDict [("id", VStr "999")]] (VStr "516575") []);
    reflexivity.
Defined.

(** C7 on the run whose confirmation is answered [N]. *)
Lemma decline_aborts_witness :
  In (Input confirm_prompt (Some "N"))
     (trace_of (run_preset sample_globals sample_cfg "valorant" declined)) /\
  lower "N" = "n" /\
  outcome_of (run_preset sample_globals sample_cfg "valorant" declined) =
    Raise (SystemExit 1) /\
  count is_patch
    (trace_of (run_preset sample_globals sample_cfg "valorant" declined)) = 0 /\
  count is_obs
    (trace_of (run_preset sample_globals sample_cfg "valorant" declined)) = 0.
Proof.
  assert (Hin :
    In (Input confirm_prompt (Some "N"))
       (trace_of (run_preset sample_globals sample_cfg "valorant" declined)))
    by in_list.
  destruct (decline_aborts sample_globals sample_cfg "valorant" declined "N"
              Hin eq_refl) as (Ho & _ & Hp & Hobs).
  repeat split; assumption.
Defined.

(** C8 on the environment without the client secret, on an environment
    whose port is no number, and on the OBS helpers without a password. *)
Lemma credentials_checked_at_startup_witness :
  lookup "TWITCH_CLIENT_SECRET" environ_without_secret = None /\
  (exists k,
     go_live environ_without_secret sample_cfg "valorant" happy =
     (Raise (SystemExit 1), happy,
      [Print [Lit "ERROR: "; Lit "Missing required environment variable: ";
              Repr (VStr k)]])) /\
  load_environment (("OBS_WS_PORT", "abc") :: sample_environ) happy =
    (Raise ValueError, happy, []) /\
  stop_obs (mkGlobals "abc123" "s3cret" "http://localhost" "localhost" 4455
                      (VStr "")) happy =
    (Raise (SystemExit 1), happy,
     [Print [Lit "ERROR: "; Lit "OBS_WS_PASSWORD not set"]]).
Proof.
  split; [reflexivity |]. split; [| split].
  - destruct (credentials_checked_at_startup environ_without_secret sample_cfg
                "valorant" happy) as [H _].
    destruct H as (k & _ & _ & E); [right; left; reflexivity |].
    exists k. exact E.
  - destruct (credentials_checked_at_startup
                (("OBS_WS_PORT", "abc") :: sample_environ) sample_cfg
                "valorant" happy) as (_ & H & _).
    exact (H "abc123" "s3cret" "http://localhost" eq_refl eq_refl eq_refl).
  - destruct (credentials_checked_at_startup sample_environ sample_cfg
                "valorant" happy) as (_ & _ & H).
    apply (H (mkGlobals "abc123" "s3cret" "http://localhost" "localhost" 4455
                        (VStr "")) eq_refl).
Defined.

(** C8 refuted: with no [OBS_WS_PASSWORD] in the environment the
    process starts, sends the three requests, the channel update among them,
    and only then exits on the missing password. *)
Lemma missing_obs_password_found_late :
  lookup "OBS_WS_PASSWORD" environ_without_obs_password = None /\
  outcome_of (go_live environ_without_obs_password sample_cfg "valorant" happy) =
    Raise (SystemExit 1) /\
  count is_network
    (trace_of (go_live environ_without_obs_password sample_cfg "valorant" happy)) = 3 /\
  count is_patch
    (trace_of (go_live environ_without_obs_password sample_cfg "valorant" happy)) = 1 /\
  last (trace_of (go_live environ_without_obs_password sample_cfg "valorant" happy))
       aborted =
    Print [Lit "ERROR: "; Lit "OBS_WS_PASSWORD not set"].
Proof. repeat split; vm_compute; reflexivity. Qed.

(** C9 on the run in which everything succeeds. *)
Lemma payload_contents_witness :
  In (Http (patch_request sample_globals (VStr "old-access") (VStr "1337")
              (payload_of (VStr "Ranked grind") (VStr "516575")
                          (VList [VStr "FPS"])))
           (Response 204 None))
     (trace_of (run_preset sample_globals sample_cfg "valorant" happy)) /\
  exists title game_id tags,
    Some (payload_of (VStr "Ranked grind") (VStr "516575") (VList [VStr "FPS"])) =
    Some (VDict ([("title", title); ("game_id", game_id)]
                 ++ if truthy tags then [("tags", tags)] else [])).
Proof.
  assert (Hin :
    In (Http (patch_request sample_globals (VStr "old-access") (VStr "1337")
                (payload_of (VStr "Ranked grind") (VStr "516575")
                            (VList [VStr "FPS"])))
             (Response 204 None))
       (trace_of (run_preset sample_globals sample_cfg "valorant" happy)))
    by in_list.
  split; [exact Hin |].
  destruct (payload_contents sample_globals sample_cfg "valorant" happy)
    as [H _].
  destruct (H _ _ Hin eq_refl)
    as (c & ps & pd & defaults & default_title & line & before & after & search
        & found & game_id & _ & _ & _ & _ & _ & _ & _ & _ & _ & _ & E).
  cbv zeta in E. cbn [rq_json patch_request] in E.
  eexists _, game_id, _. exact E.
Defined.

(** C10 on the sample configuration, with the answer [N]. *)
Lemma confirm_aborts_only_on_n_witness :
  run_preset_confirm sample_cfg (set_stdin ["N"] happy) =
  (Raise (SystemExit 1), set_stdin [] happy,
   [Input confirm_prompt (Some "N"); aborted]).
Proof.
  destruct (confirm_aborts_only_on_n sample_cfg
              [("version", VInt 1);
               ("defaults", VDict [("obs", VDict [("auto_start", VBool true)]);
                                   ("prompts", VDict [("confirm", VBool true)])]);
               ("presets", VDict [("valorant", sample_preset)])]
              [("obs", VDict [("auto_start", VBool true)]);
               ("prompts", VDict [("confirm", VBool true)])]
              [("confirm", VBool true)]
              (set_stdin ["N"] happy) eq_refl eq_refl eq_refl) as [E _].
  exact E.
Defined.

(** * Further properties of the program *)

(** ** Whitespace *)

Lemma ws_head_shorter s r :
  ws_head s = Some r -> String.length r < String.length s.
Proof.
  destruct s as [| a r0]; [discriminate |].
  unfold ws_head.
  destruct (byte_in 9 13 a || byte_in 28 32 a).
  - intros H. inversion H. cbn. lia.
  - destruct a as [[] [] [] [] [] [] [] []];
      match goal with
      | |- context [nat_of_ascii ?a] =>
          let n := eval vm_compute in (nat_of_ascii a) in
          change (nat_of_ascii a) with n
      end; cbv iota; try discriminate;
      destruct r0 as [| b [| c r3]]; try discriminate;
      repeat match goal with
             | |- (if ?x then _ else _) = _ -> _ => destruct x
             end;
      try discriminate; intros H; injection H as <-; cbn; lia.
Qed.

Lemma all_ws_lstrip n s :
  String.length s <= n -> all_ws_fuel n s = (lstrip_fuel n s =? "").
Proof.
  revert s. induction n as [| n IH]; intros s Hn.
  - destruct s; [reflexivity | cbn in Hn; lia].
  - cbn [all_ws_fuel lstrip_fuel]. destruct s as [| a r]; [reflexivity |].
    destruct (ws_head (String a r)) as [r' |] eqn:Hw; [| reflexivity].
    apply IH. apply ws_head_shorter in Hw. lia.
Qed.

Lemma lstrip_head n s :
  String.length s <= n -> ws_head (lstrip_fuel n s) = None.
Proof.
  revert s. induction n as [| n IH]; intros s Hn.
  - destruct s; [reflexivity | cbn in Hn; lia].
  - cbn [lstrip_fuel]. destruct (ws_head s) as [r' |] eqn:Hw; [| exact Hw].
    apply IH. apply ws_head_shorter in Hw. lia.
Qed.

Lemma strip_blank s : all_ws s = true -> strip s = "".
Proof.
  unfold all_ws, strip, lstrip. rewrite all_ws_lstrip by lia.
  intros H. apply String.eqb_eq in H. rewrite H. reflexivity.
Qed.

Lemma strip_not_blank s : all_ws s = false -> strip s <> "".
Proof.
  unfold all_ws at 1, strip, lstrip. rewrite all_ws_lstrip by lia.
  intros H. apply String.eqb_neq in H.
  pose proof (lstrip_head (String.length s) s (le_n _)) as Hh.
  destruct (lstrip_fuel (String.length s) s) as [| c r]; [contradiction |].
  cbn [rstrip]. unfold all_ws. cbn [String.length all_ws_fuel]. rewrite Hh.
  discriminate.
Qed.

(** ** [prompt] *)

(** X1.  [prompt] returns the default exactly when the line typed is empty
    or made of whitespace only; otherwise it returns the line without its
    surrounding whitespace, which is then not empty.  It consumes one line
    of input, and raises EOFError when there is none. *)
Theorem prompt_blank_keeps_default label default w :
  match stdin w with
  | line :: rest =>
      outcome_of (prompt label default w) =
        Ret (if all_ws line then default else VStr (strip line)) /\
      (all_ws line = false -> strip line <> "") /\
      stdin (world_of (prompt label default w)) = rest
  | [] => outcome_of (prompt label default w) = Raise EOFError
  end.
Proof.
  unfold prompt, bind, print, input, ret.
  destruct (stdin w) as [| line rest]; [reflexivity |].
  cbn. split; [| split; [apply strip_not_blank | reflexivity]].
  destruct (all_ws line) eqn:Hws.
  - rewrite (strip_blank _ Hws). reflexivity.
  - apply strip_not_blank in Hws. apply String.eqb_neq in Hws.
    rewrite Hws. reflexivity.
Qed.

(** ** The OBS helpers *)

(** X2.  [stop_obs] stops the stream exactly when the status query reports
    it active, and says so; when the query reports it inactive, it only
    prints that the stream is not running.  It never starts a stream. *)
Theorem stop_gated_on_status G w b :
  In (ObsGetStreamStatus b) (trace_of (stop_obs G w)) ->
  count is_stop (trace_of (stop_obs G w)) = (if b then 1 else 0) /\
  count is_start (trace_of (stop_obs G w)) = 0 /\
  In (Print [Lit (if b then "✓ OBS stream stopped"
                  else "OBS stream is not running")])
     (trace_of (stop_obs G w)).
Proof.
  unfold stop_obs, die, bind, print, raise, ret, ReqClient, get_stream_status,
    stop_stream.
  destruct (truthy (OBS_PASSWORD G)); cbn; [| intros [H | []]; discriminate].
  destruct (obs_endpoint w) as [[[h n] pw] |]; cbn;
    [| intros [H | []]; discriminate].
  destruct (OBS_PASSWORD G); cbn; try (intros [H | []]; discriminate).
  destruct ((h =? OBS_HOST G) && (n =? OBS_PORT G)%Z && (pw =? s)); cbn;
    [| intros [H | []]; discriminate].
  destruct (obs_active w); cbn; intros [H | [H | H]]; try discriminate;
    try (injection H as <-);
    repeat match goal with H : _ \/ _ |- _ => destruct H as [H | H] end;
    try discriminate; try contradiction;
    (split; [reflexivity | split; [reflexivity | cbn; tauto]]).
Qed.
Lemma before_update_free_obs : before_update_free is_obs.
Proof. split; [exact before_confirm_free_obs | intros; quiet_prog]. Qed.

(** A refused connection ends the OBS block, and the run with it. *)
Lemma run_preset_obs_refused G cfg w h p pw :
  In (ObsConnect h p pw false)
     (trace_of ((run_preset_obs G cfg ;; print [Lit "✓ Go live complete"]) w)) ->
  outcome_of ((run_preset_obs G cfg ;; print [Lit "✓ Go live complete"]) w) =
    Raise OBSError.
Proof.
  unfold run_preset_obs, start_obs, die, bind, getitem, get, print, raise, ret,
    ReqClient, get_stream_status, start_stream, outcome_of, trace_of.
  repeat (cbn -[truthy lookup String.eqb Z.eqb];
          try match goal with
              | |- context [match lookup ?k ?d with _ => _ end] =>
                  destruct (lookup k d) eqn:?
              | |- context [match obs_endpoint ?w with _ => _ end] =>
                  destruct (obs_endpoint w) as [[[? ?] ?] |]
              | |- context [if truthy ?v then _ else _] =>
                  destruct (truthy v) eqn:?
              | |- context [if negb (truthy ?v) then _ else _] =>
                  destruct (truthy v) eqn:?
              | |- context [if ?a && ?b then _ else _] => destruct (a && b)
              | |- context [if obs_active ?w then _ else _] =>
                  destruct (obs_active w)
              | |- context [if negb (obs_active ?w) then _ else _] =>
                  destruct (obs_active w)
              | |- context [match ?x with _ => _ end] => is_var x; destruct x
              | |- context [match OBS_PASSWORD ?G with _ => _ end] =>
                  destruct (OBS_PASSWORD G)
              end).
  all: intros Hin; try reflexivity.
  all: repeat match goal with
              | H : _ \/ _ |- _ => destruct H as [H | H]
              | H : In _ _ |- _ => cbn in H
              end; try discriminate; try contradiction.
Qed.
(** X3.  The broadcast controller is contacted only after the channel
    update has been sent and accepted: every OBS action of a run comes
    after the line [Twitch metadata updated].  When OBS refuses the
    connection, the run ends with that error, the channel already
    updated. *)
Theorem obs_only_after_update G cfg key w e :
  In e (trace_of (run_preset G cfg key w)) ->
  is_obs e = true ->
  (exists pre rq r post,
     trace_of (run_preset G cfg key w) =
       pre ++ Http rq r :: metadata_updated :: post /\
     rq_method rq = PATCH /\ failure_of r = None /\ In e post) /\
  (forall h p pw, e = ObsConnect h p pw false ->
     outcome_of (run_preset G cfg key w) = Raise OBSError).
Proof.
  intros Hin He.
  destruct (run_preset_to_update G cfg key w)
    as [(_ & Hq) | (preset & tokens & auth & entered & w1 & w2 & w3 & w4 & w5
                    & t0 & t1 & t2 & t3 & t4 & pre
                    & E0 & E1 & E2 & E3 & E4 & Hpre & Hq & R)].
  { pose proof (count_In _ _ _ Hin He) as Hc.
    rewrite (Hq _ before_update_free_obs) in Hc. lia. }
  cbv zeta in R.
  pose proof (Hq _ before_update_free_obs) as Q0.
  pose proof (run_preset_update_run G preset (fst auth) (snd auth)
                (fst entered) (snd entered) w5) as U.
  set (ru := run_preset_update G preset (fst auth) (snd auth)
               (fst entered) (snd entered) w5) in *.
  pose proof (run_preset_obs_refused G cfg (world_of ru)) as Href.
  set (r2 := (run_preset_obs G cfg ;; print [Lit "✓ Go live complete"])
               (world_of ru)) in *.
  inversion U as [e' Ho Ht | name r' e' Hr Ho Ht | name r' Hr Ho Ht
                 | name r' g r3 Hf Hg Ho Ht];
    rewrite <- Ho, <- Ht in R; clear Ho Ht U.
  1-3: exfalso; rewrite R in Hin; unfold trace_of in Hin; cbn [snd] in Hin;
       apply (In_after_quiet is_obs) in Hin; [| exact He | exact Q0];
       cbn in Hin;
       repeat match goal with H : _ \/ _ |- _ => destruct H as [H | H] end;
       try contradiction; subst e; discriminate.
  destruct (failure_of r3) as [e3 |] eqn:Hf3; rewrite R in Hin |- *;
    unfold outcome_of at 1, trace_of at 1; unfold trace_of at 1 in Hin;
    cbn [fst snd app] in Hin |- *;
    apply (In_after_quiet is_obs) in Hin; try exact He; try exact Q0.
  - exfalso. destruct Hin as [Hin | [Hin | []]]; subst e; discriminate.
  - destruct Hin as [Hin | [Hin | [Hin | Hin]]];
      try (subst e; discriminate).
    split.
    + exists (pre ++ [Http (search_request G (fst auth) name) r']),
        (patch_request G (fst auth) (snd auth)
           (payload_of (fst entered) g (snd entered))), r3, (trace_of r2).
      rewrite <- app_assoc. repeat split; try assumption.
    + intros h p pw ->. unfold outcome_of at 1. cbn [fst].
      apply (Href h p pw Hin).
Qed.
(** X4.  [start_obs] and [stop_obs] give up early: without a password they
    exit before any call to the controller; when the connection is refused
    they raise its error right after the attempt, without a status query.
    In every case they leave the token file, the network and the terminal
    input as they were. *)
Theorem obs_helpers_fail_early G w helper :
  helper = start_obs G \/ helper = stop_obs G ->
  (truthy (OBS_PASSWORD G) = false ->
   helper w =
   (Raise (SystemExit 1), w,
    [Print [Lit "ERROR: "; Lit "OBS_WS_PASSWORD not set"]])) /\
  (forall h p pw,
     In (ObsConnect h p pw false) (trace_of (helper w)) ->
     helper w =
     (Raise OBSError, w,
      [ObsConnect (OBS_HOST G) (OBS_PORT G) (OBS_PASSWORD G) false])) /\
  set_obs_active (obs_active w) (world_of (helper w)) = w.
Proof.
  intros [-> | ->].
  all: unfold start_obs, stop_obs, die, bind, print, raise, ret, ReqClient,
         get_stream_status, start_stream, stop_stream, set_obs_active,
         world_of, trace_of.
  all: destruct w as [tf nw si ep act]; cbn.
  all: destruct (truthy (OBS_PASSWORD G)); cbn;
         [| split; [reflexivity | split; [| reflexivity]];
            intros h p pw [H | []]; discriminate].
  all: (split; [discriminate |]).
  all: destruct ep as [[[h n] pw] |]; cbn;
         [| split; [reflexivity | reflexivity]].
  all: destruct (OBS_PASSWORD G); cbn;
         try (split; reflexivity).
  all: destruct ((h =? OBS_HOST G) && (n =? OBS_PORT G)%Z && (pw =? s)); cbn;
         [| split; reflexivity].
  all: destruct act; cbn; (split; [| reflexivity]).
  all: intros h' p' pw' Hin;
       repeat match goal with H : _ \/ _ |- _ => destruct H as [H | H] end;
       try discriminate; contradiction.
Qed.
(** ** The first authorization *)

(** What the token block does, by what the token file holds, what the user
    types and what the token endpoint answers. *)
Lemma run_preset_tokens_run G w :
  match token_file w with
  | Garbled => run_preset_tokens G w = (Raise JSONDecodeError, w, [])
  | f =>
      let stored := match f with Holds v => v | _ => VNone end in
      if truthy stored then run_preset_tokens G w = (Ret stored, w, [])
      else
        match stdin w with
        | [] =>
            run_preset_tokens G w =
            (Raise EOFError, w, authorize_lines G ++ [Input code_prompt None])
        | line :: rest =>
            exists r,
              trace_of (run_preset_tokens G w) =
                authorize_lines G ++
                [Input code_prompt (Some line);
                 Http (exchange_request G (strip line)) r] /\
              match refreshed r with
              | Some v =>
                  outcome_of (run_preset_tokens G w) = Ret v /\
                  token_file (world_of (run_preset_tokens G w)) = Holds v
              | None =>
                  (exists e, outcome_of (run_preset_tokens G w) = Raise e /\
                             propagates r e) /\
                  token_file (world_of (run_preset_tokens G w)) = token_file w
              end
        end
  end.
Proof.
  unfold run_preset_tokens, load_tokens, exchange_code, save_tokens, bind,
    print, input, send, raise_for_status, json, raise, ret, outcome_of,
    world_of, trace_of, propagates.
  destruct (token_file w) as [| | v] eqn:Hf; [| reflexivity |].
  - cbn. destruct (stdin w) as [| line rest]; [reflexivity |].
    cbn. destruct (network w) as [| [st body | |] nw]; cbn.
    + exists Dropped. cbn. repeat split; try assumption. eexists; split; reflexivity.
    + exists (Response st body). cbn. destruct (http_error st); cbn.
      * repeat split; try assumption. eexists; split; reflexivity.
      * destruct body; cbn; repeat split; try assumption.
        eexists; split; [reflexivity | exact I].
    + exists Dropped. cbn. repeat split; try assumption. eexists; split; reflexivity.
    + exists TimedOut. cbn. repeat split; try assumption. eexists; split; reflexivity.
  - cbv zeta. destruct (truthy v); [reflexivity |].
    cbn. destruct (stdin w) as [| line rest]; [reflexivity |].
    cbn. destruct (network w) as [| [st body | |] nw]; cbn.
    + exists Dropped. cbn. repeat split; try assumption. eexists; split; reflexivity.
    + exists (Response st body). cbn. destruct (http_error st); cbn.
      * repeat split; try assumption. eexists; split; reflexivity.
      * destruct body; cbn; repeat split; try assumption.
        eexists; split; [reflexivity | exact I].
    + exists Dropped. cbn. repeat split; try assumption. eexists; split; reflexivity.
    + exists TimedOut. cbn. repeat split; try assumption. eexists; split; reflexivity.
Qed.
Lemma get_preset_raise cfg key w e w1 t0 :
  get_preset cfg key w = (Raise e, w1, t0) ->
  w1 = w /\ (t0 = [] \/ t0 = [unknown_preset key]).
Proof.
  unfold get_preset, try_except, bind, getitem, die, print, raise, ret,
    unknown_preset.
  destruct cfg as [| | | | | c]; cbn;
    try (intros H; inversion H; split; [reflexivity | left; reflexivity]).
  destruct (lookup "presets" c) as [[| | | | | ps] |]; cbn;
    try (intros H; inversion H; split; [reflexivity | tauto]).
  destruct (lookup key ps); cbn; intros H; inversion H;
    (split; [reflexivity | tauto]).
Qed.

Lemma quiet_after_tokens p G cfg preset tokens :
  (forall rq r, rq_method rq <> POST \/
                lookup "grant_type" (rq_data rq) = Some (VStr "refresh_token") ->
                p (Http rq r) = false) ->
  (forall s l, s <> code_prompt -> p (Input s l) = false) ->
  (forall t, p (Print t) = false) ->
  p ObsStartStream = false ->
  (forall b, p (ObsGetStreamStatus b) = false) ->
  (forall h n pw b, p (ObsConnect h n pw b) = false) ->
  quiet p (auth <- run_preset_auth G tokens ;;
           run_preset_after_auth G cfg preset auth).
Proof.
  intros Hh Hi Hp Hs Hg Hc.
  unfold run_preset_after_auth, run_preset_auth, run_preset_prompts,
    run_preset_confirm, run_preset_update, run_preset_obs, prompt,
    refresh_tokens, get_broadcaster_id, get_game_id, update_channel, start_obs.
  repeat first
    [ apply quiet_print; apply Hp
    | apply quiet_die; apply Hp
    | apply quiet_input; intros ?; apply Hi; discriminate
    | apply quiet_send; intros ?; apply Hh;
      first [left; discriminate | right; reflexivity]
    | apply quiet_ReqClient; intros ?; apply Hc
    | apply quiet_get_stream_status; exact Hg
    | apply quiet_start_stream; exact Hs
    | quiet_step ].
Qed.
Lemma quiet_after_tokens_exchange G cfg preset tokens :
  quiet is_exchange (auth <- run_preset_auth G tokens ;;
                     run_preset_after_auth G cfg preset auth).
Proof.
  apply quiet_after_tokens; try reflexivity.
  intros rq r [H | H]; cbn.
  - destruct (rq_method rq); try reflexivity. contradiction.
  - rewrite H. destruct (rq_method rq); try reflexivity.
    apply andb_false_r.
Qed.

Lemma quiet_after_tokens_code_prompt G cfg preset tokens :
  quiet is_code_prompt (auth <- run_preset_auth G tokens ;;
                        run_preset_after_auth G cfg preset auth).
Proof.
  apply quiet_after_tokens; try reflexivity.
  intros s l H. cbn. apply String.eqb_neq, H.
Qed.

(** A run is its token block followed by the rest, which asks for no
    authorization code and exchanges none; the token file at the end is
    what the token block left, unless the rest made a refresh. *)
Lemma run_preset_from_tokens G cfg key w :
  (exists e t,
     run_preset G cfg key w = (Raise e, w, t) /\
     (t = [] \/ t = [unknown_preset key])) \/
  (exists e w2 t1,
     run_preset_tokens G w = (Raise e, w2, t1) /\
     run_preset G cfg key w = (Raise e, w2, t1)) \/
  (exists tokens w2 t1 o w' post,
     run_preset_tokens G w = (Ret tokens, w2, t1) /\
     run_preset G cfg key w = (o, w', t1 ++ post) /\
     count is_exchange post = 0 /\ count is_code_prompt post = 0 /\
     (token_file w' = token_file w2 \/ 1 <= count is_refresh post)).
Proof.
  change (run_preset G cfg key w) with
    ((preset <- get_preset cfg key ;;
      tokens <- run_preset_tokens G ;;
      auth <- run_preset_auth G tokens ;;
      run_preset_after_auth G cfg preset auth) w).
  destruct (get_preset cfg key w) as [[[preset | e] w1] t0] eqn:E0.
  2: { left. exists e, t0. rewrite (bind_Raise _ _ _ _ _ _ E0).
       destruct (get_preset_raise _ _ _ _ _ _ E0) as [-> Ht].
       split; [reflexivity | exact Ht]. }
  right. rewrite (bind_Ret _ _ _ _ _ _ E0).
  destruct (get_preset_world _ _ _ _ _ _ E0) as [-> ->]. cbn [app].
  destruct (run_preset_tokens G w) as [[[tokens | e] w2] t1] eqn:E1.
  2: { left. exists e, w2, t1. rewrite (bind_Raise _ _ _ _ _ _ E1).
       split; reflexivity. }
  right. rewrite (bind_Ret _ _ _ _ _ _ E1).
  set (rest := (auth <- run_preset_auth G tokens ;;
                run_preset_after_auth G cfg preset auth)).
  exists tokens, w2, t1, (outcome_of (rest w2)), (world_of (rest w2)),
    (trace_of (rest w2)).
  split; [reflexivity |]. split; [reflexivity |].
  split; [apply quiet_after_tokens_exchange |].
  split; [apply quiet_after_tokens_code_prompt |].
  subst rest. rewrite world_bind, count_bind.
  destruct (run_preset_auth_run G tokens w2) as (written & Hrun & Hfile).
  assert (Hw : written = None \/
               1 <= count is_refresh (trace_of (run_preset_auth G tokens w2))).
  { inversion Hrun; subst; try (left; reflexivity); right;
      unfold count; cbn; lia. }
  destruct Hw as [-> | Hw]; [| right; lia].
  left. destruct (outcome_of (run_preset_auth G tokens w2)) as [auth | e].
  - rewrite run_preset_after_auth_keeps. exact Hfile.
  - exact Hfile.
Qed.
(** A request in the trace of the token block is the code exchange. *)
Lemma exchange_in_tokens G w rq r :
  In (Http rq r) (trace_of (run_preset_tokens G w)) ->
  (token_file w = Absent \/
   exists v, token_file w = Holds v /\ truthy v = false) /\
  exists line,
    trace_of (run_preset_tokens G w) =
      authorize_lines G ++ [Input code_prompt (Some line); Http rq r] /\
    (exists rest, stdin w = line :: rest) /\
    rq = exchange_request G (strip line) /\
    match refreshed r with
    | Some v =>
        outcome_of (run_preset_tokens G w) = Ret v /\
        token_file (world_of (run_preset_tokens G w)) = Holds v
    | None =>
        (exists e, outcome_of (run_preset_tokens G w) = Raise e /\
                   propagates r e) /\
        token_file (world_of (run_preset_tokens G w)) = token_file w
    end.
Proof.
  pose proof (run_preset_tokens_run G w) as H.
  assert (Hcase : token_file w = Garbled \/
                  (exists v, token_file w = Holds v /\ truthy v = true) \/
                  token_file w = Absent \/
                  exists v, token_file w = Holds v /\ truthy v = false).
  { destruct (token_file w) as [| | v]; [tauto | tauto |].
    destruct (truthy v) eqn:Hv; [right; left | right; right; right];
      exists v; (split; [reflexivity | exact Hv]). }
  destruct Hcase as [Hf | [(v & Hf & Hv) | Hcase]].
  { rewrite Hf in H. rewrite H. intros []. }
  { rewrite Hf in H. cbv zeta in H. rewrite Hv in H. rewrite H. intros []. }
  assert (H' : match stdin w with
               | [] =>
                   run_preset_tokens G w =
                   (Raise EOFError, w,
                    authorize_lines G ++ [Input code_prompt None])
               | line :: rest =>
                   exists r,
                     trace_of (run_preset_tokens G w) =
                       authorize_lines G ++
                       [Input code_prompt (Some line);
                        Http (exchange_request G (strip line)) r] /\
                     match refreshed r with
                     | Some v =>
                         outcome_of (run_preset_tokens G w) = Ret v /\
                         token_file (world_of (run_preset_tokens G w)) = Holds v
                     | None =>
                         (exists e,
                            outcome_of (run_preset_tokens G w) = Raise e /\
                            propagates r e) /\
                         token_file (world_of (run_preset_tokens G w)) =
                           token_file w
                     end
               end).
  { destruct Hcase as [Hf | (v & Hf & Hv)]; rewrite Hf in H |- *;
      cbv zeta in H; [| rewrite Hv in H]; exact H. }
  clear H. intros Hin. split; [exact Hcase |].
  destruct (stdin w) as [| line rest].
  { rewrite H' in Hin. cbn in Hin.
    destruct Hin as [Hin | [Hin | [Hin | []]]]; discriminate. }
  destruct H' as (r0 & Ht & Hr). rewrite Ht in Hin. cbn in Hin.
  destruct Hin as [Hin | [Hin | [Hin | [Hin | []]]]]; try discriminate.
  injection Hin as <- <-.
  exists line. split; [exact Ht |]. split; [exists rest; reflexivity |].
  split; [reflexivity | exact Hr].
Qed.
(** The code exchange of a run is that of its token block; nothing after
    the block exchanges a code or asks for one. *)
Lemma exchange_in_run G cfg key w rq r :
  In (Http rq r) (trace_of (run_preset G cfg key w)) ->
  is_exchange (Http rq r) = true ->
  In (Http rq r) (trace_of (run_preset_tokens G w)) /\
  exists post,
    trace_of (run_preset G cfg key w) =
      trace_of (run_preset_tokens G w) ++ post /\
    count is_exchange post = 0 /\ count is_code_prompt post = 0 /\
    match outcome_of (run_preset_tokens G w) with
    | Raise e =>
        outcome_of (run_preset G cfg key w) = Raise e /\ post = [] /\
        world_of (run_preset G cfg key w) = world_of (run_preset_tokens G w)
    | Ret _ =>
        token_file (world_of (run_preset G cfg key w)) =
          token_file (world_of (run_preset_tokens G w)) \/
        1 <= count is_refresh post
    end.
Proof.
  intros Hin Hex.
  destruct (run_preset_from_tokens G cfg key w)
    as [(e & t & R & Ht)
       | [(e & w2 & t1 & E1 & R)
         | (tokens & w2 & t1 & o & w' & post & E1 & R & Q1 & Q2 & Hfile)]];
    rewrite R in *; unfold trace_of at 1 in Hin; cbn [snd] in Hin.
  - destruct Ht as [-> | ->]; [destruct Hin |].
    destruct Hin as [Hin | []]. discriminate.
  - rewrite E1. unfold outcome_of, world_of, trace_of. cbn [fst snd].
    split; [exact Hin |]. exists []. rewrite app_nil_r.
    repeat split; reflexivity.
  - rewrite E1. unfold outcome_of, world_of, trace_of. cbn [fst snd].
    split.
    + apply in_app_or in Hin. destruct Hin as [Hin | Hin]; [exact Hin |].
      pose proof (count_In _ _ _ Hin Hex). lia.
    + exists post. repeat split; assumption.
Qed.

(** X5.  With a stored TokenSet that is not empty, a run never asks for an
    authorization code and never exchanges one. *)
Theorem stored_tokens_skip_authorization G cfg key w v :
  token_file w = Holds v ->
  truthy v = true ->
  count is_code_prompt (trace_of (run_preset G cfg key w)) = 0 /\
  count is_exchange (trace_of (run_preset G cfg key w)) = 0.
Proof.
  intros Hf Hv.
  pose proof (run_preset_tokens_run G w) as H.
  rewrite Hf in H. cbv zeta in H. rewrite Hv in H.
  destruct (run_preset_from_tokens G cfg key w)
    as [(e & t & R & Ht)
       | [(e & w2 & t1 & E1 & R)
         | (tokens & w2 & t1 & o & w' & post & E1 & R & Q1 & Q2 & Hfile)]];
    rewrite R; unfold trace_of; cbn [snd].
  - destruct Ht as [-> | ->]; split; reflexivity.
  - rewrite H in E1. discriminate.
  - rewrite H in E1. injection E1 as <- <- <-. cbn [app].
    split; assumption.
Qed.

(** X6.  A run exchanges an authorization code only when the token file is
    missing or holds an empty TokenSet.  The exchange is then the first
    request of the run, it comes right after the two lines with the
    authorization URL and the prompt for the code, it carries the line
    typed without its surrounding whitespace, and the run makes no other
    exchange. *)
Theorem authorization_only_without_tokens G cfg key w rq r :
  In (Http rq r) (trace_of (run_preset G cfg key w)) ->
  is_exchange (Http rq r) = true ->
  (token_file w = Absent \/
   exists v, token_file w = Holds v /\ truthy v = false) /\
  exists line post,
    trace_of (run_preset G cfg key w) =
      authorize_lines G ++
      Input code_prompt (Some line) :: Http rq r :: post /\
    rq = exchange_request G (strip line) /\
    count is_exchange post = 0 /\ count is_code_prompt post = 0.
Proof.
  intros Hin Hex.
  destruct (exchange_in_run G cfg key w rq r Hin Hex)
    as (Hin' & post & Ht & Q1 & Q2 & _).
  destruct (exchange_in_tokens G w rq r Hin')
    as (Hfile & line & Ht' & _ & Hrq & _).
  split; [exact Hfile |].
  exists line, post. rewrite Ht, Ht', <- app_assoc.
  repeat split; assumption.
Qed.

(** X7.  The refresh-and-retry does not cover the code exchange.  When the
    exchange fails, the run ends there with that failure: nothing is
    written to the token file, and no account lookup and no refresh are
    made.  When the exchange returns a TokenSet, it is written to the token
    file at once, and the file still holds it at the end of the run unless
    the run went on to refresh it. *)
Theorem code_exchange_outcome G cfg key w rq r :
  In (Http rq r) (trace_of (run_preset G cfg key w)) ->
  is_exchange (Http rq r) = true ->
  (forall e, failure_of r = Some e ->
     outcome_of (run_preset G cfg key w) = Raise e /\
     (exists pre, trace_of (run_preset G cfg key w) = pre ++ [Http rq r]) /\
     token_file (world_of (run_preset G cfg key w)) = token_file w /\
     count is_auth (trace_of (run_preset G cfg key w)) = 0) /\
  (forall v, refreshed r = Some v ->
     token_file (world_of (run_preset_tokens G w)) = Holds v /\
     (token_file (world_of (run_preset G cfg key w)) = Holds v \/
      1 <= count is_refresh (trace_of (run_preset G cfg key w)))).
Proof.
  intros Hin Hex.
  destruct (exchange_in_run G cfg key w rq r Hin Hex)
    as (Hin' & post & Ht & Q1 & Q2 & Hout).
  destruct (exchange_in_tokens G w rq r Hin')
    as (_ & line & Ht' & _ & Hrq & Hr).
  split.
  - intros e He.
    assert (Hnone : refreshed r = None).
    { destruct r as [st body | |]; try reflexivity. cbn in He |- *.
      destruct (http_error st); [reflexivity | discriminate]. }
    rewrite Hnone in Hr. destruct Hr as ((e' & Ho & Hp) & Hfile).
    unfold propagates in Hp. rewrite He in Hp. subst e'.
    rewrite Ho in Hout. destruct Hout as (Hrun & -> & Hw).
    rewrite app_nil_r in Ht.
    split; [exact Hrun |]. split.
    + exists (authorize_lines G ++ [Input code_prompt (Some line)]).
      rewrite Ht, Ht', <- app_assoc. reflexivity.
    + split; [rewrite Hw; exact Hfile |].
      rewrite Ht, Ht', Hrq. reflexivity.
  - intros v Hv. rewrite Hv in Hr. destruct Hr as (Ho & Hfile).
    split; [exact Hfile |].
    rewrite Ho in Hout. destruct Hout as [Hw | Hc].
    + left. rewrite Hw. exact Hfile.
    + right. rewrite Ht, count_app. lia.
Qed.

(** ** Tags that are not strings *)

(** The prompts block returns only when the tags, if there are any, can be
    joined. *)
Lemma run_preset_prompts_tags pd w entered w' t :
  run_preset_prompts (VDict pd) w = (Ret entered, w', t) ->
  let tags := match lookup "tags" pd with Some x => x | None => VList [] end in
  truthy tags = true -> join ", " tags <> None.
Proof.
  unfold run_preset_prompts, prompt, bind, getitem, get, input, print, raise, ret.
  destruct (lookup "defaults" pd) as [[| | | | | defaults] |]; try discriminate.
  cbn -[lookup strip nl].
  destruct (lookup "title" defaults); [| discriminate].
  cbn -[lookup strip nl].
  destruct (stdin w) as [| line rest]; [discriminate |].
  cbn -[lookup strip nl].
  destruct (lookup "go_live_notification" defaults); [| discriminate].
  cbn -[lookup strip nl].
  destruct rest as [| line2 rest]; [discriminate |].
  cbn -[lookup strip nl truthy join].
  intros H Ht. rewrite Ht in H. cbn -[lookup strip nl join] in H.
  destruct (join _ _); [discriminate | discriminate H].
Qed.

(** X8.  Tags that cannot be joined with [", "], such as a list with a
    number in it, end the run before the confirmation is asked for: the
    channel is not updated and OBS is not contacted. *)
Theorem tags_must_be_strings G c ps pd tags key w :
  lookup "presets" c = Some (VDict ps) ->
  lookup key ps = Some (VDict pd) ->
  lookup "tags" pd = Some tags ->
  truthy tags = true ->
  join ", " tags = None ->
  (exists e, outcome_of (run_preset G (VDict c) key w) = Raise e) /\
  count is_confirm (trace_of (run_preset G (VDict c) key w)) = 0 /\
  count is_patch (trace_of (run_preset G (VDict c) key w)) = 0 /\
  count is_obs (trace_of (run_preset G (VDict c) key w)) = 0.
Proof.
  intros Hp Hk Ht Htruthy Hjoin.
  destruct (run_preset_to_confirm G (VDict c) key w)
    as [(He & Hq) | (preset & tokens & auth & entered & w1 & w2 & w3 & w4
                    & t0 & t1 & t2 & t3 & E0 & E1 & E2 & E3 & _)].
  - split; [exact He |].
    split; [apply Hq; repeat split; quiet_prog |].
    split; [apply Hq, before_confirm_free_patch
           | apply Hq, before_confirm_free_obs].
  - exfalso.
    destruct (get_preset_ret _ _ _ _ _ _ E0) as (c' & ps' & Hc & Hp' & Hk').
    injection Hc as <-. rewrite Hp in Hp'. injection Hp' as <-.
    rewrite Hk in Hk'. injection Hk' as <-.
    pose proof (run_preset_prompts_tags _ _ _ _ _ E3) as H.
    cbv zeta in H. rewrite Ht in H. apply (H Htruthy Hjoin).
Qed.

(** ** The OBS block *)

Lemma run_preset_obs_run G c d o w :
  lookup "defaults" c = Some (VDict d) ->
  lookup "obs" d = Some (VDict o) ->
  (run_preset_obs G (VDict c) ;; print [Lit "✓ Go live complete"]) w =
  if match lookup "auto_start" o with Some v => truthy v | None => true end
  then (start_obs G ;; print [Lit "✓ Go live complete"]) w
  else (Ret tt, w, [Print [Lit "✓ Go live complete"]]).
Proof.
  intros Hd Ho.
  unfold run_preset_obs, bind, getitem, get, ret. rewrite Hd. cbn -[start_obs].
  rewrite Ho. cbn -[start_obs].
  destruct (lookup "auto_start" o) as [v |]; [destruct (truthy v) |];
    cbn -[start_obs]; try reflexivity;
    destruct (start_obs G w) as [[[[] | e] w'] t]; reflexivity.
Qed.

Lemma start_obs_contacts G w :
  1 <= count is_obs (trace_of ((start_obs G ;; print [Lit "✓ Go live complete"]) w))
  \/ outcome_of ((start_obs G ;; print [Lit "✓ Go live complete"]) w) =
     Raise (SystemExit 1).
Proof.
  unfold start_obs, die, bind, print, raise, ret, ReqClient, get_stream_status,
    start_stream, outcome_of, trace_of.
  destruct (truthy (OBS_PASSWORD G)); cbn; [| right; reflexivity].
  left.
  destruct (obs_endpoint w) as [[[h n] pw] |]; cbn; [| cbv; lia].
  destruct (OBS_PASSWORD G); cbn; try (cbv; lia).
  destruct ((h =? OBS_HOST G) && (n =? OBS_PORT G)%Z && (pw =? s)); cbn;
    [| cbv; lia].
  destruct (obs_active w); cbn; unfold count; cbn; lia.
Qed.

(** X9.  The start of OBS is governed by [defaults.obs.auto_start], which
    counts as true when it is not given: when it is false a run never
    contacts OBS; otherwise a run whose channel update was accepted goes on
    to [start_obs], which contacts OBS unless it exits for want of a
    password. *)
Theorem auto_start_gates_obs G c d o key w :
  lookup "defaults" c = Some (VDict d) ->
  lookup "obs" d = Some (VDict o) ->
  if match lookup "auto_start" o with Some v => truthy v | None => true end
  then forall rq r,
         In (Http rq r) (trace_of (run_preset G (VDict c) key w)) ->
         rq_method rq = PATCH -> failure_of r = None ->
         1 <= count is_obs (trace_of (run_preset G (VDict c) key w)) \/
         outcome_of (run_preset G (VDict c) key w) = Raise (SystemExit 1)
  else count is_obs (trace_of (run_preset G (VDict c) key w)) = 0.
Proof.
  intros Hd Ho.
  pose proof (run_preset_obs_run G c d o) as Hobs.
  set (auto := match lookup "auto_start" o with
               | Some v => truthy v | None => true end) in *.
  set (run := run_preset G (VDict c) key w).
  assert (Hno : count is_patch (trace_of run) = 0 ->
                count is_obs (trace_of run) = 0 ->
                if auto
                then forall rq r,
                       In (Http rq r) (trace_of run) ->
                       rq_method rq = PATCH -> failure_of r = None ->
                       1 <= count is_obs (trace_of run) \/
                       outcome_of run = Raise (SystemExit 1)
                else count is_obs (trace_of run) = 0).
  { intros Hp Hc. destruct auto; [| exact Hc].
    intros rq r Hin Hm _.
    assert (Hpatch : is_patch (Http rq r) = true)
      by (cbn; rewrite Hm; reflexivity).
    pose proof (count_In _ _ _ Hin Hpatch). lia. }
  destruct (run_preset_to_update G (VDict c) key w)
    as [(_ & Hq) | (preset & tokens & auth & entered & w1 & w2 & w3 & w4 & w5
                    & t0 & t1 & t2 & t3 & t4 & pre
                    & E0 & E1 & E2 & E3 & E4 & Hpre & Hq & R)].
  { apply Hno; apply Hq;
      [exact before_update_free_patch | exact before_update_free_obs]. }
  cbv zeta in R. fold run in R.
  pose proof (Hq _ before_update_free_obs) as Q0.
  pose proof (Hq _ before_update_free_patch) as Qp.
  pose proof (run_preset_update_run G preset (fst auth) (snd auth)
                (fst entered) (snd entered) w5) as U.
  set (ru := run_preset_update G preset (fst auth) (snd auth)
               (fst entered) (snd entered) w5) in *.
  rewrite (Hobs (world_of ru) Hd Ho) in R.
  pose proof (start_obs_contacts G (world_of ru)) as Hstart.
  set (r2 := (start_obs G ;; print [Lit "✓ Go live complete"]) (world_of ru)) in *.
  inversion U as [e' Hout Ht | name r' e' Hr Hout Ht | name r' Hr Hout Ht
                 | name r' g r3 Hf Hg Hout Ht];
    rewrite <- Hout, <- Ht in R; clear Hout Ht U.
  1-3: apply Hno; rewrite R; unfold trace_of; cbn [snd];
       rewrite count_app; [rewrite Qp | rewrite Q0]; reflexivity.
  clear Hno. unfold trace_of, outcome_of in *.
  destruct (failure_of r3) as [e3 |] eqn:Hf3; destruct auto; rewrite R;
    cbn [fst snd app].
  - intros rq r Hin Hm Hfail. exfalso.
    assert (Hpatch : is_patch (Http rq r) = true)
      by (cbn; rewrite Hm; reflexivity).
    apply (In_after_quiet is_patch) in Hin; [| exact Hpatch | exact Qp].
    destruct Hin as [Hin | [Hin | []]].
    + injection Hin as <- <-. discriminate.
    + injection Hin as <- <-. rewrite Hf3 in Hfail. discriminate.
  - rewrite count_app, Q0. reflexivity.
  - intros rq r _ _ _. destruct Hstart as [Hc | Ho'].
    + left. rewrite count_app.
      change (?a :: ?b :: ?c :: ?t) with ([a; b; c] ++ t).
      rewrite count_app. lia.
    + right. exact Ho'.
  - rewrite count_app, Q0. reflexivity.
Qed.

(** ** An account lookup without an account *)

(** An accepted account lookup whose [data] is empty ends the
    authentication block with IndexError. *)
Lemma run_preset_auth_empty_data G tokens w q st b t' :
  trace_of (run_preset_auth G tokens w) =
    Http q (Response st (Some (VDict b))) :: t' ->
  http_error st = false ->
  lookup "data" b = Some (VList []) ->
  outcome_of (run_preset_auth G tokens w) = Raise IndexError /\ t' = [].
Proof.
  unfold run_preset_auth, try_except, get_broadcaster_id, refresh_tokens,
    save_tokens, bind, getitem, getitem0, send, raise_for_status, json, raise,
    ret, outcome_of, trace_of.
  run_all.
  all: intros Ht Hst Hdata; inversion Ht; subst.
  all: try congruence.
  all: split; congruence.
Qed.

(** The authentication block starts with the account lookup, if it makes
    any request. *)
Lemma run_preset_auth_head G tokens w :
  trace_of (run_preset_auth G tokens w) = [] \/
  exists access r t',
    trace_of (run_preset_auth G tokens w) =
      Http (account_request G access) r :: t'.
Proof.
  destruct (run_preset_auth_run G tokens w) as (written & Hrun & _).
  inversion Hrun; subst; first [left; reflexivity | right; eauto].
Qed.

(** X10.  An account lookup that is accepted but names no account does
    not count as a rejection: when its [data] is empty the run ends there
    with IndexError, without a refresh and without a second lookup. *)
Theorem account_lookup_without_account G cfg key w st b :
  first_answer is_account_lookup (trace_of (run_preset G cfg key w)) =
    Some (Response st (Some (VDict b))) ->
  http_error st = false ->
  lookup "data" b = Some (VList []) ->
  outcome_of (run_preset G cfg key w) = Raise IndexError /\
  count is_refresh (trace_of (run_preset G cfg key w)) = 0 /\
  count is_account_lookup (trace_of (run_preset G cfg key w)) = 1 /\
  exists pre rq,
    trace_of (run_preset G cfg key w) =
      pre ++ [Http rq (Response st (Some (VDict b)))].
Proof.
  intros Hfirst Hst Hdata.
  destruct (run_preset_auth_actions G cfg key w)
    as [(_ & H1 & _) | (tokens & w2 & pre & post & H)].
  { unfold first_answer in Hfirst. rewrite H1 in Hfirst. discriminate. }
  cbv zeta in H.
  destruct H as (_ & Ht & P1 & P2 & Q1 & Q2 & _ & Hraise).
  assert (Hhead : exists q t',
            trace_of (run_preset_auth G tokens w2) =
              Http q (Response st (Some (VDict b))) :: t').
  { unfold first_answer in Hfirst.
    rewrite Ht, !filter_app, (filter_quiet _ _ P1), (filter_quiet _ _ Q1),
      app_nil_r in Hfirst.
    cbn [app] in Hfirst.
    destruct (run_preset_auth_head G tokens w2) as [E | (access & r & t' & E)];
      rewrite E in Hfirst |- *; [discriminate |].
    cbn in Hfirst. injection Hfirst as ->. eauto. }
  destruct Hhead as (q & t' & E).
  destruct (run_preset_auth_empty_data G tokens w2 q st b t' E Hst Hdata)
    as [Ho ->].
  destruct (Hraise _ Ho) as [Hrun ->].
  rewrite Ht, E, app_nil_r.
  split; [exact Hrun |].
  rewrite !count_app, P1, P2.
  assert (Hq : is_account_lookup (Http q (Response st (Some (VDict b)))) = true).
  { destruct (run_preset_auth_head G tokens w2) as [E' | (access & r & t'' & E')];
      rewrite E in E'; [discriminate |].
    injection E' as -> _. reflexivity. }
  assert (Hr : is_refresh (Http q (Response st (Some (VDict b)))) = false).
  { destruct (run_preset_auth_head G tokens w2) as [E' | (access & r & t'' & E')];
      rewrite E in E'; [discriminate |].
    injection E' as -> _. reflexivity. }
  unfold count. cbn [filter]. rewrite Hq, Hr.
  repeat split. exists pre, q. reflexivity.
Qed.

(** ** The scaffolding of the application directory *)

(** The runs of [bootstrap], by what exists before. *)
Ltac bootstrap_cases s :=
  destruct s as [[[[? |] [? |] [? |] [? |]] |] ? ? ?];
  unfold bootstrap, and_then, app_dir_exists, mkdir, path_exists, write_text,
    lift, print, raise, pure, installed, is_first_run, result_of, system_of,
    actions_of;
  cbn -[DEFAULT_CONFIG_EXAMPLE DEFAULT_ENV_EXAMPLE initialized].

(** X11.  [bootstrap] only fills in what is missing: a file that exists
    keeps its text, a missing [config.yaml] or [config.example.yaml] gets
    the embedded configuration and a missing [.env.example] the embedded
    environment; [.env] is never created.  Nothing else on the machine
    changes. *)
Theorem bootstrap_keeps_existing_files pf s f :
  installed f (system_of (bootstrap pf s)) =
    match installed f s with
    | Some content => Some content
    | None => scaffold f
    end /\
  os_environ (system_of (bootstrap pf s)) = os_environ s /\
  programs (system_of (bootstrap pf s)) = programs s /\
  base (system_of (bootstrap pf s)) = base s.
Proof.
  bootstrap_cases s; destruct f; repeat split; reflexivity.
Qed.

(** [bootstrap] ends the process exactly on the first run. *)
Lemma bootstrap_run pf s :
  bootstrap pf s =
  (if is_first_run s then Failed (Exn (SystemExit 0)) else Done tt,
   system_of (bootstrap pf s),
   if is_first_run s then [Did (Print (initialized pf))] else []).
Proof.
  bootstrap_cases s; reflexivity.
Qed.

(** X12.  After any run of [bootstrap], a second run finds nothing to do:
    it returns without output and changes nothing. *)
Theorem bootstrap_settles pf s :
  bootstrap pf (system_of (bootstrap pf s)) =
  (Done tt, system_of (bootstrap pf s), []).
Proof.
  bootstrap_cases s; reflexivity.
Qed.

(** ** The dispatcher *)

Lemma and_then_Done {A B} (m : Proc A) (f : A -> Proc B) s a s1 t1 :
  m s = (Done a, s1, t1) ->
  and_then m f s =
  (result_of (f a s1), system_of (f a s1), t1 ++ actions_of (f a s1)).
Proof.
  intros H. unfold and_then. rewrite H.
  destruct (f a s1) as [[o s2] t2]. reflexivity.
Qed.

Lemma and_then_Failed {A B} (m : Proc A) (f : A -> Proc B) s e s1 t1 :
  m s = (Failed e, s1, t1) -> and_then m f s = (Failed e, s1, t1).
Proof. intros H. unfold and_then. rewrite H. reflexivity. Qed.

Lemma events_Did t : events (map Did t) = t.
Proof.
  induction t as [| e t IH]; [reflexivity |].
  cbn. f_equal. exact IH.
Qed.

Lemma launches_Did t : launches (map Did t) = [].
Proof. induction t as [| e t IH]; [reflexivity | exact IH]. Qed.

Lemma lift_run {A} (m : M A) s :
  events (actions_of (lift m s)) = trace_of (m (base s)) /\
  launches (actions_of (lift m s)) = [] /\
  system_of (lift m s) = set_base (world_of (m (base s))) s.
Proof.
  unfold lift, actions_of, system_of, trace_of, world_of.
  destruct (m (base s)) as [[[a | e] w] t]; cbn [fst snd];
    rewrite events_Did, launches_Did; repeat split.
Qed.

Lemma set_base_same s : set_base (base s) s = s.
Proof. destruct s; reflexivity. Qed.

(** [load_config] reads and parses; it changes nothing and does nothing
    else. *)
Lemma load_config_run pf s :
  load_config pf s =
  (match installed CONFIG_FILE s with
   | Some content =>
       match safe_load pf content with
       | Some cfg => Done cfg
       | None => Failed YAMLError
       end
   | None => Failed FileNotFoundError
   end, s, []).
Proof.
  unfold load_config, and_then, read_text, installed, pure, throw.
  destruct (app_dir s) as [d |]; [| reflexivity].
  destruct (file_text CONFIG_FILE d) as [content |]; [| reflexivity].
  destruct (safe_load pf content); reflexivity.
Qed.

(** X13.  Every command needs a configuration that loads: when
    [config.yaml] is missing or is not valid YAML, [main] raises the error
    of the loading and does nothing else, whatever the command, [edit]
    included. *)
Theorem main_requires_config pf G args s :
  match installed CONFIG_FILE s with
  | Some content => safe_load pf content = None
  | None => True
  end ->
  main pf G args s =
  (Failed (match installed CONFIG_FILE s with
           | Some _ => YAMLError
           | None => FileNotFoundError
           end), s, []).
Proof.
  intros H. unfold main.
  apply and_then_Failed. rewrite load_config_run.
  destruct (installed CONFIG_FILE s) as [content |]; [| reflexivity].
  rewrite H. reflexivity.
Qed.

Lemma chooses_editor pf s editor :
  chooses pf s editor <->
  editor =
  or_else (lookup "EDITOR" (os_environ s))
    (or_else (lookup "VISUAL" (os_environ s))
       (if os_name pf =? "nt" then "notepad.exe" else "vi")).
Proof.
  unfold unset, or_else. split.
  - intros [e He Hne | e Hu Hv Hne | Hu Hv].
    + rewrite He. apply String.eqb_neq in Hne. rewrite Hne. reflexivity.
    + rewrite Hv. apply String.eqb_neq in Hne. rewrite Hne.
      destruct Hu as [-> | ->]; reflexivity.
    + destruct Hu as [-> | ->]; destruct Hv as [-> | ->]; reflexivity.
  - intros ->.
    destruct (lookup "EDITOR" (os_environ s)) as [e |] eqn:He.
    + destruct (e =? "") eqn:Hne.
      * apply String.eqb_eq in Hne. subst e.
        destruct (lookup "VISUAL" (os_environ s)) as [v |] eqn:Hv.
        -- destruct (v =? "") eqn:Hnv.
           ++ apply String.eqb_eq in Hnv. subst v.
              apply ChoosesDefault; unfold unset; tauto.
           ++ apply String.eqb_neq in Hnv.
              apply ChoosesVisual; unfold unset; tauto.
        -- apply ChoosesDefault; unfold unset; tauto.
      * apply String.eqb_neq in Hne. apply ChoosesEditor; assumption.
    + destruct (lookup "VISUAL" (os_environ s)) as [v |] eqn:Hv.
      * destruct (v =? "") eqn:Hnv.
        -- apply String.eqb_eq in Hnv. subst v.
           apply ChoosesDefault; unfold unset; tauto.
        -- apply String.eqb_neq in Hnv.
           apply ChoosesVisual; unfold unset; tauto.
      * apply ChoosesDefault; unfold unset; tauto.
Qed.

(** An editor session changes the file it was opened on and nothing
    else. *)
Lemma edited_frame pf editor f s :
  os_environ (edited pf editor f s) = os_environ s /\
  programs (edited pf editor f s) = programs s /\
  base (edited pf editor f s) = base s /\
  (forall g, g <> f ->
     installed g (edited pf editor f s) = installed g s).
Proof.
  unfold edited, installed. destruct s as [[d |] env progs w]; cbn;
    [| repeat split; reflexivity].
  destruct (saves pf editor f (file_text f d)) as [content |]; cbn;
    [| repeat split; reflexivity].
  repeat split. intros g Hg.
  destruct g, f; try reflexivity; contradiction.
Qed.

Lemma open_editor_run pf f s editor :
  chooses pf s editor ->
  open_editor pf f s =
  if existsb (String.eqb editor) (programs s)
  then (Done tt, edited pf editor f s, [Run [editor; str_path pf f]])
  else (Failed FileNotFoundError, s, []).
Proof.
  intros H. apply chooses_editor in H.
  unfold open_editor, subprocess_run. cbv zeta. rewrite <- H. reflexivity.
Qed.

Lemma chooses_edited pf editor e f s :
  chooses pf s e -> chooses pf (edited pf editor f s) e.
Proof.
  intros H. apply chooses_editor in H. apply chooses_editor.
  destruct (edited_frame pf editor f s) as (-> & _). exact H.
Qed.

(** X14.  [edit_command] opens the files of its target, one editor after
    the other, each with the editor chosen from [EDITOR], then [VISUAL],
    then the default of the platform, an empty value counting as unset;
    each session leaves in its file what the user saved.  For a target it
    does not know it starts no editor and exits with status 1 after the
    usage line.  When the editor is not a program of the machine, the
    first start fails and nothing is opened.  Whatever is saved, only the
    files of the target can change: the other files, the environment, the
    programs and the world of [run_preset] stay as they are. *)
Theorem edit_command_opens_targets pf s arg editor :
  chooses pf s editor ->
  edit_command pf arg s =
  match edit_targets arg with
  | None =>
      (Failed (Exn (SystemExit 1)), s, [Did (Print (Lit "ERROR: " :: edit_usage))])
  | Some files =>
      if existsb (String.eqb editor) (programs s)
      then (Done tt, fold_left (fun s1 f => edited pf editor f s1) files s,
            map (fun f => Run [editor; str_path pf f]) files)
      else (Failed FileNotFoundError, s, [])
  end /\
  os_environ (system_of (edit_command pf arg s)) = os_environ s /\
  programs (system_of (edit_command pf arg s)) = programs s /\
  base (system_of (edit_command pf arg s)) = base s /\
  (forall g,
     match edit_targets arg with
     | Some files => ~ In g files
     | None => True
     end ->
     installed g (system_of (edit_command pf arg s)) = installed g s).
Proof.
  intros H.
  assert (Hrun :
    edit_command pf arg s =
    match edit_targets arg with
    | None =>
        (Failed (Exn (SystemExit 1)), s,
         [Did (Print (Lit "ERROR: " :: edit_usage))])
    | Some files =>
        if existsb (String.eqb editor) (programs s)
        then (Done tt, fold_left (fun s1 f => edited pf editor f s1) files s,
              map (fun f => Run [editor; str_path pf f]) files)
        else (Failed FileNotFoundError, s, [])
    end).
  { unfold edit_command, edit_targets.
    destruct arg as [a |]; [| apply (open_editor_run pf _ s editor H)].
    destruct (a =? "config"); [apply (open_editor_run pf _ s editor H) |].
    destruct (a =? "env"); [apply (open_editor_run pf _ s editor H) |].
    destruct (a =? "examples").
    - unfold and_then. rewrite (open_editor_run pf CONFIG_EXAMPLE s editor H).
      pose proof (open_editor_run pf ENV_EXAMPLE _ editor
                    (chooses_edited pf editor editor CONFIG_EXAMPLE s H)) as H2.
      destruct (edited_frame pf editor CONFIG_EXAMPLE s) as (_ & Hp & _).
      rewrite Hp in H2.
      destruct (existsb _ _); [rewrite H2 |]; reflexivity.
    - unfold lift, die, bind, print, raise. cbn. rewrite set_base_same.
      reflexivity. }
  split; [exact Hrun |].
  rewrite Hrun. clear Hrun.
  destruct (edit_targets arg) as [files |];
    [| repeat split; reflexivity].
  destruct (existsb _ _); [| repeat split; reflexivity].
  unfold system_of. cbn [fst snd].
  clear H. revert s. induction files as [| f files IH]; intros s;
    [repeat split; reflexivity |].
  cbn [fold_left].
  destruct (IH (edited pf editor f s)) as (I1 & I2 & I3 & I4).
  destruct (edited_frame pf editor f s) as (E1 & E2 & E3 & E4).
  rewrite I1, I2, I3, E1, E2, E3. repeat split.
  intros g Hg. rewrite I4.
  - apply E4. intros ->. apply Hg. left. reflexivity.
  - intros Hin. apply Hg. right. exact Hin.
Qed.

Lemma offline_lift {A} (m : M A) :
  quiet is_network m -> quiet is_input m -> keeps_file m -> offline (lift m).
Proof.
  intros Hn Hi Hk s. destruct (lift_run m s) as (He & _ & Hs).
  rewrite He, Hs. repeat split; [apply Hn | apply Hi | apply Hk].
Qed.

Lemma offline_and_then {A B} (m : Proc A) (f : A -> Proc B) :
  offline m -> (forall a, offline (f a)) -> offline (and_then m f).
Proof.
  intros Hm Hf s. unfold and_then. specialize (Hm s).
  destruct (m s) as [[[a | e] s1] t1]; [| exact Hm].
  specialize (Hf a s1). destruct (f a s1) as [[o s2] t2].
  unfold actions_of, system_of in *. cbn [fst snd] in *.
  unfold events in *. rewrite flat_map_app, !count_app.
  destruct Hm as (H1 & H2 & H3), Hf as (H4 & H5 & H6).
  repeat split; [lia | lia | congruence].
Qed.

Lemma offline_open_editor pf f : offline (open_editor pf f).
Proof.
  intros s. unfold open_editor, subprocess_run. cbv zeta.
  destruct (existsb _ _); repeat split; try reflexivity.
  unfold system_of. cbn [fst snd].
  match goal with
  | |- context [edited pf ?e f s] =>
      destruct (edited_frame pf e f s) as (_ & _ & -> & _)
  end.
  reflexivity.
Qed.

Lemma offline_load_config pf : offline (load_config pf).
Proof. intros s. rewrite load_config_run. repeat split; reflexivity. Qed.

Lemma quiet_stop_stream p : p ObsStopStream = false -> quiet p stop_stream.
Proof. intros H w. unfold stop_stream, count. cbn. rewrite H. reflexivity. Qed.

Lemma keeps_stop_stream : keeps_file stop_stream.
Proof. intros w. reflexivity. Qed.

Lemma stop_obs_quiet p G :
  (forall t, p (Print t) = false) -> (forall e, is_obs e = true -> p e = false) ->
  quiet p (stop_obs G).
Proof.
  intros Hp Ho. unfold stop_obs.
  repeat first
    [ apply quiet_print; apply Hp
    | apply quiet_die; apply Hp
    | apply quiet_ReqClient; intros ?; apply Ho; reflexivity
    | apply quiet_get_stream_status; intros ?; apply Ho; reflexivity
    | apply quiet_stop_stream; apply Ho; reflexivity
    | quiet_step ].
Qed.

Lemma stop_obs_keeps G : keeps_file (stop_obs G).
Proof.
  unfold stop_obs.
  repeat first [apply keeps_stop_stream | keeps_step].
Qed.

Lemma quiet_str_strip p v : quiet p (str_strip v).
Proof. intros w. destruct v; reflexivity. Qed.

Lemma keeps_str_strip v : keeps_file (str_strip v).
Proof. intros w. destruct v; reflexivity. Qed.

Lemma print_intro_of_quiet p cfg r i a :
  (forall t, p (Print t) = false) -> quiet p (print_intro_of cfg r i a).
Proof.
  intros Hp. unfold print_intro_of.
  repeat first
    [ apply quiet_print; apply Hp
    | apply quiet_str_strip
    | quiet_step ].
Qed.

Lemma print_intro_of_keeps cfg r i a : keeps_file (print_intro_of cfg r i a).
Proof.
  unfold print_intro_of.
  repeat first [apply keeps_str_strip | keeps_step].
Qed.

(** X15.  The names [edit], [stop] and [intro] always mean the commands:
    with one of them as first argument [main] makes no request, reads no
    line and leaves the token file alone, whatever the configuration, a
    preset of that name included. *)
Theorem reserved_commands_shadow_presets pf G cmd rest s :
  In cmd reserved ->
  count is_network (events (actions_of (main pf G (cmd :: rest) s))) = 0 /\
  count is_input (events (actions_of (main pf G (cmd :: rest) s))) = 0 /\
  token_file (base (system_of (main pf G (cmd :: rest) s))) =
    token_file (base s).
Proof.
  intros Hin. revert s. change (offline (main pf G (cmd :: rest))).
  unfold main. apply offline_and_then; [apply offline_load_config |].
  intros cfg. destruct Hin as [<- | [<- | [<- | []]]]; cbn [String.eqb Ascii.eqb Bool.eqb].
  - unfold edit_command.
    destruct rest as [| a _].
    + apply offline_open_editor.
    + destruct (a =? "config"); [apply offline_open_editor |].
      destruct (a =? "env"); [apply offline_open_editor |].
      destruct (a =? "examples").
      * apply offline_and_then; intros; apply offline_open_editor.
      * apply offline_lift; [quiet_tac | quiet_tac | repeat keeps_step].
  - apply offline_lift;
      [apply stop_obs_quiet | apply stop_obs_quiet | apply stop_obs_keeps];
      try reflexivity; intros [] H; try discriminate; reflexivity.
  - unfold print_intro_info.
    apply offline_and_then; [apply offline_load_config |].
    intros cfg'. apply offline_lift;
      [apply print_intro_of_quiet | apply print_intro_of_quiet
      | apply print_intro_of_keeps]; reflexivity.
Qed.

Lemma not_reserved cmd :
  ~ In cmd reserved ->
  (cmd =? "edit") = false /\ (cmd =? "stop") = false /\ (cmd =? "intro") = false.
Proof.
  intros H. repeat split; apply String.eqb_neq; intros ->; apply H; cbn; tauto.
Qed.

(** X16.  For a first argument that is not a command, [main] runs the
    preset of that name when the configuration has one, and then
    [get_preset] finds it: the run is never ended by [Unknown preset].
    In every other case [main] does nothing on the machine: it exits with
    status 1 after [Unknown command or preset], or raises the error of a
    configuration without a usable [presets] section. *)
Theorem main_runs_the_presets_it_finds pf G cmd rest s content cfg :
  installed CONFIG_FILE s = Some content ->
  safe_load pf content = Some cfg ->
  ~ In cmd reserved ->
  (exists c ps preset,
     cfg = VDict c /\ lookup "presets" c = Some (VDict ps) /\
     lookup cmd ps = Some preset /\
     get_preset cfg cmd (base s) = (Ret preset, base s, []) /\
     main pf G (cmd :: rest) s = lift (run_preset G cfg cmd) s) \/
  (exists e,
     main pf G (cmd :: rest) s =
     (Failed (Exn e), s,
      match e with
      | SystemExit _ => [Did (Print (Lit "ERROR: " :: unknown_command cmd))]
      | _ => []
      end) /\
     (e = SystemExit 1 \/ e = TypeError \/ e = KeyError (VStr "presets"))).
Proof.
  intros Hfile Hload Hcmd.
  destruct (not_reserved cmd Hcmd) as (E1 & E2 & E3).
  assert (Hcfg : load_config pf s = (Done cfg, s, []))
    by (rewrite load_config_run, Hfile, Hload; reflexivity).
  unfold main. rewrite (and_then_Done _ _ _ _ _ _ Hcfg).
  rewrite E1, E2, E3. cbn [app].
  unfold and_then, lift, bind, getitem, contains, die, print, raise, ret.
  destruct cfg as [| | | | | c];
    try (right; exists TypeError; cbn; rewrite set_base_same; split;
         [reflexivity | tauto]).
  destruct (lookup "presets" c) as [[| b | n | t | l | ps] |] eqn:Hp; cbn;
    try (right; exists TypeError; cbn; rewrite set_base_same; split;
         [reflexivity | tauto]).
  - (* presets is a str *)
    right. rewrite set_base_same. destruct (occurs cmd t).
    + exists TypeError. unfold run_preset, get_preset, try_except, bind, getitem,
        raise, ret. rewrite Hp. cbn. rewrite set_base_same.
      split; [reflexivity | tauto].
    + exists (SystemExit 1). cbn. rewrite set_base_same.
      split; [reflexivity | tauto].
  - (* presets is a list *)
    right. rewrite set_base_same. destruct (existsb _ l).
    + exists TypeError. unfold run_preset, get_preset, try_except, bind, getitem,
        raise, ret. rewrite Hp. cbn. rewrite set_base_same.
      split; [reflexivity | tauto].
    + exists (SystemExit 1). cbn. rewrite set_base_same.
      split; [reflexivity | tauto].
  - (* presets is a dict *)
    rewrite set_base_same. destruct (lookup cmd ps) as [preset |] eqn:Hk; cbn.
    + left. exists c, ps, preset. repeat split; try assumption.
      * unfold get_preset, try_except, bind, getitem, ret. rewrite Hp. cbn.
        rewrite Hk. reflexivity.
      * destruct (run_preset G (VDict c) cmd (base s)) as [[[a | e] w] t];
          reflexivity.
    + right. exists (SystemExit 1). rewrite set_base_same.
      split; [reflexivity | tauto].
  - (* no presets *)
    right. exists (KeyError (VStr "presets")). rewrite set_base_same.
    split; [reflexivity | tauto].
Qed.

(** ** The intro command *)

Lemma print_intro_of_flags cfg r i a w :
  print_intro_of cfg r i a w =
  print_intro_of cfg r (negb r && i) (negb r && negb i && a) w.
Proof.
  unfold print_intro_of, bind, get, str_strip, ret, raise.
  destruct r, i, a; reflexivity.
Qed.

(** X17.  The flags of [intro] are looked for anywhere after the command,
    and [--rig-only] wins over [--intro-only], which wins over
    [--about-only]: with several of them, and whatever else is on the
    command line, the command behaves as with the winning flag alone. *)
Theorem intro_flag_priority pf G rest s :
  main pf G ("intro" :: rest) s =
  main pf G ("intro" ::
             if mem "--rig-only" rest then ["--rig-only"]
             else if mem "--intro-only" rest then ["--intro-only"]
             else if mem "--about-only" rest then ["--about-only"]
             else []) s.
Proof.
  unfold main, and_then.
  destruct (load_config pf s) as [[[cfg | e] s1] t1]; [| reflexivity].
  cbn [String.eqb Ascii.eqb Bool.eqb].
  unfold print_intro_info, and_then.
  destruct (load_config pf s1) as [[[cfg' | e'] s2] t2];
    [| destruct (mem "--rig-only" rest), (mem "--intro-only" rest),
         (mem "--about-only" rest); reflexivity].
  assert (Hlift : forall r i a,
            lift (print_intro_of cfg' r i a) s2 =
            lift (print_intro_of cfg' r (negb r && i) (negb r && negb i && a)) s2).
  { intros r i a. unfold lift. rewrite <- print_intro_of_flags. reflexivity. }
  assert (Hmem : forall f, mem f ("intro" :: rest) = (f =? "intro") || mem f rest)
    by reflexivity.
  rewrite !Hmem. cbn [String.eqb Ascii.eqb Bool.eqb orb].
  rewrite Hlift.
  destruct (mem "--rig-only" rest), (mem "--intro-only" rest),
    (mem "--about-only" rest); reflexivity.
Qed.

Lemma concat_not_empty sep0 s l : s <> "" -> String.concat sep0 (s :: l) <> "".
Proof.
  intros Hs. destruct s as [| ch s]; [contradiction |].
  destruct l; cbn; discriminate.
Qed.

(** The body of the intro command prints one text that is not empty, or
    raises AttributeError without printing. *)
Lemma print_intro_of_one_text cfg r i a w :
  (exists t, t <> "" /\
     print_intro_of cfg r i a w = (Ret tt, w, [Print [Lit t]])) \/
  print_intro_of cfg r i a w = (Raise AttributeError, w, []).
Proof.
  unfold print_intro_of, bind, get, str_strip, print, ret, raise, no_rig,
    no_intro, no_about, no_info.
  destruct cfg as [| | | | | c]; try (right; reflexivity).
  cbn -[strip String.eqb String.concat].
  destruct (match lookup "defaults" c with Some x => x | None => VDict [] end)
    as [| | | | | d]; try (right; reflexivity).
  cbn -[strip String.eqb String.concat].
  destruct (match lookup "intro" d with Some x => x | None => VStr "" end)
    as [| | | it | |]; try (right; reflexivity).
  cbn -[strip String.eqb String.concat].
  destruct (match lookup "rig" d with Some x => x | None => VStr "" end)
    as [| | | rt | |]; try (right; reflexivity).
  cbn -[strip String.eqb String.concat].
  destruct (match lookup "about" d with Some x => x | None => VStr "" end)
    as [| | | abt | |]; try (right; reflexivity).
  cbn -[strip String.eqb String.concat].
  left.
  destruct (strip it =? "") eqn:Hi, (strip rt =? "") eqn:Hr,
    (strip abt =? "") eqn:Ha;
    try apply String.eqb_neq in Hi; try apply String.eqb_neq in Hr;
    try apply String.eqb_neq in Ha;
    destruct r, i, a; cbn -[strip String.concat];
    eexists; (split; [| reflexivity]);
    first [discriminate | assumption | apply concat_not_empty; assumption].
Qed.

(** X18.  On a configuration that is loaded, the intro command prints
    exactly one text, which is never empty: the section asked for, the
    sections that are not blank separated by an empty line, or the hint
    that nothing is configured.  The only way it fails is AttributeError,
    for a configuration whose [defaults] or one of whose sections is of the
    wrong type, and then it has printed nothing. *)
Theorem intro_prints_one_text pf s content cfg r i a :
  installed CONFIG_FILE s = Some content ->
  safe_load pf content = Some cfg ->
  (exists t, t <> "" /\
     print_intro_info pf r i a s = (Done tt, s, [Did (Print [Lit t])])) \/
  print_intro_info pf r i a s = (Failed (Exn AttributeError), s, []).
Proof.
  intros Hfile Hload.
  assert (Hcfg : load_config pf s = (Done cfg, s, []))
    by (rewrite load_config_run, Hfile, Hload; reflexivity).
  unfold print_intro_info. rewrite (and_then_Done _ _ _ _ _ _ Hcfg).
  unfold lift, result_of, system_of, actions_of.
  destruct (print_intro_of_one_text cfg r i a (base s)) as [(t & Ht & E) | E];
    rewrite E; cbn [fst snd map app]; rewrite set_base_same.
  - left. exists t. split; [exact Ht | reflexivity].
  - right. reflexivity.
Qed.

(** ** The usage *)

Lemma for_each_usage_lines ps names w :
  map (fun item => preset_name (snd item)) ps = map Some names ->
  for_each ps usage_line w =
  (Ret tt, w,
   map (fun kn => usage_entry (fst kn) (snd kn)) (combine (map fst ps) names)).
Proof.
  revert names. induction ps as [| [key preset] ps IH]; intros names Hn.
  - reflexivity.
  - destruct names as [| name names]; [discriminate |].
    cbn [map fst snd] in Hn. injection Hn as Hname Hrest.
    cbn [for_each map combine fst snd].
    unfold bind at 1. unfold usage_line at 1.
    unfold preset_name in Hname.
    destruct preset as [| | | | | p]; try discriminate.
    destruct (lookup "game" p) as [[| | | | | g] |] eqn:Hg; try discriminate.
    unfold bind, getitem, print, ret. cbn [snd fst]. rewrite Hg, Hname.
    rewrite (IH names Hrest). reflexivity.
Qed.

(** X19.  Without arguments [main] prints the usage and then one line per
    preset, in the order of the configuration, each with the key of the
    preset padded to ten characters and the name of its game; it does
    nothing else. *)
Theorem usage_lists_presets pf G s content c ps names :
  installed CONFIG_FILE s = Some content ->
  safe_load pf content = Some (VDict c) ->
  lookup "presets" c = Some (VDict ps) ->
  map (fun item => preset_name (snd item)) ps = map Some names ->
  main pf G [] s =
  (Done tt, s,
   map Did (Print [Lit usage] ::
            map (fun kn => usage_entry (fst kn) (snd kn))
                (combine (map fst ps) names))).
Proof.
  intros Hfile Hload Hp Hn.
  assert (Hcfg : load_config pf s = (Done (VDict c), s, []))
    by (rewrite load_config_run, Hfile, Hload; reflexivity).
  unfold main. rewrite (and_then_Done _ _ _ _ _ _ Hcfg).
  unfold lift, print_usage, bind, print, getitem, items, ret.
  cbn [fst snd]. rewrite Hp. cbn [fst snd].
  rewrite (for_each_usage_lines ps names _ Hn). cbn.
  rewrite set_base_same. reflexivity.
Qed.

Lemma for_each_app {A} (l1 l2 : list A) body w t1 w1 :
  for_each l1 body w = (Ret tt, w1, t1) ->
  for_each (l1 ++ l2) body w =
  (outcome_of (for_each l2 body w1), world_of (for_each l2 body w1),
   t1 ++ trace_of (for_each l2 body w1)).
Proof.
  revert w t1 w1. induction l1 as [| x l1 IH]; intros w t1 w1 H.
  - cbn in H. injection H as <- <-.
    cbn [app for_each]. destruct (for_each l2 body w) as [[o w2] t2].
    reflexivity.
  - cbn [app for_each] in H |- *. unfold bind in H |- *.
    destruct (body x w) as [[[[] | e] wx] tx]; [| discriminate].
    destruct (for_each l1 body wx) as [[[[] | e] wy] ty] eqn:E;
      [| discriminate].
    injection H as <- <-.
    rewrite (IH _ _ _ E).
    destruct (for_each l2 body wy) as [[o w2] t2].
    unfold outcome_of, world_of, trace_of. cbn [fst snd].
    rewrite app_assoc. reflexivity.
Qed.

Lemma usage_line_unnamed key preset w :
  preset_name preset = None ->
  exists e,
    usage_line (key, preset) w = (Raise e, w, []) /\
    (e = TypeError \/ exists k, e = KeyError (VStr k)).
Proof.
  unfold preset_name, usage_line, bind, getitem, print, raise, ret.
  cbn [fst snd].
  destruct preset as [| | | | | p];
    try (intros _; exists TypeError; split; [reflexivity | tauto]).
  destruct (lookup "game" p) as [[| | | | | g] |];
    try (intros _; exists TypeError; split; [reflexivity | tauto]).
  - intros H. rewrite H. exists (KeyError (VStr "name")).
    split; [reflexivity | eauto].
  - intros _. exists (KeyError (VStr "game")). split; [reflexivity | eauto].
Qed.

(** X20.  The list of presets stops at the first preset that has no
    [game.name]: the usage and the lines of the presets before it are
    printed, then [main] raises the KeyError or TypeError of the lookup,
    and the presets after it are not listed. *)
Theorem usage_stops_at_unnamed_preset pf G s content c named names key preset
    others :
  installed CONFIG_FILE s = Some content ->
  safe_load pf content = Some (VDict c) ->
  lookup "presets" c = Some (VDict (named ++ (key, preset) :: others)) ->
  map (fun item => preset_name (snd item)) named = map Some names ->
  preset_name preset = None ->
  exists e,
    main pf G [] s =
    (Failed (Exn e), s,
     map Did (Print [Lit usage] ::
              map (fun kn => usage_entry (fst kn) (snd kn))
                  (combine (map fst named) names))) /\
    (e = TypeError \/ exists k, e = KeyError (VStr k)).
Proof.
  intros Hfile Hload Hp Hn Hbad.
  assert (Hcfg : load_config pf s = (Done (VDict c), s, []))
    by (rewrite load_config_run, Hfile, Hload; reflexivity).
  destruct (usage_line_unnamed key preset (base s) Hbad) as (e & He & Hkind).
  exists e. split; [| exact Hkind].
  assert (Hlist : for_each (named ++ (key, preset) :: others) usage_line (base s) =
                  (Raise e, base s,
                   map (fun kn => usage_entry (fst kn) (snd kn))
                       (combine (map fst named) names))).
  { rewrite (for_each_app named ((key, preset) :: others) usage_line _ _ _
               (for_each_usage_lines named names _ Hn)).
    cbn [for_each]. rewrite (bind_Raise _ _ _ _ _ _ He).
    unfold outcome_of, world_of, trace_of. cbn [fst snd].
    rewrite app_nil_r. reflexivity. }
  unfold main. rewrite (and_then_Done _ _ _ _ _ _ Hcfg).
  unfold lift, print_usage.
  rewrite (bind_Ret (print [Lit usage]) _ (base s) tt (base s)
             [Print [Lit usage]] eq_refl).
  assert (Hrest : (presets <- getitem (VDict c) "presets" ;;
                   entries <- items presets ;;
                   for_each entries usage_line) (base s) =
                  (Raise e, base s,
                   map (fun kn => usage_entry (fst kn) (snd kn))
                       (combine (map fst named) names))).
  { unfold bind, getitem, items, ret. rewrite Hp. cbv beta iota.
    rewrite Hlist. reflexivity. }
  rewrite Hrest.
  unfold outcome_of, world_of, trace_of. cbn [fst snd app map].
  rewrite set_base_same. reflexivity.
Qed.

(** ** The command as a whole *)

(** X21.  On the first run, when the application directory or
    [config.yaml] is missing, the command only scaffolds the directory:
    whatever its arguments, it prints the message of the first run and
    exits with status 0, before the credentials are looked at and before
    any configuration is loaded.  On every other run the scaffolding is
    silent and the command goes on. *)
Theorem first_run_only_scaffolds pf args s :
  (is_first_run s = true ->
   twitch_go pf args s =
   (Failed (Exn (SystemExit 0)), system_of (bootstrap pf s),
    [Did (Print (initialized pf))])) /\
  (is_first_run s = false ->
   bootstrap pf s = (Done tt, system_of (bootstrap pf s), [])).
Proof.
  split; intros H.
  - unfold twitch_go, startup.
    do 2 apply and_then_Failed. rewrite bootstrap_run, H. reflexivity.
  - rewrite bootstrap_run at 1. rewrite H. reflexivity.
Qed.

(** The module-level code after [bootstrap], on a machine that is set up:
    [.env] is loaded or the warning printed, then the credentials are
    read. *)
Lemma startup_run pf s :
  is_first_run s = false ->
  startup pf s =
  let s1 := set_os_environ (environment pf s) (system_of (bootstrap pf s)) in
  let warning :=
    if is_some (installed ENV_FILE s) then [] else [Did (Print env_warning)] in
  let r := lift (load_environment (environment pf s)) s1 in
  (result_of r, system_of r, warning ++ actions_of r).
Proof.
  bootstrap_cases s; try discriminate; intros _;
    unfold startup, and_then, bootstrap, app_dir_exists, mkdir, path_exists,
      write_text, load_dotenv, lift, print, pure, environment, installed,
      set_os_environ, system_of, result_of, actions_of;
    cbn -[DEFAULT_CONFIG_EXAMPLE DEFAULT_ENV_EXAMPLE load_environment];
    match goal with
    | |- context [load_environment ?e ?w] =>
        destruct (load_environment e w) as [[[G | ex] w'] t]
    end; reflexivity.
Qed.

(** X22.  No command runs before the three Twitch credentials are in the
    environment, [edit] included: on a machine that is set up, when one of
    them is neither in [os.environ] nor in [.env], the command exits with
    status 1 after naming a missing variable, and it starts no editor,
    makes no request and does not contact OBS. *)
Theorem credentials_before_any_command pf args s :
  is_first_run s = false ->
  lookup "TWITCH_CLIENT_ID" (environment pf s) = None \/
  lookup "TWITCH_CLIENT_SECRET" (environment pf s) = None \/
  lookup "TWITCH_REDIRECT_URI" (environment pf s) = None ->
  exists k,
    lookup k (environment pf s) = None /\
    result_of (twitch_go pf args s) = Failed (Exn (SystemExit 1)) /\
    launches (actions_of (twitch_go pf args s)) = [] /\
    events (actions_of (twitch_go pf args s)) =
      (if is_some (installed ENV_FILE s) then [] else [Print env_warning])
      ++ [Print [Lit "ERROR: "; Lit "Missing required environment variable: ";
                 Repr (VStr k)]].
Proof.
  intros Hrun Hmissing.
  assert (Hload : exists k,
            lookup k (environment pf s) = None /\
            forall w, load_environment (environment pf s) w =
                      (Raise (SystemExit 1), w,
                       [Print [Lit "ERROR: ";
                               Lit "Missing required environment variable: ";
                               Repr (VStr k)]])).
  { unfold load_environment, try_except, bind, environ_getitem, die, print,
      raise, ret.
    destruct (lookup "TWITCH_CLIENT_ID" (environment pf s)) eqn:H1;
      [| exists "TWITCH_CLIENT_ID"; split; [exact H1 | reflexivity]].
    destruct (lookup "TWITCH_CLIENT_SECRET" (environment pf s)) eqn:H2;
      [| exists "TWITCH_CLIENT_SECRET"; split; [exact H2 | reflexivity]].
    destruct (lookup "TWITCH_REDIRECT_URI" (environment pf s)) eqn:H3;
      [| exists "TWITCH_REDIRECT_URI"; split; [exact H3 | reflexivity]].
    destruct Hmissing as [H | [H | H]]; discriminate. }
  destruct Hload as (k & Hk & Hload). exists k. split; [exact Hk |].
  unfold twitch_go.
  assert (Hs : startup pf s =
               (Failed (Exn (SystemExit 1)),
                set_os_environ (environment pf s) (system_of (bootstrap pf s)),
                (if is_some (installed ENV_FILE s) then []
                 else [Did (Print env_warning)])
                ++ [Did (Print [Lit "ERROR: ";
                                Lit "Missing required environment variable: ";
                                Repr (VStr k)])])).
  { rewrite (startup_run pf s Hrun). cbv zeta. unfold lift.
    rewrite Hload. unfold result_of, system_of, actions_of. cbn [fst snd map].
    rewrite set_base_same. reflexivity. }
  rewrite (and_then_Failed _ _ _ _ _ _ Hs).
  unfold result_of, actions_of. cbn [fst snd].
  split; [reflexivity |].
  destruct (is_some (installed ENV_FILE s)); split; reflexivity.
Qed.

Lemma events_app t1 t2 : events (t1 ++ t2) = events t1 ++ events t2.
Proof. apply flat_map_app. Qed.

Lemma launches_app t1 t2 : launches (t1 ++ t2) = launches t1 ++ launches t2.
Proof. apply flat_map_app. Qed.

Lemma main_preset pf G cmd rest s content c ps preset :
  installed CONFIG_FILE s = Some content ->
  safe_load pf content = Some (VDict c) ->
  lookup "presets" c = Some (VDict ps) ->
  lookup cmd ps = Some preset ->
  ~ In cmd reserved ->
  main pf G (cmd :: rest) s = lift (run_preset G (VDict c) cmd) s.
Proof.
  intros Hfile Hload Hp Hk Hcmd.
  destruct (not_reserved cmd Hcmd) as (E1 & E2 & E3).
  assert (Hcfg : load_config pf s = (Done (VDict c), s, []))
    by (rewrite load_config_run, Hfile, Hload; reflexivity).
  unfold main. rewrite (and_then_Done _ _ _ _ _ _ Hcfg).
  rewrite E1, E2, E3. cbn [app].
  unfold and_then, lift, bind, getitem, contains, ret.
  rewrite Hp. cbn. rewrite Hk. cbn. rewrite set_base_same.
  destruct (run_preset G (VDict c) cmd (base s)) as [[[a | e] w] t];
    reflexivity.
Qed.

(** X23.  On a machine that is set up, the command [twitch-go <preset>]
    for a preset of the configuration is the module-level credential
    loading followed by [run_preset], on the environment that [.env] has
    completed: it performs the same actions, after the warning when there
    is no [.env], ends the same way and leaves the same world. *)
Theorem twitch_go_runs_the_preset pf key rest s content c ps preset :
  is_first_run s = false ->
  installed CONFIG_FILE s = Some content ->
  safe_load pf content = Some (VDict c) ->
  lookup "presets" c = Some (VDict ps) ->
  lookup key ps = Some preset ->
  ~ In key reserved ->
  let r := go_live (environment pf s) (VDict c) key (base s) in
  events (actions_of (twitch_go pf (key :: rest) s)) =
    (if is_some (installed ENV_FILE s) then [] else [Print env_warning])
    ++ trace_of r /\
  launches (actions_of (twitch_go pf (key :: rest) s)) = [] /\
  result_of (twitch_go pf (key :: rest) s) =
    match outcome_of r with
    | Ret a => Done a
    | Raise e => Failed (Exn e)
    end /\
  base (system_of (twitch_go pf (key :: rest) s)) = world_of r.
Proof.
  intros Hrun Hfile Hload Hp Hk Hcmd r. subst r.
  pose proof (startup_run pf s Hrun) as Hs. cbv zeta in Hs.
  set (s1 := set_os_environ (environment pf s) (system_of (bootstrap pf s)))
    in *.
  assert (Hbase : base s1 = base s /\ installed CONFIG_FILE s1 = Some content).
  { subst s1. clear Hs. revert Hrun Hfile.
    bootstrap_cases s; try discriminate;
      intros _ H; split; try reflexivity; exact H. }
  destruct Hbase as [Hbase Hfile1].
  unfold lift in Hs. rewrite Hbase in Hs.
  unfold twitch_go, go_live, bind.
  destruct (load_environment (environment pf s) (base s)) as [[[G | e] w1] t1];
    unfold result_of, system_of, actions_of in Hs; cbn [fst snd] in Hs.
  - rewrite (and_then_Done _ _ _ _ _ _ Hs).
    assert (Hfile2 : installed CONFIG_FILE (set_base w1 s1) = Some content)
      by exact Hfile1.
    rewrite (main_preset pf G key rest _ content c ps preset
               Hfile2 Hload Hp Hk Hcmd).
    unfold lift. cbn [base set_base].
    destruct (run_preset G (VDict c) key w1) as [[[a | e] w2] t2];
      unfold result_of, system_of, actions_of, outcome_of, world_of, trace_of;
      cbn [fst snd base set_base];
      rewrite !events_app, !launches_app, !events_Did, !launches_Did;
      destruct (is_some (installed ENV_FILE s)); repeat split; reflexivity.
  - rewrite (and_then_Failed _ _ _ _ _ _ Hs).
    unfold result_of, system_of, actions_of, outcome_of, world_of, trace_of.
    cbn [fst snd base set_base].
    rewrite !events_app, !launches_app, !events_Did, !launches_Did.
    destruct (is_some (installed ENV_FILE s)); repeat split; reflexivity.
Qed.

(** ** The release script: [bump_version] *)

Lemma numeric_char c :
  numeric c = true ->
  (N_of_ascii c <? 127)%N = true /\ (N_of_ascii c <? 128)%N = true /\
  is_space (N_of_ascii c) = false /\ Ascii.eqb c dot = false.
Proof.
  destruct c as [[] [] [] [] [] [] [] []]; intros H; try discriminate H;
    repeat split; reflexivity.
Qed.

Lemma digit_spec d :
  (0 <= d < 10)%Z ->
  byte_in 48 57 (digit d) = true /\
  N_of_ascii (digit d) = (48 + Z.to_N d)%N.
Proof.
  intros H.
  assert (Hd : (d = 0 \/ d = 1 \/ d = 2 \/ d = 3 \/ d = 4 \/ d = 5 \/ d = 6 \/
                d = 7 \/ d = 8 \/ d = 9)%Z) by lia.
  repeat (destruct Hd as [-> | Hd]; [split; reflexivity |]).
  subst d. split; reflexivity.
Qed.

Lemma digit_char c :
  byte_in 48 57 c = true ->
  (N_of_ascii c =? 45)%N = false /\ (N_of_ascii c =? 43)%N = false /\
  is_space (N_of_ascii c) = false.
Proof.
  destruct c as [[] [] [] [] [] [] [] []]; intros H; try discriminate H;
    repeat split; reflexivity.
Qed.

Lemma decimal_numeric fuel n acc :
  (0 <= n)%Z -> all_chars numeric acc = true ->
  all_chars numeric (decimal fuel n acc) = true.
Proof.
  revert n acc. induction fuel as [| fuel IH]; intros n acc Hn Hacc;
    [exact Hacc |].
  cbn [decimal].
  assert (Hmod : (0 <= n mod 10 < 10)%Z) by (apply Z.mod_pos_bound; lia).
  destruct (digit_spec _ Hmod) as [H1 _].
  assert (Hacc' : all_chars numeric (String (digit (n mod 10)) acc) = true)
    by (cbn [all_chars]; rewrite Hacc; unfold numeric; rewrite H1; reflexivity).
  destruct (n <? 10)%Z; [exact Hacc' |].
  apply IH; [apply Z.div_pos; lia | exact Hacc'].
Qed.

(** A str of digits and minus signs is read by [int] byte by byte. *)
Lemma numeric_codes s :
  all_chars numeric s = true ->
  code_points s 0 0 0 = Some (codes s) /\ to_ascii (codes s) = Some (codes s).
Proof.
  induction s as [| c r IH]; intros H; [split; reflexivity |].
  cbn [all_chars] in H. apply andb_prop in H. destruct H as [Hc Hr].
  destruct (numeric_char c Hc) as (H127 & H128 & _).
  destruct (IH Hr) as [I1 I2].
  cbn [code_points codes to_ascii]. cbv zeta.
  rewrite H128, H127, I1, I2. split; reflexivity.
Qed.

Lemma read_digit d l acc k seen :
  (0 <= d < 10)%Z ->
  digits (N_of_ascii (digit d) :: l) acc k seen =
  digits l (10 * acc + d) (k + 1) true.
Proof.
  intros Hd. destruct (digit_spec d Hd) as [_ ->].
  cbn [digits].
  assert (H1 : (48 <=? 48 + Z.to_N d)%N = true) by (apply N.leb_le; lia).
  assert (H2 : (48 + Z.to_N d <=? 57)%N = true) by (apply N.leb_le; lia).
  rewrite H1, H2. cbn [andb].
  replace (Z.of_N (48 + Z.to_N d - 48)) with d by lia. reflexivity.
Qed.

(** The digits written for [n]: there are [k] of them, no more than [m]
    exactly when [n] is below [10 ^ m], and they read back as [n]. *)
Lemma decimal_read fuel n acc seen :
  (0 <= n < 2 ^ Z.of_nat (S fuel))%Z ->
  exists k,
    1 <= k /\
    String.length (decimal (S fuel) n acc) = k + String.length acc /\
    digits (codes (decimal (S fuel) n acc)) 0 0 seen =
      digits (codes acc) n (Z.of_nat k) true /\
    (forall m, 1 <= m -> (k <= m <-> (n < 10 ^ Z.of_nat m)%Z)).
Proof.
  revert n acc seen. induction fuel as [| fuel IH]; intros n acc seen Hn.
  - exists 1.
    assert (Hlt : (n <? 10)%Z = true) by (apply Z.ltb_lt; cbn in Hn; lia).
    assert (Hm : (n mod 10 = n)%Z) by (apply Z.mod_small; cbn in Hn; lia).
    cbn [decimal]. rewrite Hlt, Hm. cbn [codes String.length].
    rewrite read_digit by (cbn in Hn; lia).
    repeat split; try reflexivity; try lia.
    intros _. apply Z.lt_le_trans with (10 ^ 1)%Z; [cbn in Hn |- *; lia |].
    apply Z.pow_le_mono_r; lia.
  - change (decimal (S (S fuel)) n acc) with
      (let acc' := String (digit (n mod 10)) acc in
       if (n <? 10)%Z then acc' else decimal (S fuel) (n / 10) acc').
    cbv zeta.
    assert (Hmod : (0 <= n mod 10 < 10)%Z) by (apply Z.mod_pos_bound; lia).
    destruct (n <? 10)%Z eqn:Hlt.
    + apply Z.ltb_lt in Hlt. exists 1. cbn [codes String.length].
      rewrite read_digit by exact Hmod.
      rewrite Z.mod_small by lia.
      repeat split; try reflexivity; try lia.
      intros _. apply Z.lt_le_trans with (10 ^ 1)%Z; [lia |].
      apply Z.pow_le_mono_r; lia.
    + apply Z.ltb_ge in Hlt.
      assert (Hdiv : (0 <= n / 10 < 2 ^ Z.of_nat (S fuel))%Z).
      { rewrite (Nat2Z.inj_succ (S fuel)), Z.pow_succ_r in Hn by lia.
        split; [apply Z.div_pos; lia |].
        apply Z.div_lt_upper_bound; lia. }
      destruct (IH (n / 10)%Z (String (digit (n mod 10)) acc) seen Hdiv)
        as (k & Hk & Hlen & Hread & Hbound).
      exists (S k). split; [lia |]. split; [| split].
      * rewrite Hlen. cbn [String.length]. lia.
      * rewrite Hread. cbn [codes]. rewrite read_digit by exact Hmod.
        f_equal; [pose proof (Z.div_mod n 10); lia | lia].
      * intros m Hm. destruct m as [| [| m]]; [lia | |].
        -- split; [lia |]. change (10 ^ Z.of_nat 1)%Z with 10%Z. lia.
        -- specialize (Hbound (S m) ltac:(lia)).
           rewrite (Nat2Z.inj_succ (S m)), Z.pow_succ_r by lia.
           split.
           ++ intros Hle. assert (Hq : (n / 10 < 10 ^ Z.of_nat (S m))%Z)
                by (apply Hbound; lia).
              pose proof (Z.div_mod n 10). lia.
           ++ intros Hlt'. assert (k <= S m); [| lia].
              apply Hbound. apply Z.div_lt_upper_bound; lia.
Qed.

Lemma int_max_str_digits_pos : (1 <= int_max_str_digits)%Z.
Proof. unfold int_max_str_digits. lia. Qed.

Lemma decimal_head fuel n acc :
  (0 <= n)%Z ->
  exists c r, decimal (S fuel) n acc = String c r /\ byte_in 48 57 c = true.
Proof.
  revert n acc. induction fuel as [| fuel IH]; intros n acc Hn.
  - cbn [decimal].
    assert (Hmod : (0 <= n mod 10 < 10)%Z) by (apply Z.mod_pos_bound; lia).
    destruct (digit_spec _ Hmod) as [H1 _].
    destruct (n <? 10)%Z; eexists; eexists; split; try reflexivity; exact H1.
  - change (decimal (S (S fuel)) n acc) with
      (let acc' := String (digit (n mod 10)) acc in
       if (n <? 10)%Z then acc' else decimal (S fuel) (n / 10) acc').
    cbv zeta.
    assert (Hmod : (0 <= n mod 10 < 10)%Z) by (apply Z.mod_pos_bound; lia).
    destruct (digit_spec _ Hmod) as [H1 _].
    destruct (n <? 10)%Z.
    + eexists; eexists; split; [reflexivity | exact H1].
    + apply IH. apply Z.div_pos; lia.
Qed.

Lemma fuel_enough n :
  (0 <= n)%Z -> (0 <= n < 2 ^ Z.of_nat (S (Z.to_nat (Z.log2 n))))%Z.
Proof.
  intros Hn. split; [exact Hn |].
  rewrite Nat2Z.inj_succ, Z2Nat.id by apply Z.log2_nonneg.
  destruct (Z.eq_dec n 0) as [-> | Hne]; [reflexivity |].
  apply Z.log2_spec. lia.
Qed.

Lemma digits_of_numeric n : all_chars numeric (digits_of n) = true.
Proof. apply decimal_numeric; [lia | reflexivity]. Qed.

(** The digits of [n]: within the limit exactly when [n] is writable, and
    read back as [|n|]. *)
Lemma digits_of_read n :
  exists k,
    String.length (digits_of n) = k /\
    digits (codes (digits_of n)) 0 0 false = Some (Z.abs n, Z.of_nat k) /\
    (Z.of_nat k <=? int_max_str_digits)%Z = writable n.
Proof.
  unfold digits_of.
  destruct (decimal_read (Z.to_nat (Z.log2 (Z.abs n))) (Z.abs n) "" false
              (fuel_enough _ (Z.abs_nonneg n)))
    as (k & Hk & Hlen & Hread & Hbound).
  exists k. cbn [String.length] in Hlen. rewrite Nat.add_0_r in Hlen.
  split; [exact Hlen |]. split; [exact Hread |].
  unfold writable.
  pose proof int_max_str_digits_pos as Hpos.
  specialize (Hbound (Z.to_nat int_max_str_digits) ltac:(lia)).
  rewrite Z2Nat.id in Hbound by lia.
  destruct (Z.abs n <? 10 ^ int_max_str_digits)%Z eqn:E.
  - apply Z.ltb_lt in E. apply Z.leb_le. apply Hbound in E.
    clear Hbound Hread. lia.
  - apply Z.ltb_ge in E. apply Z.leb_gt.
    assert (Hk' : ~ k <= Z.to_nat int_max_str_digits).
    { intros Hle. apply Hbound in Hle. apply (Z.lt_irrefl (Z.abs n)).
      apply Z.lt_le_trans with (10 ^ int_max_str_digits)%Z; assumption. }
    clear Hbound Hread E. lia.
Qed.

(** [str(n)] succeeds exactly on the writable ints. *)
Lemma str_of_int_run n :
  str_of_int n = if writable n then Ret (written n) else Raise ValueError.
Proof.
  unfold str_of_int. cbv zeta.
  destruct (digits_of_read n) as (k & Hlen & _ & Hlim).
  rewrite Hlen, Hlim. reflexivity.
Qed.

Lemma written_numeric n : all_chars numeric (written n) = true.
Proof.
  unfold written. destruct (n <? 0)%Z; [cbn [all_chars] |];
    rewrite digits_of_numeric; reflexivity.
Qed.

(** [int(str(n)) == n] *)
Lemma py_int_written n : writable n = true -> py_int (written n) = Some n.
Proof.
  intros Hw. unfold py_int.
  destruct (numeric_codes _ (written_numeric n)) as [-> ->].
  destruct (digits_of_read n) as (k & _ & Hread & Hlim).
  rewrite Hw in Hlim.
  unfold written. destruct (n <? 0)%Z eqn:Hlt.
  - apply Z.ltb_lt in Hlt. cbn [codes].
    change (N_of_ascii "-") with 45%N.
    cbn [skip_spaces]. change (is_space 45) with false. cbv iota.
    change (45 =? 45)%N with true. cbv iota beta zeta. cbn [fst snd].
    rewrite Hread, Hlim. f_equal. lia.
  - apply Z.ltb_ge in Hlt.
    destruct (decimal_head (Z.to_nat (Z.log2 (Z.abs n))) (Z.abs n) ""
                (Z.abs_nonneg n)) as (c & r & E & Hc).
    fold (digits_of n) in E. rewrite E in Hread |- *.
    destruct (digit_char c Hc) as (H45 & H43 & Hsp).
    cbn [codes] in Hread |- *. cbn [skip_spaces]. rewrite Hsp.
    cbv iota beta zeta. rewrite H45, H43. cbn [fst snd].
    rewrite Hread, Hlim. f_equal. lia.
Qed.

Lemma split_numeric s : all_chars numeric s = true -> split dot s = [s].
Proof.
  induction s as [| c r IH]; intros H; [reflexivity |].
  cbn [all_chars] in H. apply andb_prop in H. destruct H as [Hc Hr].
  destruct (numeric_char c Hc) as (_ & _ & _ & Hdot).
  cbn [split]. rewrite Hdot, (IH Hr). reflexivity.
Qed.

Lemma split_numeric_dot s t :
  all_chars numeric s = true ->
  split dot (s ++ String dot t) = s :: split dot t.
Proof.
  induction s as [| c r IH]; intros H; [reflexivity |].
  cbn [all_chars] in H. apply andb_prop in H. destruct H as [Hc Hr].
  destruct (numeric_char c Hc) as (_ & _ & _ & Hdot).
  cbn [String.append split]. rewrite Hdot, (IH Hr). reflexivity.
Qed.

(** The version written for three numbers reads back as these numbers. *)
Lemma version_numbers_written a b c :
  writable a = true -> writable b = true -> writable c = true ->
  split dot (written a ++ "." ++ written b ++ "." ++ written c) =
    [written a; written b; written c] /\
  version_numbers (written a ++ "." ++ written b ++ "." ++ written c) =
    Some (a, b, c).
Proof.
  intros Ha Hb Hc.
  assert (Hs : split dot (written a ++ "." ++ written b ++ "." ++ written c) =
               [written a; written b; written c]).
  { change ("." ++ ?x)%string with (String dot x).
    rewrite (split_numeric_dot _ _ (written_numeric a)).
    change ("." ++ ?x)%string with (String dot x).
    rewrite (split_numeric_dot _ _ (written_numeric b)).
    rewrite (split_numeric _ (written_numeric c)). reflexivity. }
  split; [exact Hs |].
  unfold version_numbers.
  rewrite Hs, (py_int_written a Ha), (py_int_written b Hb),
    (py_int_written c Hc).
  reflexivity.
Qed.

(** The ints of everyday use are writable. *)
Lemma writable_below n : (Z.abs n < 10 ^ 18)%Z -> writable n = true.
Proof.
  intros H. unfold writable. apply Z.ltb_lt.
  apply Z.lt_le_trans with (10 ^ 18)%Z; [exact H |].
  apply Z.pow_le_mono_r; unfold int_max_str_digits; lia.
Qed.

(** [bump_version] once the three numbers are read. *)
Lemma bump_version_run v bump_type major minor patch a b c :
  version_numbers v = Some (major, minor, patch) ->
  bumped bump_type (major, minor, patch) = (a, b, c) ->
  bump_version v bump_type =
  then_ (str_of_int a) (fun x =>
  then_ (str_of_int b) (fun y =>
  then_ (str_of_int c) (fun z =>
  Ret (x ++ "." ++ y ++ "." ++ z)%string))).
Proof.
  intros H Hb. unfold version_numbers in H.
  unfold bump_version, nth_part, int_of.
  destruct (split dot v) as [| p [| q [| r rest]]]; try discriminate.
  cbn [nth_error then_].
  destruct (py_int p) as [x |]; [| discriminate].
  destruct (py_int q) as [y |]; [| discriminate].
  destruct (py_int r) as [z |]; [| discriminate].
  injection H as -> -> ->. cbn [then_].
  unfold bumped in Hb.
  destruct (bump_type =? "major"); [| destruct (bump_type =? "minor");
                                      [| destruct (bump_type =? "patch")]];
    injection Hb as <- <- <-; reflexivity.
Qed.

(** X24.  For a version that starts with three numbers separated by dots,
    [bump_version] writes the numbers after the bump: the next major,
    minor or patch number with the lower ones reset to zero, and the same
    numbers for a kind of bump it does not know.  When each of them is
    below [10 ^ 4300], it returns a version of exactly three parts, which
    read back as these numbers: what follows the third number is dropped,
    and the result can be bumped again.  When one of them is not, which
    the bump of a number of 4300 nines gives, it raises ValueError. *)
Theorem bump_version_canonical v bump_type major minor patch a b c :
  version_numbers v = Some (major, minor, patch) ->
  bumped bump_type (major, minor, patch) = (a, b, c) ->
  (writable a && writable b && writable c = true ->
   exists v',
     bump_version v bump_type = Ret v' /\
     List.length (split dot v') = 3 /\
     version_numbers v' = Some (a, b, c)) /\
  (writable a && writable b && writable c = false ->
   bump_version v bump_type = Raise ValueError).
Proof.
  intros H Hb. rewrite (bump_version_run _ _ _ _ _ _ _ _ H Hb).
  rewrite !str_of_int_run. split.
  - intros Hw. apply andb_prop in Hw. destruct Hw as [Hw Hc].
    apply andb_prop in Hw. destruct Hw as [Ha Hb'].
    rewrite Ha, Hb', Hc. cbn [then_].
    destruct (version_numbers_written a b c Ha Hb' Hc) as [Hs Hv].
    eexists. split; [reflexivity |]. rewrite Hs, Hv. split; reflexivity.
  - intros Hw.
    destruct (writable a); [| reflexivity].
    destruct (writable b); [| reflexivity].
    destruct (writable c); [discriminate | reflexivity].
Qed.

(** X25.  A version with fewer than three parts cannot be bumped: when
    the parts it has are numbers, [bump_version] raises IndexError. *)
Theorem bump_version_needs_three_parts v bump_type :
  List.length (split dot v) < 3 ->
  (forall part, In part (split dot v) -> py_int part <> None) ->
  bump_version v bump_type = Raise IndexError.
Proof.
  unfold bump_version, nth_part, int_of, then_.
  destruct (split dot v) as [| a [| b [| c rest]]]; cbn [List.length nth_error];
    intros Hlen Hnum; try lia; try reflexivity.
  - destruct (py_int a) eqn:Ha; [reflexivity |].
    exfalso. apply (Hnum a); [left; reflexivity | exact Ha].
  - destruct (py_int a) eqn:Ha.
    + destruct (py_int b) eqn:Hb; [reflexivity |].
      exfalso. apply (Hnum b); [right; left; reflexivity | exact Hb].
    + exfalso. apply (Hnum a); [left; reflexivity | exact Ha].
Qed.

(** ** The OBS port *)

(** X26.  The port of OBS is read from [OBS_WS_PORT] with [int] and is not
    checked further: when the three credentials are set, whatever integer
    the variable holds as [str] writes it, negative or beyond 65535
    included, the module loads and [OBS_PORT] is that integer. *)
Theorem obs_port_is_not_range_checked environ n port w id secret uri :
  lookup "TWITCH_CLIENT_ID" environ = Some id ->
  lookup "TWITCH_CLIENT_SECRET" environ = Some secret ->
  lookup "TWITCH_REDIRECT_URI" environ = Some uri ->
  str_of_int n = Ret port ->
  lookup "OBS_WS_PORT" environ = Some port ->
  exists G,
    load_environment environ w = (Ret G, w, []) /\
    OBS_PORT G = n /\
    CLIENT_ID G = id /\ CLIENT_SECRET G = secret /\ REDIRECT_URI G = uri.
Proof.
  intros H1 H2 H3 Hstr Hport.
  rewrite str_of_int_run in Hstr.
  destruct (writable n) eqn:Hw; [| discriminate]. injection Hstr as <-.
  unfold load_environment, try_except, bind, environ_getitem, raise, ret.
  rewrite H1, H2, H3, Hport, (py_int_written n Hw).
  eexists. split; [reflexivity |]. repeat split.
Qed.

(** * The further properties on sample runs *)

(** X2 on an OBS that is streaming. *)
Lemma stop_gated_on_status_witness :
  In (ObsGetStreamStatus true)
     (trace_of (stop_obs sample_globals (sample_world [] [] true))) /\
  count is_stop
    (trace_of (stop_obs sample_globals (sample_world [] [] true))) = 1.
Proof.
  assert (Hin :
    In (ObsGetStreamStatus true)
       (trace_of (stop_obs sample_globals (sample_world [] [] true))))
    by in_list.
  split; [exact Hin |].
  destruct (stop_gated_on_status sample_globals _ true Hin) as [H _].
  exact H.
Defined.

(** X3 on the run in which everything succeeds but OBS is not running. *)
Lemma obs_only_after_update_witness :
  In (ObsConnect "localhost" 4455 (VStr "obs-pw") false)
     (trace_of (run_preset sample_globals sample_cfg "valorant" obs_down)) /\
  outcome_of (run_preset sample_globals sample_cfg "valorant" obs_down) =
    Raise OBSError /\
  count is_patch
    (trace_of (run_preset sample_globals sample_cfg "valorant" obs_down)) = 1.
Proof.
  assert (Hin :
    In (ObsConnect "localhost" 4455 (VStr "obs-pw") false)
       (trace_of (run_preset sample_globals sample_cfg "valorant" obs_down)))
    by in_list.
  destruct (obs_only_after_update sample_globals sample_cfg "valorant" obs_down
              _ Hin eq_refl) as [_ H].
  split; [exact Hin |]. split; [apply (H _ _ _ eq_refl) |].
  vm_compute. reflexivity.
Defined.

(** X4 on [stop_obs] when OBS is not running. *)
Lemma obs_helpers_fail_early_witness :
  stop_obs sample_globals obs_down =
  (Raise OBSError, obs_down, [ObsConnect "localhost" 4455 (VStr "obs-pw") false]).
Proof.
  destruct (obs_helpers_fail_early sample_globals obs_down
              (stop_obs sample_globals) (or_intror eq_refl)) as (_ & H & _).
  apply (H "localhost" 4455%Z (VStr "obs-pw")). in_list.
Defined.

(** X5 on the run in which everything succeeds. *)
Lemma stored_tokens_skip_authorization_witness :
  token_file happy = Holds stored_tokens /\
  count is_code_prompt
    (trace_of (run_preset sample_globals sample_cfg "valorant" happy)) = 0 /\
  count is_exchange
    (trace_of (run_preset sample_globals sample_cfg "valorant" happy)) = 0.
Proof.
  split; [reflexivity |].
  apply (stored_tokens_skip_authorization sample_globals sample_cfg "valorant"
           happy stored_tokens); reflexivity.
Defined.

(** X6 on the first run of a user who pastes the code with spaces around
    it. *)
Lemma authorization_only_without_tokens_witness :
  In (Http (exchange_request sample_globals "c0de")
           (Response 200 (Some new_tokens)))
     (trace_of (run_preset sample_globals sample_cfg "valorant" unauthorized)) /\
  token_file unauthorized = Absent /\
  exists line post,
    trace_of (run_preset sample_globals sample_cfg "valorant" unauthorized) =
      authorize_lines sample_globals ++
      Input code_prompt (Some line) ::
      Http (exchange_request sample_globals "c0de")
           (Response 200 (Some new_tokens)) :: post /\
    exchange_request sample_globals "c0de" =
      exchange_request sample_globals (strip line) /\
    count is_exchange post = 0 /\ count is_code_prompt post = 0.
Proof.
  assert (Hin :
    In (Http (exchange_request sample_globals "c0de")
             (Response 200 (Some new_tokens)))
       (trace_of (run_preset sample_globals sample_cfg "valorant" unauthorized)))
    by in_list.
  split; [exact Hin |]. split; [reflexivity |].
  apply (authorization_only_without_tokens sample_globals sample_cfg "valorant"
           unauthorized _ _ Hin eq_refl).
Defined.

(** X7 on the first run whose code is rejected, and on the one whose code
    is accepted. *)
Lemma code_exchange_outcome_witness :
  In (Http (exchange_request sample_globals "c0de") (Response 400 None))
     (trace_of (run_preset sample_globals sample_cfg "valorant" code_rejected)) /\
  outcome_of (run_preset sample_globals sample_cfg "valorant" code_rejected) =
    Raise (HTTPError 400) /\
  token_file (world_of (run_preset sample_globals sample_cfg "valorant"
                          code_rejected)) = Absent /\
  count is_auth
    (trace_of (run_preset sample_globals sample_cfg "valorant" code_rejected)) = 0 /\
  token_file (world_of (run_preset_tokens sample_globals unauthorized)) =
    Holds new_tokens.
Proof.
  assert (Hin :
    In (Http (exchange_request sample_globals "c0de") (Response 400 None))
       (trace_of (run_preset sample_globals sample_cfg "valorant" code_rejected)))
    by in_list.
  assert (Hin' :
    In (Http (exchange_request sample_globals "c0de")
             (Response 200 (Some new_tokens)))
       (trace_of (run_preset sample_globals sample_cfg "valorant" unauthorized)))
    by in_list.
  destruct (code_exchange_outcome sample_globals sample_cfg "valorant"
              code_rejected _ _ Hin eq_refl) as [H _].
  destruct (H (HTTPError 400) eq_refl) as (Ho & _ & Hf & Hc).
  destruct (code_exchange_outcome sample_globals sample_cfg "valorant"
              unauthorized _ _ Hin' eq_refl) as [_ H'].
  destruct (H' new_tokens eq_refl) as [Hsaved _].
  repeat split; assumption.
Defined.

(** X10 on the run whose account lookup finds no account. *)
Lemma account_lookup_without_account_witness :
  first_answer is_account_lookup
    (trace_of (run_preset sample_globals sample_cfg "valorant" no_account)) =
    Some (Response 200 (Some (VDict [("data", VList [])]))) /\
  outcome_of (run_preset sample_globals sample_cfg "valorant" no_account) =
    Raise IndexError /\
  count is_refresh
    (trace_of (run_preset sample_globals sample_cfg "valorant" no_account)) = 0.
Proof.
  assert (Hfirst :
    first_answer is_account_lookup
      (trace_of (run_preset sample_globals sample_cfg "valorant" no_account)) =
      Some (Response 200 (Some (VDict [("data", VList [])]))))
    by (vm_compute; reflexivity).
  destruct (account_lookup_without_account sample_globals sample_cfg "valorant"
              no_account 200 [("data", VList [])] Hfirst eq_refl eq_refl)
    as (Ho & Hr & _).
  split; [exact Hfirst |]. split; assumption.
Defined.

(** X8 on the preset whose tags hold a number. *)
Lemma tags_must_be_strings_witness :
  join ", " (VList [VStr "Chess"; VInt 2024]) = None /\
  count is_patch (trace_of (run_preset sample_globals odd_cfg "stop" happy)) = 0.
Proof.
  split; [reflexivity |].
  destruct (tags_must_be_strings sample_globals odd_items
              [("stop", VDict odd_preset)] odd_preset
              (VList [VStr "Chess"; VInt 2024]) "stop" happy
              eq_refl eq_refl eq_refl eq_refl eq_refl) as (_ & _ & H & _).
  exact H.
Defined.

(** X9 on the run in which everything succeeds. *)
Lemma auto_start_gates_obs_witness :
  In (Http (patch_request sample_globals (VStr "old-access") (VStr "1337")
             (payload_of (VStr "Ranked grind") (VStr "516575")
                (VList [VStr "FPS"])))
           (Response 204 None))
     (trace_of (run_preset sample_globals sample_cfg "valorant" happy)) /\
  (1 <= count is_obs
          (trace_of (run_preset sample_globals sample_cfg "valorant" happy)) \/
   outcome_of (run_preset sample_globals sample_cfg "valorant" happy) =
     Raise (SystemExit 1)).
Proof.
  assert (Hin :
    In (Http (patch_request sample_globals (VStr "old-access") (VStr "1337")
               (payload_of (VStr "Ranked grind") (VStr "516575")
                  (VList [VStr "FPS"])))
             (Response 204 None))
       (trace_of (run_preset sample_globals sample_cfg "valorant" happy)))
    by in_list.
  split; [exact Hin |].
  apply (auto_start_gates_obs sample_globals
           [("version", VInt 1);
            ("defaults", VDict [("obs", VDict [("auto_start", VBool true)]);
                                ("prompts", VDict [("confirm", VBool true)])]);
            ("presets", VDict [("valorant", sample_preset)])]
           [("obs", VDict [("auto_start", VBool true)]);
            ("prompts", VDict [("confirm", VBool true)])]
           [("auto_start", VBool true)]
           "valorant" happy eq_refl eq_refl _ _ Hin eq_refl eq_refl).
Defined.

(** X13 on a [config.yaml] that is not valid YAML, for [edit]. *)
Lemma main_requires_config_witness :
  main sample_platform sample_globals ["edit"]
    (configured "presets: [" None happy) =
  (Failed YAMLError, configured "presets: [" None happy, []).
Proof.
  apply (main_requires_config sample_platform sample_globals ["edit"]
           (configured "presets: [" None happy)).
  reflexivity.
Defined.

(** X14 on [edit env] with an empty [EDITOR] and [nano] as [VISUAL], on
    a machine without [.env], where the user saves the secrets. *)
Lemma edit_command_opens_targets_witness :
  edit_command sample_platform (Some "env")
    (configured "the configuration" None happy) =
  (Done tt, configured "the configuration" (Some "the secrets") happy,
   [Run ["nano"; "/home/streamer/.twitch-go/.env"]]) /\
  installed CONFIG_FILE
    (system_of (edit_command sample_platform (Some "env")
                  (configured "the configuration" None happy))) =
    Some "the configuration".
Proof.
  assert (H : chooses sample_platform
                (configured "the configuration" None happy) "nano")
    by (apply ChoosesVisual; [right; reflexivity | reflexivity | discriminate]).
  destruct (edit_command_opens_targets sample_platform
              (configured "the configuration" None happy) (Some "env") "nano" H)
    as (Hrun & _ & _ & _ & Hframe).
  split; [exact Hrun |].
  rewrite (Hframe CONFIG_FILE); [reflexivity |].
  intros [Hin | []]. discriminate Hin.
Defined.

(** X15 on a configuration with a preset named [stop]. *)
Lemma reserved_commands_shadow_presets_witness :
  In "stop" reserved /\
  lookup "presets" odd_items = Some (VDict [("stop", VDict odd_preset)]) /\
  count is_network
    (events (actions_of (main sample_platform sample_globals ["stop"]
                           (configured "the odd configuration" None happy)))) = 0.
Proof.
  assert (Hin : In "stop" reserved) by (cbn; tauto).
  split; [exact Hin |]. split; [reflexivity |].
  destruct (reserved_commands_shadow_presets sample_platform sample_globals
              "stop" [] (configured "the odd configuration" None happy) Hin)
    as [H _].
  exact H.
Defined.

(** X16 on the sample configuration and its preset. *)
Lemma main_runs_the_presets_it_finds_witness :
  main sample_platform sample_globals ["valorant"]
    (configured "the configuration" None happy) =
  lift (run_preset sample_globals sample_cfg "valorant")
    (configured "the configuration" None happy).
Proof.
  assert (Hcmd : ~ In "valorant" reserved)
    by (cbn; intros [H | [H | [H | []]]]; discriminate).
  destruct (main_runs_the_presets_it_finds sample_platform sample_globals
              "valorant" [] (configured "the configuration" None happy)
              "the configuration" sample_cfg eq_refl eq_refl Hcmd)
    as [(c & ps & preset & _ & _ & _ & _ & H) | (e & H & _)].
  - exact H.
  - exfalso. vm_compute in H. discriminate.
Defined.

(** X19 on the sample configuration. *)
Lemma usage_lists_presets_witness :
  main sample_platform sample_globals []
    (configured "the configuration" None happy) =
  (Done tt, configured "the configuration" None happy,
   [Did (Print [Lit usage]); Did (usage_entry "valorant" (VStr "Valorant"))]).
Proof.
  apply (usage_lists_presets sample_platform sample_globals
           (configured "the configuration" None happy) "the configuration"
           [("version", VInt 1);
            ("defaults", VDict [("obs", VDict [("auto_start", VBool true)]);
                                ("prompts", VDict [("confirm", VBool true)])]);
            ("presets", VDict [("valorant", sample_preset)])]
           [("valorant", sample_preset)] [VStr "Valorant"]);
    reflexivity.
Defined.

(** X21 on the machine before the first run, for a preset. *)
Lemma first_run_only_scaffolds_witness :
  is_first_run fresh = true /\
  result_of (twitch_go sample_platform ["valorant"] fresh) =
    Failed (Exn (SystemExit 0)) /\
  installed CONFIG_FILE (system_of (twitch_go sample_platform ["valorant"] fresh)) =
    Some DEFAULT_CONFIG_EXAMPLE.
Proof.
  split; [reflexivity |].
  destruct (first_run_only_scaffolds sample_platform ["valorant"] fresh)
    as [H _].
  rewrite (H eq_refl). split; reflexivity.
Defined.

(** X22 on a machine that is set up but has no [.env] and no credentials
    in its environment, for [edit env]. *)
Lemma credentials_before_any_command_witness :
  is_first_run (configured "the configuration" None happy) = false /\
  exists k,
    result_of (twitch_go sample_platform ["edit"; "env"]
                 (configured "the configuration" None happy)) =
      Failed (Exn (SystemExit 1)) /\
    launches (actions_of (twitch_go sample_platform ["edit"; "env"]
                            (configured "the configuration" None happy))) = [] /\
    events (actions_of (twitch_go sample_platform ["edit"; "env"]
                          (configured "the configuration" None happy))) =
      [Print env_warning;
       Print [Lit "ERROR: "; Lit "Missing required environment variable: ";
              Repr (VStr k)]].
Proof.
  split; [reflexivity |].
  destruct (credentials_before_any_command sample_platform ["edit"; "env"]
              (configured "the configuration" None happy) eq_refl
              (or_introl eq_refl)) as (k & _ & H1 & H2 & H3).
  exists k. repeat split; assumption.
Defined.

(** X18 on the sample configuration, which has no section to show. *)
Lemma intro_prints_one_text_witness :
  exists t, t <> "" /\
    print_intro_info sample_platform false false false
      (configured "the configuration" None happy) =
    (Done tt, configured "the configuration" None happy, [Did (Print [Lit t])]).
Proof.
  destruct (intro_prints_one_text sample_platform
              (configured "the configuration" None happy) "the configuration"
              sample_cfg false false false eq_refl eq_refl) as [H | H].
  - exact H.
  - exfalso. vm_compute in H. discriminate.
Defined.

(** X23 on the machine whose [.env] holds the credentials, for the run in
    which everything succeeds. *)
Lemma twitch_go_runs_the_preset_witness :
  is_first_run (configured "the configuration" (Some "the secrets") happy) = false /\
  result_of (twitch_go sample_platform ["valorant"]
               (configured "the configuration" (Some "the secrets") happy)) =
    Done tt /\
  launches (actions_of (twitch_go sample_platform ["valorant"]
              (configured "the configuration" (Some "the secrets") happy))) = [].
Proof.
  split; [reflexivity |].
  assert (Hcmd : ~ In "valorant" reserved)
    by (cbn; intros [H | [H | [H | []]]]; discriminate).
  destruct (twitch_go_runs_the_preset sample_platform "valorant" []
              (configured "the configuration" (Some "the secrets") happy)
              "the configuration"
              [("version", VInt 1);
               ("defaults", VDict [("obs", VDict [("auto_start", VBool true)]);
                                   ("prompts", VDict [("confirm", VBool true)])]);
               ("presets", VDict [("valorant", sample_preset)])]
              [("valorant", sample_preset)] sample_preset
              eq_refl eq_refl eq_refl eq_refl eq_refl Hcmd)
    as (_ & Hl & Hr & _).
  split; [rewrite Hr; vm_compute; reflexivity | exact Hl].
Defined.

(** X20 on a configuration whose second preset has no game. *)
Lemma usage_stops_at_unnamed_preset_witness :
  exists e,
    main sample_platform sample_globals []
      (configured "a draft preset" None happy) =
    (Failed (Exn e), configured "a draft preset" None happy,
     [Did (Print [Lit usage]); Did (usage_entry "valorant" (VStr "Valorant"))]).
Proof.
  destruct (usage_stops_at_unnamed_preset sample_platform sample_globals
              (configured "a draft preset" None happy) "a draft preset"
              [("presets", VDict [("valorant", sample_preset);
                                  ("draft", VDict []);
                                  ("chess", VDict odd_preset)])]
              [("valorant", sample_preset)] [VStr "Valorant"]
              "draft" (VDict []) [("chess", VDict odd_preset)]
              eq_refl eq_refl eq_refl eq_refl eq_refl) as (e & H & _).
  exists e. exact H.
Defined.

(** X24 on a minor bump of [1.2.3]. *)
Lemma bump_version_canonical_witness :
  version_numbers "1.2.3" = Some (1, 2, 3)%Z /\
  exists v', bump_version "1.2.3" "minor" = Ret v' /\
             version_numbers v' = Some (1, 3, 0)%Z.
Proof.
  split; [reflexivity |].
  destruct (bump_version_canonical "1.2.3" "minor" 1 2 3 1 3 0
              eq_refl eq_refl) as [H _].
  destruct H as (v' & H1 & _ & H2).
  - rewrite !writable_below; reflexivity.
  - exists v'. split; [exact H1 | exact H2].
Defined.

(** X25 on the version [1.2]. *)
Lemma bump_version_needs_three_parts_witness :
  bump_version "1.2" "patch" = Raise IndexError.
Proof.
  apply bump_version_needs_three_parts.
  - cbn. lia.
  - intros part [<- | [<- | []]]; vm_compute; discriminate.
Defined.

(** X26 on a port beyond the range of ports. *)
Lemma obs_port_is_not_range_checked_witness :
  exists G,
    load_environment (("OBS_WS_PORT", "70000") :: sample_environ) happy =
      (Ret G, happy, []) /\
    OBS_PORT G = 70000%Z.
Proof.
  destruct (obs_port_is_not_range_checked
              (("OBS_WS_PORT", "70000") :: sample_environ) 70000 "70000" happy
              "abc123" "s3cret" "http://localhost"
              eq_refl eq_refl eq_refl eq_refl eq_refl) as (G & H1 & H2 & _).
  exists G. split; assumption.
Defined.
